(** * gcn/train.py: a two-layer GCN autoencoder for link prediction

    A shallow embedding of [src/gcn/train.py].  The script is a TensorFlow 1
    graph-mode program: the layer classes build deferred tensor computations,
    and nothing is computed until [sess.run] evaluates a fetched tensor under
    a feed dictionary.  A tensor is therefore embedded as a function from the
    run environment to a result, and the module-level script as a state and
    exception monad over the session, the feed dictionary and the printed
    reports.

    The arithmetic is kept behind the class [Dtype] (the [dtype] argument of
    the source), with the instance [binary32], the IEEE single precision
    format of [tf.float32] with its infinities and NaN. *)

From Stdlib Require Import ZArith List String Lia Floats.SpecFloat.
From stdpp Require Import gmap strings.

Set Implicit Arguments.
Local Open Scope string_scope.
Local Open Scope list_scope.

(** ** Element types *)

Class Dtype (F : Type) := {
  of_int : Z -> F;
  fadd : F -> F -> F;
  fsub : F -> F -> F;
  fmul : F -> F -> F;
  fdiv : F -> F -> F;
  fneg : F -> F;
  fabs : F -> F;
  fsqrt : F -> F;
  fmax : F -> F -> F;
  fis_zero : F -> bool;
  is_finite : F -> bool
}.

(** The transcendental kernels ([exp], [log1p]) of numpy and TensorFlow. *)
Class MathLib (F : Type) := {
  fexp : F -> F;
  flog1p : F -> F
}.

Definition binary32 : Type := spec_float.

#[export] Instance binary32_dtype : Dtype binary32 := {|
  of_int z := binary_normalize 24 128 z 0 false;
  fadd := SFadd 24 128;
  fsub := SFsub 24 128;
  fmul := SFmul 24 128;
  fdiv := SFdiv 24 128;
  fneg := SFopp;
  fabs := SFabs;
  fsqrt := SFsqrt 24 128;
  fmax x y := if SFltb x y then y else x;
  fis_zero x := SFeqb x (S754_zero false);
  is_finite x :=
    match x with
    | S754_infinity _ | S754_nan => false
    | _ => true
    end
|}.

(** ** Exceptions and results *)

(** The exception classes a run can end in.  [InvalidArgumentError] is what
    TensorFlow raises for an unfed placeholder, a shape mismatch and a failed
    [check_numerics]; [FailedPreconditionError] for an uninitialised
    variable; [ValueError] is scikit-learn's; [IndexError] numpy's and
    scipy's; [ZeroDivisionError] Python's own, for a division of a Python
    number by a float zero.  [ConfigurationError] is the class the
    specification's error taxonomy names for a rejected hyperparameter. *)
Inductive exn : Type :=
| InvalidArgumentError (msg : string)
| FailedPreconditionError (msg : string)
| ValueError (msg : string)
| IndexError (msg : string)
| ZeroDivisionError (msg : string)
| ConfigurationError (msg : string).

Inductive result (A : Type) : Type :=
| Ok (a : A)
| Raise (e : exn).
Arguments Ok {A} a.
Arguments Raise {A} e.

Definition bind {A B} (m : result A) (k : A -> result B) : result B :=
  match m with
  | Ok a => k a
  | Raise e => Raise e
  end.

Declare Scope result_scope.
Delimit Scope result_scope with result.
Notation "'do' x <- m ; k" := (bind m (fun x => k))
  (at level 10, x name, m at level 100, k at level 200) : result_scope.
Notation "'do' ' p <- m ; k" := (bind m (fun p => k))
  (at level 10, p strict pattern, m at level 100, k at level 200)
  : result_scope.
Local Open Scope result_scope.

Definition is_ok {A} (r : result A) : bool :=
  match r with Ok _ => true | Raise _ => false end.

Definition raises_configuration_error {A} (r : result A) : bool :=
  match r with Raise (ConfigurationError _) => true | _ => false end.

(** ** Dense and sparse values *)

Definition matrix (F : Type) : Type := list (list F).

(** [tf.SparseTensor(indices, values, dense_shape)], also the triple that
    [sparse_to_tuple] produces. *)
Record SparseTensor (F : Type) : Type := {
  indices : list (nat * nat);
  values : list F;
  dense_shape : nat * nat
}.
Arguments indices {F} s.
Arguments values {F} s.
Arguments dense_shape {F} s.

(** What a feed dictionary holds under a placeholder. *)
Inductive feed_value (F : Type) : Type :=
| FSparse (s : SparseTensor F)
| FScalar (x : F).
Arguments FSparse {F} s.
Arguments FScalar {F} x.

(** The environment of one [sess.run] call: the feed dictionary (keyed by the
    placeholder's name), the session's variables, and the number of runs the
    session has executed before, which selects the random draws of this
    run. *)
Record run_env (F : Type) : Type := {
  env_feed : gmap string (feed_value F);
  env_vars : gmap string (matrix F);
  env_run : nat
}.
Arguments env_feed {F} r.
Arguments env_vars {F} r.
Arguments env_run {F} r.

(** A graph-mode tensor: a computation deferred until a run fetches it. *)
Definition tensor (F A : Type) : Type := run_env F -> result A.

Section Kernels.
Context {F : Type} `{Dtype F}.

Definition zero : F := of_int 0.
Definition one : F := of_int 1.

Definition nrows (m : matrix F) : nat := length m.
Definition ncols (m : matrix F) : nat := length (hd [] m).

(** The inner product of a row and a column: every product and every sum is
    rounded on its own, in index order.  TensorFlow's and numpy's kernels may
    fuse a product with a sum and may add in another order, so that the
    entries agree with this one where the intermediate results are exact, as
    they are on the inputs of the layer tests. *)
Definition dot (u v : list F) : F :=
  fold_left (fun acc p => fadd acc (fmul (fst p) (snd p))) (combine u v) zero.

Definition column (j : nat) (m : matrix F) : list F :=
  map (fun row => nth j row zero) m.

(** The columns of [m], as rows: numpy's [m.T], and the columns that a
    product reads of a dense right operand.  The width is that of the first
    row, so that a matrix without rows, or of width 0, has no columns. *)
Definition transpose (m : matrix F) : matrix F :=
  map (fun j => column j m) (seq 0 (ncols m)).

Definition matmul (a b : matrix F) : matrix F :=
  map (fun row => map (fun col => dot row col) (transpose b)) a.

Definition reshape_flat (m : matrix F) : list F := concat m.

(** The stored positions of a sparse tensor all lie inside its dense
    shape. *)
Definition indices_in_bounds (s : SparseTensor F) : bool :=
  forallb (fun ij => Nat.ltb (fst ij) (fst (dense_shape s))
                     && Nat.ltb (snd ij) (snd (dense_shape s)))
          (indices s).

(** One output entry of sparse times dense: the entries of row [i] of the
    sparse operand, each times the matching entry of a dense column. *)
Definition sparse_row_dot (s : SparseTensor F) (i : nat) (col : list F) : F :=
  fold_left
    (fun acc e =>
       if Nat.eqb (fst (fst e)) i
       then fadd acc (fmul (snd e) (nth (snd (fst e)) col zero))
       else acc)
    (combine (indices s) (values s)) zero.

Definition sparse_dense_matmul (s : SparseTensor F) (b : matrix F) : matrix F :=
  map (fun i => map (fun col => sparse_row_dot s i col) (transpose b))
      (seq 0 (fst (dense_shape s))).

(** The dense matrix of a sparse tensor; a position stored more than once
    holds its last value. *)
Definition sparse_entry (s : SparseTensor F) (i j : nat) : F :=
  fold_left
    (fun acc e =>
       if Nat.eqb (fst (fst e)) i && Nat.eqb (snd (fst e)) j
       then snd e else acc)
    (combine (indices s) (values s)) zero.

Definition sparse_to_dense (s : SparseTensor F) : matrix F :=
  map (fun i => map (fun j => sparse_entry s i j) (seq 0 (snd (dense_shape s))))
      (seq 0 (fst (dense_shape s))).

Definition all_finite (m : matrix F) : bool :=
  forallb (forallb is_finite) m.

(** [m] has [n] rows of [d] entries each. *)
Definition has_shape (n d : nat) (m : matrix F) : bool :=
  Nat.eqb (length m) n && forallb (fun r => Nat.eqb (length r) d) m.

End Kernels.

(** The value of [tf.transpose(x)]: the rows of [x], to be read as the
    columns of the transpose.  A list of rows cannot hold a matrix of no rows
    and [n] columns, the transpose of [n] rows of width 0; kept this way the
    transposed tensor has its shape at every width. *)
Record Transposed (F : Type) : Type := { transposed_of : matrix F }.
Arguments transposed_of {F} t.

(** What [tf.matmul] takes as its right operand. *)
Class RightOperand (F : Type) `{Dtype F} (B : Type) := {
  operand_nrows : B -> nat;
  operand_columns : B -> list (list F)
}.
Arguments RightOperand F {_} B.

#[export] Instance matrix_operand {F : Type} `{Dtype F} : RightOperand F (matrix F) := {|
  operand_nrows := nrows;
  operand_columns := transpose
|}.

#[export] Instance transposed_operand {F : Type} `{Dtype F}
  : RightOperand F (Transposed F) := {|
  operand_nrows t := ncols (transposed_of t);
  operand_columns t := transposed_of t
|}.

(** ** The external collaborators

    What the script takes from TensorFlow, numpy and scikit-learn without
    computing it itself.

    - [random_keep keep run op i] is the dropout mask of run [run] at element
      [i] of the random op of layer [op]: [floor (keep + u)] for a uniform
      draw [u] of [[0, 1)].  At [keep = 1] the floor is 1 whatever the draw.
    - [glorot_uniform] draws the initial value of a weight variable.
    - [binary_roc_auc] and [binary_average_precision] are scikit-learn's
      scores after its length check; [None] is a [ValueError] of theirs.
    - [adam_minimize lr cost] is the update op of
      [tf.train.AdamOptimizer(lr).minimize(cost)]: the variables after one
      step on [cost] in the given run environment. *)
Class Substrate (F : Type) `{Dtype F} := {
  random_keep : F -> nat -> string -> nat -> bool;
  random_keep_one : forall run op i, random_keep one run op i = true;
  glorot_uniform : nat -> nat -> string -> matrix F;
  binary_roc_auc : list F -> list F -> option F;
  binary_average_precision : list F -> list F -> option F;
  adam_minimize : F -> tensor F F -> run_env F -> gmap string (matrix F)
}.
Arguments Substrate F {_}.

(** ** TensorFlow operations *)

Section Ops.
Context {F : Type} `{Substrate F}.

Definition tf_constant {A : Type} (v : A) : tensor F A := fun _ => Ok v.

Definition tf_sparse_placeholder (name : string) : tensor F (SparseTensor F) :=
  fun env =>
    match env_feed env !! name with
    | Some (FSparse s) => Ok s
    | Some (FScalar _) =>
        Raise (InvalidArgumentError "placeholder fed a value of the wrong type")
    | None =>
        Raise (InvalidArgumentError "You must feed a value for placeholder tensor")
    end.

Definition tf_placeholder_with_default (default : F) (name : string) : tensor F F :=
  fun env =>
    match env_feed env !! name with
    | Some (FScalar x) => Ok x
    | Some (FSparse _) =>
        Raise (InvalidArgumentError "placeholder fed a value of the wrong type")
    | None => Ok default
    end.

Definition tf_Variable (name : string) : tensor F (matrix F) :=
  fun env =>
    match env_vars env !! name with
    | Some w => Ok w
    | None => Raise (FailedPreconditionError "Attempting to use uninitialized value")
    end.

Definition tf_sub (a b : tensor F F) : tensor F F :=
  fun env => do x <- a env; do y <- b env; Ok (fsub x y).

(** [tf.sparse_tensor_dense_matmul(a, b)].  The kernel checks the inner
    dimension, and then every stored position of [a] against the shape as it
    reaches it. *)
Definition tf_sparse_tensor_dense_matmul
    (a : tensor F (SparseTensor F)) (b : tensor F (matrix F)) : tensor F (matrix F) :=
  fun env =>
    do s <- a env;
    do m <- b env;
    if Nat.eqb (snd (dense_shape s)) (nrows m)
    then
      if indices_in_bounds s then Ok (sparse_dense_matmul s m)
      else Raise (InvalidArgumentError "index out of bounds")
    else Raise (InvalidArgumentError "Cannot multiply A and B because inner dimension does not match").

(** [tf.matmul(a, b)].  The right operand is a dense tensor or the transpose
    of one ([RightOperand]): [operand_nrows] is its number of rows and
    [operand_columns] are its columns. *)
Definition tf_matmul {B : Type} `{RightOperand F B}
    (a : tensor F (matrix F)) (b : tensor F B) : tensor F (matrix F) :=
  fun env =>
    do x <- a env;
    do y <- b env;
    if Nat.eqb (ncols x) (operand_nrows y)
    then Ok (map (fun row => map (fun col => dot row col) (operand_columns y)) x)
    else Raise (InvalidArgumentError "Matrix size-incompatible").

(** [tf.transpose(a)]. *)
Definition tf_transpose (a : tensor F (matrix F)) : tensor F (Transposed F) :=
  fun env => do x <- a env; Ok {| transposed_of := x |}.

(** [tf.reshape(x, [-1])]. *)
Definition tf_reshape_flat (a : tensor F (matrix F)) : tensor F (list F) :=
  fun env => do x <- a env; Ok (reshape_flat x).

Definition tf_sparse_tensor_to_dense
    (a : tensor F (SparseTensor F)) : tensor F (matrix F) :=
  fun env => do s <- a env; Ok (sparse_to_dense s).

Definition relu (v : F) : F := fmax v zero.

Definition tf_nn_relu (a : tensor F (matrix F)) : tensor F (matrix F) :=
  fun env => do x <- a env; Ok (map (map relu) x).

(** [tf.debugging.check_numerics(x, message)]: a new tensor that passes [x]
    through when a run evaluates it and fails that run when [x] holds a NaN
    or an Inf. *)
Definition tf_debugging_check_numerics
    (a : tensor F (matrix F)) (message : string) : tensor F (matrix F) :=
  fun env =>
    do x <- a env;
    if all_finite x then Ok x else Raise (InvalidArgumentError message).

(** [tf.nn.dropout(x, keep_prob)]: every element is divided by [keep_prob]
    and multiplied by its mask, 1 when kept and 0 when dropped.  The keep
    probability is a tensor here; one given as a Python number is also
    checked to lie in (0, 1] when the graph is built, as the 1 that the
    layers' default rate of 0 gives does. *)
Definition dropout_row (keep : F) (run : nat) (op : string)
    (offset : nat) (row : list F) : list F :=
  map (fun p =>
         fmul (fdiv (snd p) keep)
              (if random_keep keep run op (offset + fst p) then one else zero))
      (combine (seq 0 (length row)) row).

Definition dropout_matrix (keep : F) (run : nat) (op : string) (m : matrix F) : matrix F :=
  map (fun p => dropout_row keep run op (fst p * ncols m) (snd p))
      (combine (seq 0 (length m)) m).

Definition tf_nn_dropout (a : tensor F (matrix F)) (keep_prob : tensor F F)
    (op : string) : tensor F (matrix F) :=
  fun env =>
    do x <- a env;
    do keep <- keep_prob env;
    Ok (dropout_matrix keep (env_run env) op x).

(** Modelled from the spec: [dropout_sparse] of [gcn/utils.py], which is
    not among the sources.  Given a sparse tensor with exactly
    [num_nonzero_elems] stored entries it retains each entry with
    probability [keep_prob], drops the others, and rescales the retained
    values by [1 / keep_prob].  The spec gives the number of stored entries
    as a precondition and says nothing of a tensor with another number of
    them; here such a tensor does not match the mask and fails the run. *)
Definition dropout_sparse (a : tensor F (SparseTensor F)) (keep_prob : tensor F F)
    (num_nonzero_elems : nat) (op : string) : tensor F (SparseTensor F) :=
  fun env =>
    do s <- a env;
    do keep <- keep_prob env;
    if Nat.eqb (length (values s)) num_nonzero_elems
         && Nat.eqb (length (indices s)) num_nonzero_elems
    then
      let retained :=
        List.filter (fun p => random_keep keep (env_run env) op (fst p))
               (combine (seq 0 num_nonzero_elems)
                        (combine (indices s) (values s))) in
      Ok {| indices := map (fun p => fst (snd p)) retained;
            values := map (fun p => fmul (snd (snd p)) (fdiv one keep)) retained;
            dense_shape := dense_shape s |}
    else Raise (InvalidArgumentError "mask does not match the number of stored entries").

(** Modelled from the spec: [weight_variable_glorot] of [gcn/utils.py],
    which is not among the sources.  It declares a weight variable of shape
    [(input_dim, output_dim)] whose initial value is drawn uniformly in
    plus or minus [sqrt (6 / (input_dim + output_dim))]; the tensor it
    returns reads the variable from the session. *)
Definition weight_variable_glorot (input_dim output_dim : nat) (name : string)
    : tensor F (matrix F) :=
  tf_Variable name.

End Ops.

(** ** The layer classes *)

Section Layers.
Context {F : Type} `{Substrate F}.

(** *** [class GraphConvolutionSparse] *)

Record GraphConvolutionSparse : Type := {
  gcs_name : string;
  gcs_vars_weights : tensor F (matrix F);
  gcs_issparse : bool;
  gcs_dropout : tensor F F;
  gcs_adj : tensor F (SparseTensor F);
  gcs_act : tensor F (matrix F) -> tensor F (matrix F);
  gcs_features_nonzero : nat
}.

(** [__init__]; [scope] is the enclosing [tf.variable_scope] prefix. *)
Definition GraphConvolutionSparse_init (scope : string)
    (input_dim output_dim : nat) (adj : tensor F (SparseTensor F))
    (features_nonzero : nat) (name : string) (dropout : tensor F F)
    (act : tensor F (matrix F) -> tensor F (matrix F)) : GraphConvolutionSparse :=
  {| gcs_name := name;
     gcs_vars_weights :=
       weight_variable_glorot input_dim output_dim (scope ++ name ++ "_vars/weights")%string;
     gcs_issparse := true;
     gcs_dropout := dropout;
     gcs_adj := adj;
     gcs_act := act;
     gcs_features_nonzero := features_nonzero |}.

Definition GraphConvolutionSparse_set_weights (self : GraphConvolutionSparse)
    (weights : tensor F (matrix F)) : GraphConvolutionSparse :=
  {| gcs_name := gcs_name self;
     gcs_vars_weights := weights;
     gcs_issparse := gcs_issparse self;
     gcs_dropout := gcs_dropout self;
     gcs_adj := gcs_adj self;
     gcs_act := gcs_act self;
     gcs_features_nonzero := gcs_features_nonzero self |}.

(** [__call__].  The tensor that [check_numerics] returns is bound to
    nothing, as in the source: the layer hands back [act(x)]. *)
Definition GraphConvolutionSparse_call (self : GraphConvolutionSparse)
    (inputs : tensor F (SparseTensor F)) : tensor F (matrix F) :=
  let x := inputs in
  let x := dropout_sparse x (tf_sub (tf_constant one) (gcs_dropout self))
             (gcs_features_nonzero self) (gcs_name self) in
  let x := tf_sparse_tensor_dense_matmul x (gcs_vars_weights self) in
  let x := tf_sparse_tensor_dense_matmul (gcs_adj self) x in
  let outputs := gcs_act self x in
  let _ := tf_debugging_check_numerics x
             ("Output of layer " ++ gcs_name self ++ " has numerical instability")%string in
  outputs.

(** The tensor [x] of [__call__] where the activation and the check are
    applied to it: the pre-activation output of the layer. *)
Definition GraphConvolutionSparse_preactivation (self : GraphConvolutionSparse)
    (inputs : tensor F (SparseTensor F)) : tensor F (matrix F) :=
  let x := inputs in
  let x := dropout_sparse x (tf_sub (tf_constant one) (gcs_dropout self))
             (gcs_features_nonzero self) (gcs_name self) in
  let x := tf_sparse_tensor_dense_matmul x (gcs_vars_weights self) in
  tf_sparse_tensor_dense_matmul (gcs_adj self) x.

(** *** [class GraphConvolution] *)

Record GraphConvolution : Type := {
  gc_name : string;
  gc_vars_weights : tensor F (matrix F);
  gc_issparse : bool;
  gc_dropout : tensor F F;
  gc_adj : tensor F (SparseTensor F);
  gc_act : tensor F (matrix F) -> tensor F (matrix F)
}.

Definition GraphConvolution_init (scope : string)
    (input_dim output_dim : nat) (adj : tensor F (SparseTensor F))
    (name : string) (dropout : tensor F F)
    (act : tensor F (matrix F) -> tensor F (matrix F)) : GraphConvolution :=
  {| gc_name := name;
     gc_vars_weights :=
       weight_variable_glorot input_dim output_dim (scope ++ name ++ "_vars/weights")%string;
     gc_issparse := false;
     gc_dropout := dropout;
     gc_adj := adj;
     gc_act := act |}.

Definition GraphConvolution_set_weights (self : GraphConvolution)
    (weights : tensor F (matrix F)) : GraphConvolution :=
  {| gc_name := gc_name self;
     gc_vars_weights := weights;
     gc_issparse := gc_issparse self;
     gc_dropout := gc_dropout self;
     gc_adj := gc_adj self;
     gc_act := gc_act self |}.

Definition GraphConvolution_call (self : GraphConvolution)
    (inputs : tensor F (matrix F)) : tensor F (matrix F) :=
  let x := inputs in
  let x := tf_nn_dropout x (tf_sub (tf_constant one) (gc_dropout self)) (gc_name self) in
  let x := tf_matmul x (gc_vars_weights self) in
  let x := tf_sparse_tensor_dense_matmul (gc_adj self) x in
  let outputs := gc_act self x in
  outputs.

(** *** [class InnerProductDecoder] *)

Record InnerProductDecoder : Type := {
  ipd_name : string;
  ipd_issparse : bool;
  ipd_dropout : tensor F F;
  ipd_act : tensor F (list F) -> tensor F (list F)
}.

Definition InnerProductDecoder_init (name : string) (dropout : tensor F F)
    (act : tensor F (list F) -> tensor F (list F)) : InnerProductDecoder :=
  {| ipd_name := name;
     ipd_issparse := false;
     ipd_dropout := dropout;
     ipd_act := act |}.

Definition InnerProductDecoder_call (self : InnerProductDecoder)
    (inputs : tensor F (matrix F)) : tensor F (list F) :=
  let inputs :=
    tf_nn_dropout inputs (tf_sub (tf_constant one) (ipd_dropout self)) (ipd_name self) in
  let x := tf_transpose inputs in
  let x := tf_matmul inputs x in
  let x := tf_reshape_flat x in
  let outputs := ipd_act self x in
  outputs.

End Layers.

(** ** Configuration and placeholders *)

(** The command-line flags ([FLAGS]).  The layer widths are sizes, so they
    are kept as natural numbers; [epochs] is any integer and the two rates
    any float, as the flag definitions accept them. *)
Record Flags (F : Type) : Type := {
  learning_rate : F;
  epochs : Z;
  hidden1 : nat;
  hidden2 : nat;
  dropout : F;
  regenerate_training_data : bool
}.
Arguments learning_rate {F} f.
Arguments epochs {F} f.
Arguments hidden1 {F} f.
Arguments hidden2 {F} f.
Arguments dropout {F} f.
Arguments regenerate_training_data {F} f.

(** The defaults of the flag definitions. *)
Definition default_flags {F : Type} `{Dtype F} : Flags F :=
  {| learning_rate := fdiv one (of_int 100);
     epochs := 20;
     hidden1 := 32;
     hidden2 := 16;
     dropout := fdiv one (of_int 10);
     regenerate_training_data := false |}.

(** The [placeholders] dictionary of the script.  A placeholder is identified
    by the key it is fed under. *)
Record Placeholders : Type := {
  p_features : string;
  p_adj : string;
  p_adj_orig : string;
  p_dropout : string
}.

Definition placeholders : Placeholders :=
  {| p_features := "features";
     p_adj := "adj";
     p_adj_orig := "adj_orig";
     p_dropout := "dropout" |}.

(** ** [class GCNModel] and [class Optimizer] *)

Section Model.
Context {F : Type} `{Substrate F} `{!MathLib F}.

Record GCNModel : Type := {
  model_name : string;
  model_inputs : tensor F (SparseTensor F);
  model_input_dim : nat;
  model_features_nonzero : nat;
  model_adj : tensor F (SparseTensor F);
  model_dropout : tensor F F;
  model_hidden1 : tensor F (matrix F);
  model_embeddings : tensor F (matrix F);
  model_reconstructions : tensor F (list F)
}.

(** [__init__] together with [build]. *)
Definition GCNModel_init (FLAGS : Flags F) (placeholders : Placeholders)
    (num_features features_nonzero : nat) (name : string) : GCNModel :=
  let inputs := tf_sparse_placeholder (p_features placeholders) in
  let adj := tf_sparse_placeholder (p_adj placeholders) in
  let dropout := tf_placeholder_with_default zero (p_dropout placeholders) in
  let scope := (name ++ "/")%string in
  let layer1 :=
    GraphConvolutionSparse_call
      (GraphConvolutionSparse_init scope num_features (hidden1 FLAGS) adj
         features_nonzero "gcn_sparse_layer" dropout tf_nn_relu)
      inputs in
  let embeddings :=
    GraphConvolution_call
      (GraphConvolution_init scope (hidden1 FLAGS) (hidden2 FLAGS) adj
         "gcn_dense_layer" dropout (fun x => x))
      layer1 in
  let reconstructions :=
    InnerProductDecoder_call
      (InnerProductDecoder_init "gcn_decoder" (tf_constant zero) (fun x => x))
      embeddings in
  {| model_name := name;
     model_inputs := inputs;
     model_input_dim := num_features;
     model_features_nonzero := features_nonzero;
     model_adj := adj;
     model_dropout := dropout;
     model_hidden1 := layer1;
     model_embeddings := embeddings;
     model_reconstructions := reconstructions |}.

(** The initial values [tf.global_variables_initializer] assigns to the two
    weight variables the model declares. *)
Definition global_variables_initializer (FLAGS : Flags F)
    (num_features : nat) (name : string) : gmap string (matrix F) :=
  let w1 := (name ++ "/" ++ "gcn_sparse_layer" ++ "_vars/weights")%string in
  let w2 := (name ++ "/" ++ "gcn_dense_layer" ++ "_vars/weights")%string in
  <[w2 := glorot_uniform (hidden1 FLAGS) (hidden2 FLAGS) w2]>
    (<[w1 := glorot_uniform num_features (hidden1 FLAGS) w1]> ∅).

(** [tf.nn.weighted_cross_entropy_with_logits] on one entry, in the form
    TensorFlow computes it:
    [(1 - z) * x + l * (log1p (exp (- |x|)) + relu (- x))] with
    [l = 1 + (pos_weight - 1) * z]. *)
Definition weighted_cross_entropy_with_logits (pos_weight : F) (x z : F) : F :=
  let log_weight := fadd one (fmul (fsub pos_weight one) z) in
  fadd (fmul (fsub one z) x)
       (fmul log_weight
             (fadd (flog1p (fexp (fneg (fabs x)))) (relu (fneg x)))).

Definition tf_nn_weighted_cross_entropy_with_logits
    (logits targets : tensor F (list F)) (pos_weight : F) : tensor F (list F) :=
  fun env =>
    do x <- logits env;
    do z <- targets env;
    if Nat.eqb (length x) (length z)
    then Ok (map (fun p => weighted_cross_entropy_with_logits pos_weight (fst p) (snd p))
                 (combine x z))
    else Raise (InvalidArgumentError "Incompatible shapes").

Definition reduce_sum (v : list F) : F := fold_left fadd v zero.

Definition reduce_mean (v : list F) : F :=
  fdiv (reduce_sum v) (of_int (Z.of_nat (length v))).

Definition tf_reduce_mean (a : tensor F (list F)) : tensor F F :=
  fun env => do v <- a env; Ok (reduce_mean v).

Definition tf_scale (c : F) (a : tensor F F) : tensor F F :=
  fun env => do x <- a env; Ok (fmul c x).

Record Optimizer : Type := {
  opt_pos_weight : F;
  opt_norm : F;
  opt_preds_sub : tensor F (list F);
  opt_labels_sub : tensor F (list F);
  opt_cost : tensor F F;
  opt_op : run_env F -> gmap string (matrix F)
}.

(** Python's [x / y] for a float divisor [y]. *)
Definition python_truediv (x y : F) : result F :=
  if fis_zero y then Raise (ZeroDivisionError "float division by zero")
  else Ok (fdiv x y).

(** The object that [Optimizer.__init__] has built when it returns: the
    locals [pos_weight], [norm], [preds_sub] and [labels_sub] and the
    attributes [cost] and [opt_op].  [num_nodes] is an integer
    ([adj.shape[0]]) and [num_edges] the numpy scalar [adj.sum()].  The two
    quotients are Python floats that TensorFlow converts to the dtype of the
    tensors when they enter the graph; they are computed in that dtype
    here. *)
Definition Optimizer_object (FLAGS : Flags F) (preds labels : tensor F (list F))
    (num_nodes : Z) (num_edges : F) : Optimizer :=
  let pos_weight :=
    fdiv (fsub (of_int (num_nodes ^ 2)) num_edges) num_edges in
  let norm :=
    fdiv (of_int (num_nodes ^ 2))
         (fmul (fsub (of_int (num_nodes ^ 2)) num_edges) (of_int 2)) in
  let preds_sub := preds in
  let labels_sub := labels in
  let cost :=
    tf_scale norm
      (tf_reduce_mean
         (tf_nn_weighted_cross_entropy_with_logits preds_sub labels_sub pos_weight)) in
  {| opt_pos_weight := pos_weight;
     opt_norm := norm;
     opt_preds_sub := preds_sub;
     opt_labels_sub := labels_sub;
     opt_cost := cost;
     opt_op := adam_minimize (learning_rate FLAGS) cost |}.

(** [Optimizer.__init__].  The division of line 255 is by a numpy scalar
    and raises nothing; that of line 256 is of a Python integer by a Python
    float and raises when [(num_nodes ** 2 - num_edges) * 2] is zero.
    [minimize] and [compute_gradients] (lines 266 and 267) need a cost that
    some trainable variable feeds, as the reconstructions of [GCNModel]
    are. *)
Definition Optimizer_init (FLAGS : Flags F) (preds labels : tensor F (list F))
    (num_nodes : Z) (num_edges : F) : result Optimizer :=
  do _ <- python_truediv (of_int (num_nodes ^ 2))
            (fmul (fsub (of_int (num_nodes ^ 2)) num_edges) (of_int 2));
  Ok (Optimizer_object FLAGS preds labels num_nodes num_edges).

End Model.

(** ** scipy and numpy helpers of the script *)

Section Arrays.
Context {F : Type} `{Dtype F}.

(** [sp.identity(n)] and [sp.eye(n)]. *)
Definition sp_identity (n : nat) : matrix F :=
  map (fun i => map (fun j => if Nat.eqb i j then one else zero) (seq 0 n)) (seq 0 n).

Definition same_shape (a b : matrix F) : bool :=
  Nat.eqb (nrows a) (nrows b) && Nat.eqb (ncols a) (ncols b).

Definition zip_rows (f : F -> F -> F) (a b : matrix F) : matrix F :=
  map (fun p => map (fun q => f (fst q) (snd q)) (combine (fst p) (snd p)))
      (combine a b).

(** [a + b] and [a - b] on scipy matrices. *)
Definition mat_add (a b : matrix F) : result (matrix F) :=
  if same_shape a b then Ok (zip_rows fadd a b)
  else Raise (ValueError "inconsistent shapes").

Definition mat_sub (a b : matrix F) : result (matrix F) :=
  if same_shape a b then Ok (zip_rows fsub a b)
  else Raise (ValueError "inconsistent shapes").

(** [sp.dia_matrix((m.diagonal()[np.newaxis, :], [0]), shape=m.shape)]. *)
Definition diagonal_matrix (m : matrix F) : matrix F :=
  map (fun p =>
         map (fun q => if Nat.eqb (fst p) (fst q) then snd q else zero)
             (combine (seq 0 (length (snd p))) (snd p)))
      (combine (seq 0 (length m)) m).

(** [m.sum()]. *)
Definition matrix_sum (m : matrix F) : F := fold_left fadd (concat m) zero.

(** Modelled from the spec: [sparse_to_tuple] of [gcn/utils.py], which is
    not among the sources.  It converts a sparse matrix into its
    (index pairs, values, shape) triple; the stored entries are the
    non-zero ones, listed here in row-major order. *)
Definition stored_entries (m : matrix F) : list ((nat * nat) * F) :=
  concat
    (map (fun p =>
            map (fun q => ((fst p, fst q), snd q))
                (List.filter (fun q => negb (fis_zero (snd q)))
                        (combine (seq 0 (length (snd p))) (snd p))))
         (combine (seq 0 (length m)) m)).

Definition sparse_to_tuple (m : matrix F) : SparseTensor F :=
  {| indices := map fst (stored_entries m);
     values := map snd (stored_entries m);
     dense_shape := (nrows m, ncols m) |}.

(** Modelled from the spec: [sym_normalize_matrix] of [gcn/utils.py], which
    is not among the sources.  It returns D^(-1/2) A D^(-1/2) with
    D_ii = sum_j A_ij, the factor of a row of degree 0 being 0. *)
Definition inv_sqrt_degree (row : list F) : F :=
  let d := fold_left fadd row zero in
  if fis_zero d then zero else fdiv one (fsqrt d).

Definition sym_normalize_matrix (m : matrix F) : matrix F :=
  let s := map inv_sqrt_degree m in
  map (fun p =>
         map (fun q => fmul (fmul (fst p) (snd q)) (nth (fst q) s zero))
             (combine (seq 0 (length (snd p))) (snd p)))
      (combine s m).

(** An index along an axis of length [n], numpy's way: a negative index
    counts from the end. *)
Definition np_index (n : nat) (i : Z) : option nat :=
  if (0 <=? i)%Z && (i <? Z.of_nat n)%Z then Some (Z.to_nat i)
  else if (- Z.of_nat n <=? i)%Z && (i <? 0)%Z then Some (Z.to_nat (i + Z.of_nat n))
  else None.

(** [m[e[0], e[1]]] on a numpy array or a scipy matrix. *)
Definition getitem (m : matrix F) (e : Z * Z) : result F :=
  match np_index (nrows m) (fst e), np_index (ncols m) (snd e) with
  | Some i, Some j => Ok (nth j (nth i m []) zero)
  | _, _ => Raise (IndexError "index out of bounds")
  end.

(** [np.dot(a, b)]. *)
Definition np_dot (a b : matrix F) : result (matrix F) :=
  if Nat.eqb (ncols a) (nrows b) then Ok (matmul a b)
  else Raise (ValueError "shapes not aligned").

(** [range(n)]. *)
Definition range (n : Z) : list Z := map Z.of_nat (seq 0 (Z.to_nat n)).

End Arrays.

(** ** scikit-learn's scores *)

Section Metrics.
Context {F : Type} `{Substrate F}.

Definition check_consistent_length (y_true y_score : list F) : result unit :=
  if Nat.eqb (length y_true) (length y_score) then Ok tt
  else Raise (ValueError "Found input variables with inconsistent numbers of samples").

Definition roc_auc_score (y_true y_score : list F) : result F :=
  do _ <- check_consistent_length y_true y_score;
  match binary_roc_auc y_true y_score with
  | Some v => Ok v
  | None => Raise (ValueError "roc_auc_score is not defined for these inputs")
  end.

Definition average_precision_score (y_true y_score : list F) : result F :=
  do _ <- check_consistent_length y_true y_score;
  match binary_average_precision y_true y_score with
  | Some v => Ok v
  | None => Raise (ValueError "average_precision_score is not defined for these inputs")
  end.

End Metrics.

(** ** The script: session, feed dictionary and standard output *)

(** [load_data()] of [gcn/utils.py] is not among the sources; what it returns
    is the input of the script. *)
Record Dataset (F : Type) : Type := {
  adj : matrix F;
  adj_train : matrix F;
  val_edges : list (Z * Z);
  val_edges_false : list (Z * Z);
  test_edges : list (Z * Z);
  test_edges_false : list (Z * Z)
}.
Arguments adj {F} d.
Arguments adj_train {F} d.
Arguments val_edges {F} d.
Arguments val_edges_false {F} d.
Arguments test_edges {F} d.
Arguments test_edges_false {F} d.

(** The session: its variables, the number of [run] calls it has served and,
    among them, the number that executed the optimizer's update op. *)
Record Session (F : Type) : Type := {
  sess_vars : gmap string (matrix F);
  sess_runs : nat;
  sess_train_steps : nat
}.
Arguments sess_vars {F} s.
Arguments sess_runs {F} s.
Arguments sess_train_steps {F} s.

Inductive line (F : Type) : Type :=
| Text (s : string)
| EpochLine (epoch : Z) (train_loss val_roc val_ap : F)
| TestRocLine (roc_score : F)
| TestApLine (ap_score : F).
Arguments Text {F} s.
Arguments EpochLine {F} epoch train_loss val_roc val_ap.
Arguments TestRocLine {F} roc_score.
Arguments TestApLine {F} ap_score.

(** The mutable module-level state: [sess], [feed_dict] and what was
    printed. *)
Record state (F : Type) : Type := {
  st_sess : Session F;
  st_feed_dict : gmap string (feed_value F);
  st_stdout : list (line F)
}.
Arguments st_sess {F} s.
Arguments st_feed_dict {F} s.
Arguments st_stdout {F} s.

(** A statement of the script: it changes the state and returns or raises.
    The state survives an exception. *)
Definition prog (F A : Type) : Type := state F -> state F * result A.

Definition ret {F A} (a : A) : prog F A := fun st => (st, Ok a).

Definition pbind {F A B} (m : prog F A) (k : A -> prog F B) : prog F B :=
  fun st =>
    match m st with
    | (st', Ok a) => k a st'
    | (st', Raise e) => (st', Raise e)
    end.

Definition lift {F A} (r : result A) : prog F A := fun st => (st, r).

Declare Scope prog_scope.
Delimit Scope prog_scope with prog.
Notation "'exec' x <- m ; k" := (pbind m (fun x => k))
  (at level 10, x name, m at level 100, k at level 200) : prog_scope.
Notation "'exec' ' p <- m ; k" := (pbind m (fun p => k))
  (at level 10, p strict pattern, m at level 100, k at level 200)
  : prog_scope.
Local Open Scope prog_scope.

Fixpoint for_each {F A} (l : list A) (body : A -> prog F unit) : prog F unit :=
  match l with
  | [] => ret tt
  | x :: rest => exec _ <- body x; for_each rest body
  end.

Section Script.
Context {F : Type} `{Substrate F} `{!MathLib F}.

Definition print (l : line F) : prog F unit :=
  fun st =>
    ({| st_sess := st_sess st;
        st_feed_dict := st_feed_dict st;
        st_stdout := st_stdout st ++ [l] |}, Ok tt).

(** [feed_dict.update({key: value})]. *)
Definition feed_dict_update (key : string) (value : feed_value F) : prog F unit :=
  fun st =>
    ({| st_sess := st_sess st;
        st_feed_dict := <[key := value]> (st_feed_dict st);
        st_stdout := st_stdout st |}, Ok tt).

(** Reading the module-level name [feed_dict]. *)
Definition feed_dict : prog F (gmap string (feed_value F)) :=
  fun st => (st, Ok (st_feed_dict st)).

(** [feed_dict = value]. *)
Definition feed_dict_assign (value : gmap string (feed_value F)) : prog F unit :=
  fun st =>
    ({| st_sess := st_sess st;
        st_feed_dict := value;
        st_stdout := st_stdout st |}, Ok tt).

Definition run_env_of (s : Session F) (feed : gmap string (feed_value F)) : run_env F :=
  {| env_feed := feed; env_vars := sess_vars s; env_run := sess_runs s |}.

(** [sess.run(fetch, feed_dict=feed)] for a fetch that updates nothing. *)
Definition sess_run {A} (fetch : tensor F A) (feed : gmap string (feed_value F))
    : prog F A :=
  fun st =>
    let s := st_sess st in
    ({| st_sess := {| sess_vars := sess_vars s;
                      sess_runs := S (sess_runs s);
                      sess_train_steps := sess_train_steps s |};
        st_feed_dict := st_feed_dict st;
        st_stdout := st_stdout st |},
     fetch (run_env_of s feed)).

(** [sess.run([opt.opt_op, opt.cost], feed_dict=feed)]: the cost of this
    run and one update of the variables. *)
Definition sess_run_train (opt : Optimizer) (feed : gmap string (feed_value F))
    : prog F (unit * F) :=
  fun st =>
    let s := st_sess st in
    let env := run_env_of s feed in
    match opt_cost opt env with
    | Ok c =>
        ({| st_sess := {| sess_vars := opt_op opt env;
                          sess_runs := S (sess_runs s);
                          sess_train_steps := S (sess_train_steps s) |};
            st_feed_dict := st_feed_dict st;
            st_stdout := st_stdout st |}, Ok (tt, c))
    | Raise e =>
        ({| st_sess := {| sess_vars := sess_vars s;
                          sess_runs := S (sess_runs s);
                          sess_train_steps := sess_train_steps s |};
            st_feed_dict := st_feed_dict st;
            st_stdout := st_stdout st |}, Raise e)
    end.

(** [sess = tf.Session()] followed by
    [sess.run(tf.global_variables_initializer())]. *)
Definition sess_init (initial : gmap string (matrix F)) : prog F unit :=
  fun st =>
    ({| st_sess := {| sess_vars := initial; sess_runs := 1; sess_train_steps := 0 |};
        st_feed_dict := st_feed_dict st;
        st_stdout := st_stdout st |}, Ok tt).

Definition construct_feed_dict (adj_normalized adj features : SparseTensor F)
    (placeholders : Placeholders) : gmap string (feed_value F) :=
  let feed_dict : gmap string (feed_value F) := ∅ in
  let feed_dict := <[p_features placeholders := FSparse features]> feed_dict in
  let feed_dict := <[p_adj placeholders := FSparse adj_normalized]> feed_dict in
  let feed_dict := <[p_adj_orig placeholders := FSparse adj]> feed_dict in
  feed_dict.

Definition sigmoid (x : F) : F := fdiv one (fadd one (fexp (fneg x))).

(** The two [for e in edges] loops of [get_roc_score]: each appends a
    prediction and the adjacency value looked up at the edge. *)
Fixpoint score_edges (adj_rec adj_orig : matrix F) (edges : list (Z * Z))
    (preds pos : list F) : result (list F * list F) :=
  match edges with
  | [] => Ok (preds, pos)
  | e :: rest =>
      do p <- getitem adj_rec e;
      do a <- getitem adj_orig e;
      score_edges adj_rec adj_orig rest (preds ++ [sigmoid p]) (pos ++ [a])
  end.

(** [get_roc_score].  [model] and [adj_orig] are the module-level names the
    function closes over. *)
Definition get_roc_score (model : GCNModel) (adj_orig : matrix F)
    (edges_pos edges_neg : list (Z * Z)) : prog F (F * F) :=
  exec _ <- feed_dict_update (p_dropout placeholders) (FScalar zero);
  exec fd <- feed_dict;
  exec emb <- sess_run (model_embeddings model) fd;
  lift (
    do adj_rec <- np_dot emb (transpose emb);
    do '(preds, pos) <- score_edges adj_rec adj_orig edges_pos [] [];
    do '(preds_neg, neg) <- score_edges adj_rec adj_orig edges_neg [] [];
    let preds_all := preds ++ preds_neg in
    let labels_all := repeat one (length preds) ++ repeat zero (length preds) in
    do roc_score <- roc_auc_score labels_all preds_all;
    do ap_score <- average_precision_score labels_all preds_all;
    Ok (roc_score, ap_score)).

(** *** Module-level names *)

Definition num_nodes (data : Dataset F) : Z := Z.of_nat (nrows (adj data)).
Definition num_edges (data : Dataset F) : F := matrix_sum (adj data).

Definition features (data : Dataset F) : SparseTensor F :=
  sparse_to_tuple (sp_identity (nrows (adj data))).
Definition num_features (data : Dataset F) : nat := snd (dense_shape (features data)).
Definition features_nonzero (data : Dataset F) : nat := length (values (features data)).

Definition adj_orig (data : Dataset F) : result (matrix F) :=
  mat_sub (adj data) (diagonal_matrix (adj data)).

Definition adj_norm (data : Dataset F) : result (SparseTensor F) :=
  do a <- mat_add (adj_train data) (sp_identity (nrows (adj data)));
  Ok (sparse_to_tuple (sym_normalize_matrix a)).

Definition adj_label (data : Dataset F) : result (SparseTensor F) :=
  do a <- mat_add (adj_train data) (sp_identity (nrows (adj_train data)));
  Ok (sparse_to_tuple a).

Definition model (FLAGS : Flags F) (data : Dataset F) : GCNModel :=
  GCNModel_init FLAGS placeholders (num_features data) (features_nonzero data)
    "yeast_gcn".

(** The module-level name [opt], once the constructor of line 311 has
    returned. *)
Definition opt (FLAGS : Flags F) (data : Dataset F) : Optimizer :=
  Optimizer_object FLAGS
    (model_reconstructions (model FLAGS data))
    (tf_reshape_flat
       (tf_sparse_tensor_to_dense (tf_sparse_placeholder (p_adj_orig placeholders))))
    (num_nodes data) (num_edges data).

(** *** The training loop and the script *)

(** The body of [for epoch in range(FLAGS.epochs)]. *)
Definition train_epoch (FLAGS : Flags F) (data : Dataset F)
    (adj_orig : matrix F) (epoch : Z) : prog F unit :=
  exec _ <- feed_dict_update (p_dropout placeholders) (FScalar (dropout FLAGS));
  exec fd <- feed_dict;
  exec '(_, avg_cost) <- sess_run_train (opt FLAGS data) fd;
  exec '(roc_curr, ap_curr) <-
    get_roc_score (model FLAGS data) adj_orig (val_edges data) (val_edges_false data);
  print (EpochLine (epoch + 1) avg_cost roc_curr ap_curr).

Definition train (FLAGS : Flags F) (data : Dataset F) (adj_orig : matrix F)
    : prog F unit :=
  for_each (range (epochs FLAGS)) (train_epoch FLAGS data adj_orig).

(** The calls of lines 213 to 216: each of the three tests builds its
    tensors, fetches none of them, and prints. *)
Definition TestLayer_calls : prog F unit :=
  exec _ <- print (Text "test_propagate_node_state Success!");
  exec _ <- print (Text "test_apply_convolution Success!");
  print (Text "test_decoder_Success!").

(** The statements of the module from the test calls up to the training
    loop. *)
Definition setup (FLAGS : Flags F) (data : Dataset F) : prog F (matrix F) :=
  exec _ <- TestLayer_calls;
  exec _ <- print (Text "Start");
  exec adj_orig <- lift (adj_orig data);
  exec adj_norm <- lift (adj_norm data);
  exec adj_label <- lift (adj_label data);
  exec _ <- lift (Optimizer_init FLAGS
                    (model_reconstructions (model FLAGS data))
                    (tf_reshape_flat
                       (tf_sparse_tensor_to_dense
                          (tf_sparse_placeholder (p_adj_orig placeholders))))
                    (num_nodes data) (num_edges data));
  exec _ <- print (Text "Finished creating optimizer");
  exec _ <- print (Text "Start session");
  exec _ <- sess_init
              (global_variables_initializer FLAGS (num_features data) "yeast_gcn");
  exec _ <- feed_dict_assign
              (construct_feed_dict adj_norm adj_label (features data) placeholders);
  ret adj_orig.

(** The statements after the training loop. *)
Definition finish (FLAGS : Flags F) (data : Dataset F) (adj_orig : matrix F)
    : prog F (F * F) :=
  exec _ <- print (Text "Optimization Finished!");
  exec '(roc_score, ap_score) <-
    get_roc_score (model FLAGS data) adj_orig (test_edges data) (test_edges_false data);
  exec _ <- print (TestRocLine roc_score);
  exec _ <- print (TestApLine ap_score);
  ret (roc_score, ap_score).

Definition script (FLAGS : Flags F) (data : Dataset F) : prog F (F * F) :=
  exec adj_orig <- setup FLAGS data;
  exec _ <- train FLAGS data adj_orig;
  finish FLAGS data adj_orig.

(** The state the interpreter starts the script in. *)
Definition initial_state : state F :=
  {| st_sess := {| sess_vars := ∅; sess_runs := 0; sess_train_steps := 0 |};
     st_feed_dict := ∅;
     st_stdout := [] |}.

Definition main (FLAGS : Flags F) (data : Dataset F) : state F * result (F * F) :=
  script FLAGS data initial_state.

(** *** Points of the run *)

(** The script up to the end of its [k]-th epoch. *)
Definition script_prefix (FLAGS : Flags F) (data : Dataset F) (k : nat)
    : prog F (matrix F) :=
  exec adj_orig <- setup FLAGS data;
  exec _ <- for_each (range (Z.of_nat k)) (train_epoch FLAGS data adj_orig);
  ret adj_orig.

(** The environment in which an epoch entered in state [st] runs its
    training step: [train_epoch] first sets the dropout entry. *)
Definition training_env (FLAGS : Flags F) (st : state F) : run_env F :=
  run_env_of (st_sess st)
    (<[p_dropout placeholders := FScalar (dropout FLAGS)]> (st_feed_dict st)).

(** The environment in which [get_roc_score], called in state [st],
    fetches the embeddings. *)
Definition evaluation_env (st : state F) : run_env F :=
  run_env_of (st_sess st)
    (<[p_dropout placeholders := FScalar zero]> (st_feed_dict st)).

(** The first three statements of an epoch, up to the training run. *)
Definition epoch_training_step (FLAGS : Flags F) (data : Dataset F)
    : prog F (unit * F) :=
  exec _ <- feed_dict_update (p_dropout placeholders) (FScalar (dropout FLAGS));
  exec fd <- feed_dict;
  sess_run_train (opt FLAGS data) fd.

End Script.

(** ** [class TestLayer]: the layer tests of the source *)

Definition b32 (z : Z) : binary32 := of_int z.

Section TestLayer.
Context `{S : !Substrate binary32}.

(** [test_propagate_node_state]: the tensor [result] of the test. *)
Definition test_propagate_node_state : tensor binary32 (matrix binary32) :=
  let sparse_adj :=
    tf_constant {| indices := [(0, 1); (1, 0)];
                   values := [b32 1; b32 1];
                   dense_shape := (3, 3) |} in
  let gcs :=
    GraphConvolutionSparse_init "" 3 3 sparse_adj 3 "gcn_sparse_layer"
      (tf_constant zero) tf_nn_relu in
  let weights :=
    tf_constant [[b32 1; b32 0];
                 [b32 0; b32 1];
                 [b32 0; b32 0]] in
  let gcs := GraphConvolutionSparse_set_weights gcs weights in
  let node_state :=
    tf_constant {| indices := [(0, 0); (1, 1); (2, 2)];
                   values := [b32 1; b32 1; b32 1];
                   dense_shape := (3, 3) |} in
  GraphConvolutionSparse_call gcs node_state.

(** [test_decoder]: the tensor [result] of the test. *)
Definition test_decoder : tensor binary32 (list binary32) :=
  let embeddings :=
    tf_constant [[b32 0; b32 1];
                 [b32 0; b32 1];
                 [b32 0; b32 0]] in
  let decoder := InnerProductDecoder_init "gcn_decoder" (tf_constant zero) (fun x => x) in
  InnerProductDecoder_call decoder embeddings.

(** A sparse layer whose inputs are all finite and whose product
    overflows: the adjacency row [(0,0) -> 1, (0,1) -> 1] adds the two
    weights [2^127]. *)
Definition overflow_layer : GraphConvolutionSparse :=
  GraphConvolutionSparse_set_weights
    (GraphConvolutionSparse_init "" 2 1
       (tf_constant {| indices := [(0, 0); (0, 1)];
                       values := [b32 1; b32 1];
                       dense_shape := (2, 2) |})
       2 "gcn_sparse_layer" (tf_constant zero) tf_nn_relu)
    (tf_constant [[b32 (2 ^ 127)]; [b32 (2 ^ 127)]]).

Definition overflow_inputs : tensor binary32 (SparseTensor binary32) :=
  tf_constant {| indices := [(0, 0); (1, 1)];
                 values := [b32 1; b32 1];
                 dense_shape := (2, 2) |}.

End TestLayer.

(** ** The Evaluator as the specification words it *)

Section SpecScore.
Context {F : Type} `{Substrate F} `{!MathLib F}.

(** The predicted probability of each edge. *)
Fixpoint spec_predictions (adj_rec : matrix F) (edges : list (Z * Z))
    : result (list F) :=
  match edges with
  | [] => Ok []
  | e :: rest =>
      do p <- getitem adj_rec e;
      do ps <- spec_predictions adj_rec rest;
      Ok (sigmoid p :: ps)
  end.

(** [score(embeddings, positiveEdges, negativeEdges)]: label 1 for every
    positive edge, label 0 for every negative edge, no adjacency. *)
Definition spec_score (emb : matrix F) (edges_pos edges_neg : list (Z * Z))
    : result (F * F) :=
  do adj_rec <- np_dot emb (transpose emb);
  do preds <- spec_predictions adj_rec edges_pos;
  do preds_neg <- spec_predictions adj_rec edges_neg;
  let labels := map (fun _ => one) edges_pos ++ map (fun _ => zero) edges_neg in
  do roc_score <- roc_auc_score labels (preds ++ preds_neg);
  do ap_score <- average_precision_score labels (preds ++ preds_neg);
  Ok (roc_score, ap_score).

End SpecScore.

(** ** A small run

    Stand-ins for the external collaborators, to run the script on a path
    graph of four nodes: [exp] and [log1p] as short approximations, the
    uniform draw fixed at one half, the two scores by counting (undefined on
    a score that is not finite), and an optimizer step that moves every
    weight by the learning rate times the cost. *)

Definition approx_exp (x : binary32) : binary32 :=
  Nat.iter 10 (fun y => fmul y y) (fadd one (fdiv x (b32 1024))).

Definition approx_log1p (x : binary32) : binary32 :=
  let y := fdiv x (fadd (b32 2) x) in
  let y2 := fmul y y in
  fmul (b32 2)
    (fmul y (fadd one (fmul y2 (fadd (fdiv one (b32 3))
       (fmul y2 (fadd (fdiv one (b32 5)) (fmul y2 (fdiv one (b32 7))))))))).

Definition example_mathlib : MathLib binary32 :=
  {| fexp := approx_exp; flog1p := approx_log1p |}.

Definition half : binary32 := fdiv one (b32 2).

Definition example_roc_auc (y_true y_score : list binary32) : option binary32 :=
  if forallb is_finite y_score then
    let scored := combine y_true y_score in
    let pos := map snd (List.filter (fun p => negb (fis_zero (fst p))) scored) in
    let neg := map snd (List.filter (fun p => fis_zero (fst p)) scored) in
    let wins :=
      fold_left
        (fun acc sp =>
           fold_left
             (fun acc sn =>
                if SFltb sn sp then fadd acc one
                else if SFeqb sn sp then fadd acc half else acc)
             neg acc)
        pos zero in
    let pairs := fmul (b32 (Z.of_nat (length pos))) (b32 (Z.of_nat (length neg))) in
    if fis_zero pairs then None else Some (fdiv wins pairs)
  else None.

Definition example_average_precision (y_true y_score : list binary32)
    : option binary32 :=
  if forallb is_finite y_score then
    let scored := combine y_true y_score in
    let pos := List.filter (fun p => negb (fis_zero (fst p))) scored in
    match pos with
    | [] => None
    | _ =>
        let precision_at s :=
          fdiv (b32 (Z.of_nat (length (List.filter (fun p => SFleb s (snd p)) pos))))
               (b32 (Z.of_nat (length (List.filter (fun p => SFleb s (snd p)) scored)))) in
        Some (fdiv (fold_left fadd (map (fun p => precision_at (snd p)) pos) zero)
                   (b32 (Z.of_nat (length pos))))
    end
  else None.

Definition example_glorot (input_dim output_dim : nat) (name : string)
    : matrix binary32 :=
  map (fun i =>
         map (fun j => fdiv (b32 (Z.of_nat ((i + 2 * j) mod 3) - 1)) (b32 2))
             (seq 0 output_dim))
      (seq 0 input_dim).

Definition example_adam (lr : binary32) (cost : tensor binary32 binary32)
    (env : run_env binary32) : gmap string (matrix binary32) :=
  match cost env with
  | Ok c => (fun w => map (map (fun x => fsub x (fmul lr c))) w) <$> env_vars env
  | Raise _ => env_vars env
  end.

Definition example_substrate : Substrate binary32 :=
  {| random_keep keep run op i := SFleb one (fadd keep half);
     random_keep_one _ _ _ := eq_refl;
     glorot_uniform := example_glorot;
     binary_roc_auc := example_roc_auc;
     binary_average_precision := example_average_precision;
     adam_minimize := example_adam |}.

Definition example_flags : Flags binary32 :=
  {| learning_rate := fdiv one (b32 100);
     epochs := 2;
     hidden1 := 2;
     hidden2 := 2;
     dropout := fdiv one (b32 10);
     regenerate_training_data := false |}.

Definition with_epochs {F} (n : Z) (FLAGS : Flags F) : Flags F :=
  {| learning_rate := learning_rate FLAGS;
     epochs := n;
     hidden1 := hidden1 FLAGS;
     hidden2 := hidden2 FLAGS;
     dropout := dropout FLAGS;
     regenerate_training_data := regenerate_training_data FLAGS |}.

Definition with_dropout {F} (d : F) (FLAGS : Flags F) : Flags F :=
  {| learning_rate := learning_rate FLAGS;
     epochs := epochs FLAGS;
     hidden1 := hidden1 FLAGS;
     hidden2 := hidden2 FLAGS;
     dropout := d;
     regenerate_training_data := regenerate_training_data FLAGS |}.

(** The path 0 - 1 - 2 - 3; the edge (1,2) is held out for validation and
    the edge (2,3) for the test. *)
Definition example_data : Dataset binary32 :=
  {| adj := [[b32 0; b32 1; b32 0; b32 0];
             [b32 1; b32 0; b32 1; b32 0];
             [b32 0; b32 1; b32 0; b32 1];
             [b32 0; b32 0; b32 1; b32 0]];
     adj_train := [[b32 0; b32 1; b32 0; b32 0];
                   [b32 1; b32 0; b32 0; b32 0];
                   [b32 0; b32 0; b32 0; b32 0];
                   [b32 0; b32 0; b32 0; b32 0]];
     val_edges := [(1, 2)%Z];
     val_edges_false := [(0, 2)%Z];
     test_edges := [(2, 3)%Z];
     test_edges_false := [(1, 3)%Z] |}.

Section ExampleRun.
#[local] Existing Instance example_mathlib.
#[local] Existing Instance example_substrate.

Definition example_main (FLAGS : Flags binary32)
    : state binary32 * result (binary32 * binary32) :=
  main FLAGS example_data.

Definition example_model : GCNModel := model example_flags example_data.

Definition example_opt : Optimizer := opt example_flags example_data.

(** The state in which the first epoch calls [get_roc_score]. *)
Definition example_state_before_validation : state binary32 :=
  fst ((exec _ <- setup example_flags example_data;
        epoch_training_step example_flags example_data) initial_state).

(** The state in which the [k+1]-th epoch is entered. *)
Definition example_state_after_epochs (k : nat) : state binary32 :=
  fst (script_prefix example_flags example_data k initial_state).

Definition example_adj_orig : matrix binary32 :=
  [[b32 0; b32 1; b32 0; b32 0];
   [b32 1; b32 0; b32 1; b32 0];
   [b32 0; b32 1; b32 0; b32 1];
   [b32 0; b32 0; b32 1; b32 0]].

Definition example_adj_label : SparseTensor binary32 :=
  {| indices := [(0, 0); (0, 1); (1, 0); (1, 1); (2, 2); (3, 3)];
     values := [b32 1; b32 1; b32 1; b32 1; b32 1; b32 1];
     dense_shape := (4, 4) |}.

(** The embeddings of the initial weights. *)
Definition example_embeddings : matrix binary32 :=
  [[b32 0; b32 0];
   [b32 0; b32 0];
   [fdiv (b32 (-1)) (b32 4); fdiv (b32 1) (b32 4)];
   [b32 0; fdiv (b32 (-1)) (b32 4)]].

Definition empty_env {F : Type} : run_env F :=
  {| env_feed := ∅; env_vars := ∅; env_run := 0 |}.

End ExampleRun.

Unset Implicit Arguments.

(** ** Observers used by the further properties *)

(** The edge (j, i) of an edge (i, j). *)
Definition flip_edge (e : Z * Z) : Z * Z := (snd e, fst e).

(** The epoch numbers of the epoch lines of a printed text, in order. *)
Definition printed_epochs {F : Type} (out : list (line F)) : list Z :=
  flat_map (fun l => match l with EpochLine e _ _ _ => [e] | _ => [] end) out.

Section TestLayerConvolution.
Context `{S : !Substrate binary32}.

(** [test_apply_convolution]: the tensor [result] of the test. *)
Definition test_apply_convolution : tensor binary32 (matrix binary32) :=
  let sparse_adj :=
    tf_constant {| indices := [(0, 1); (1, 0)];
                   values := [b32 1; b32 1];
                   dense_shape := (3, 3) |} in
  let gcs :=
    GraphConvolution_init "" 3 3 sparse_adj "gcn_dense_layer"
      (tf_constant zero) tf_nn_relu in
  let weights :=
    tf_constant [[b32 0; b32 1];
                 [b32 1; b32 0]] in
  let gcs := GraphConvolution_set_weights gcs weights in
  let node_state :=
    tf_constant [[b32 1; b32 0];
                 [b32 1; b32 0];
                 [b32 0; b32 0]] in
  GraphConvolution_call gcs node_state.

End TestLayerConvolution.

(** The normalized training adjacency of the small run. *)
Definition example_adj_norm : SparseTensor binary32 :=
  sparse_to_tuple
    (sym_normalize_matrix
       [[b32 1; b32 1; b32 0; b32 0];
        [b32 1; b32 1; b32 0; b32 0];
        [b32 0; b32 0; b32 1; b32 0];
        [b32 0; b32 0; b32 0; b32 1]]).

(** The layer and the input of [test_apply_convolution]. *)
Definition example_convolution `{S : !Substrate binary32} : GraphConvolution :=
  GraphConvolution_set_weights
    (GraphConvolution_init "" 3 3
       (tf_constant {| indices := [(0, 1); (1, 0)];
                       values := [b32 1; b32 1];
                       dense_shape := (3, 3) |})
       "gcn_dense_layer" (tf_constant zero) tf_nn_relu)
    (tf_constant [[b32 0; b32 1]; [b32 1; b32 0]]).

Definition example_node_state : matrix binary32 :=
  [[b32 1; b32 0]; [b32 1; b32 0]; [b32 0; b32 0]].

(** The layer of [test_propagate_node_state]. *)
Definition example_sparse_convolution `{S : !Substrate binary32}
    : GraphConvolutionSparse :=
  GraphConvolutionSparse_set_weights
    (GraphConvolutionSparse_init "" 3 3
       (tf_constant {| indices := [(0, 1); (1, 0)];
                       values := [b32 1; b32 1];
                       dense_shape := (3, 3) |})
       3 "gcn_sparse_layer" (tf_constant zero) tf_nn_relu)
    (tf_constant [[b32 1; b32 0]; [b32 0; b32 1]; [b32 0; b32 0]]).

Local Open Scope result_scope.
Local Open Scope prog_scope.

(** * Properties *)

(** ** Lists and shapes *)

Section ShapeFacts.
Context {F : Type} `{Dtype F}.

Lemma map_snd_combine_seq {B} (g : F -> B) (l : list F) (a : nat) :
  map (fun p : nat * F => g (snd p)) (combine (seq a (length l)) l) = map g l.
Proof.
  revert a. induction l as [|x l IH]; intros a; cbn; [reflexivity|].
  f_equal. apply IH.
Qed.

Lemma map_nth_seq {A} (l : list A) (z : A) :
  map (fun j => nth j l z) (seq 0 (length l)) = l.
Proof.
  induction l as [|x l IH]; cbn [length seq map]; [reflexivity|].
  cbn [nth]. f_equal. rewrite <- seq_shift, map_map. exact IH.
Qed.

Lemma repeat_as_map {A} (x : F) (l : list A) :
  repeat x (length l) = map (fun _ => x) l.
Proof. induction l; cbn; [reflexivity|]. now f_equal. Qed.

Lemma length_concat_grid {A B} (f : A -> A -> B) (l k : list A) :
  length (concat (map (fun a => map (f a) k) l)) = length l * length k.
Proof.
  induction l as [|a l IH]; cbn [map concat length]; [reflexivity|].
  rewrite length_app, length_map, IH. lia.
Qed.

Lemma has_shape_length n d (m : matrix F) : has_shape n d m = true -> length m = n.
Proof.
  unfold has_shape. intros Hs. apply andb_prop in Hs as [Hn _].
  now apply Nat.eqb_eq.
Qed.

Lemma has_shape_row n d (m : matrix F) r :
  has_shape n d m = true -> In r m -> length r = d.
Proof.
  unfold has_shape. intros Hs Hr. apply andb_prop in Hs as [_ Hd].
  rewrite forallb_forall in Hd. apply Nat.eqb_eq. now apply Hd.
Qed.

Lemma has_shape_ncols n d (m : matrix F) :
  has_shape n d m = true -> 0 < n -> ncols m = d.
Proof.
  intros Hs Hn. pose proof (has_shape_length _ _ _ Hs) as Hl.
  destruct m as [|r m]; [cbn in Hl; lia|].
  unfold ncols; cbn [hd]. apply (has_shape_row _ _ _ _ Hs). now left.
Qed.

Lemma nrows_transpose (m : matrix F) : nrows (transpose m) = ncols m.
Proof. unfold nrows, transpose. rewrite length_map, length_seq. reflexivity. Qed.

Lemma nth_column (i j : nat) (m : matrix F) :
  nth i (column j m) zero = nth j (nth i m []) zero.
Proof.
  unfold column. destruct (lt_dec i (length m)) as [Hi|Hi].
  - rewrite (nth_indep _ zero (nth j [] zero)) by (rewrite length_map; lia).
    now rewrite (map_nth (fun row : list F => nth j row zero)).
  - rewrite (nth_overflow (map _ m)) by (rewrite length_map; lia).
    rewrite (nth_overflow m) by lia. destruct j; reflexivity.
Qed.

Lemma transpose_involutive n d (m : matrix F) :
  has_shape n d m = true -> 0 < d -> transpose (transpose m) = m.
Proof.
  intros Hs Hd. destruct (Nat.eq_dec n 0) as [Hn|Hn].
  - pose proof (has_shape_length _ _ _ Hs) as Hl. subst n.
    destruct m; [reflexivity|discriminate].
  - assert (Hc : ncols m = d) by (apply (has_shape_ncols _ _ _ Hs); lia).
    assert (Hl : length m = n) by apply (has_shape_length _ _ _ Hs).
    assert (Hct : ncols (transpose m) = n).
    { unfold ncols at 1, transpose. rewrite Hc.
      destruct d as [|d]; [lia|]. cbn [seq map hd].
      unfold column. now rewrite length_map. }
    unfold transpose at 1. rewrite Hct, <- Hl.
    rewrite <- (map_nth_seq m []) at 2.
    apply map_ext_in. intros i Hi. apply in_seq in Hi.
    unfold column at 1, transpose. rewrite map_map, Hc.
    assert (Hr : length (nth i m []) = d).
    { apply (has_shape_row _ _ _ _ Hs). apply nth_In. lia. }
    rewrite <- Hr.
    rewrite <- (map_nth_seq (nth i m []) zero) at 2.
    apply map_ext. intros j. apply nth_column.
Qed.

Lemma matmul_transpose n d (m : matrix F) :
  has_shape n d m = true -> 0 < d ->
  matmul m (transpose m) = map (fun r1 => map (fun r2 => dot r1 r2) m) m.
Proof.
  intros Hs Hd. unfold matmul. now rewrite (transpose_involutive _ _ _ Hs Hd).
Qed.

End ShapeFacts.

(** ** Dropout at keep probability one *)

Section DropoutFacts.
Context {F : Type} `{S : Substrate F}.

Lemma filter_keep_one {A} (run : nat) (op : string) (l : list (nat * A)) :
  List.filter (fun p => random_keep one run op (fst p)) l = l.
Proof.
  induction l as [|p l IH]; cbn [List.filter]; [reflexivity|].
  rewrite random_keep_one. f_equal. exact IH.
Qed.

Lemma dropout_row_keep_one (run : nat) (op : string) (offset : nat) (row : list F) :
  dropout_row one run op offset row = map (fun x => fmul (fdiv x one) one) row.
Proof.
  unfold dropout_row.
  rewrite <- (map_snd_combine_seq (fun x => fmul (fdiv x one) one) row 0).
  apply map_ext. intros p. rewrite random_keep_one. reflexivity.
Qed.

Lemma dropout_matrix_keep_one (run : nat) (op : string) (m : matrix F) :
  dropout_matrix one run op m = map (map (fun x => fmul (fdiv x one) one)) m.
Proof.
  unfold dropout_matrix.
  transitivity (map (fun p : nat * list F => map (fun x => fmul (fdiv x one) one) (snd p))
                    (combine (seq 0 (length m)) m)).
  - apply map_ext. intros p. apply dropout_row_keep_one.
  - generalize 0. induction m as [|r m IH]; intros a; cbn; [reflexivity|].
    f_equal. apply IH.
Qed.

Lemma has_shape_dropout_matrix n d keep run op (m : matrix F) :
  has_shape n d m = true -> has_shape n d (dropout_matrix keep run op m) = true.
Proof.
  unfold has_shape, dropout_matrix. intros Hs. apply andb_prop in Hs as [Hn Hd].
  apply andb_true_intro. split.
  - rewrite length_map, length_combine, length_seq, Nat.min_id. exact Hn.
  - rewrite forallb_forall in *. intros r Hr. apply in_map_iff in Hr as [p [<- Hp]].
    unfold dropout_row. rewrite length_map, length_combine, length_seq, Nat.min_id.
    apply Hd. destruct p as [i row]. apply in_combine_r in Hp. exact Hp.
Qed.

End DropoutFacts.

Lemma tf_keep_prob_zero_dropout `{S : !Substrate binary32} (env : run_env binary32) :
  tf_sub (tf_constant one) (tf_constant zero) env = Ok one.
Proof. reflexivity. Qed.

(** ** The layers *)

(** C5.  The forward pass of the sparse-input layer on the adjacency with
    the edges (0,1) and (1,0) of weight 1, the weights
    [[1,0],[0,1],[0,0]], the 3x3 identity as features, dropout 0 and ReLU
    evaluates, in every run, to the rows [[0,1],[1,0],[0,0]]. *)
Theorem C5_test_propagate_node_state `{S : !Substrate binary32} (env : run_env binary32) :
  test_propagate_node_state env
  = Ok [[b32 0; b32 1]; [b32 1; b32 0]; [b32 0; b32 0]].
Proof.
  unfold test_propagate_node_state, GraphConvolutionSparse_call,
    GraphConvolutionSparse_preactivation, GraphConvolutionSparse_set_weights,
    GraphConvolutionSparse_init;
    cbn [gcs_act gcs_adj gcs_vars_weights gcs_dropout gcs_features_nonzero gcs_name].
  unfold tf_nn_relu, tf_sparse_tensor_dense_matmul, dropout_sparse.
  rewrite tf_keep_prob_zero_dropout.
  cbn [bind tf_constant values indices length Nat.eqb andb].
  rewrite filter_keep_one.
  vm_compute. reflexivity.
Qed.

(** C6.  On the embeddings [[0,1],[0,1],[0,0]], with dropout 0 and the
    identity activation, the decoder evaluates to the row-major vector
    [1,1,0,1,1,0,0,0,0].  In general its forward pass is, in this order, the
    dropout of the embeddings, the product of the result with its
    transpose, the flattening of the product and the activation; on
    embeddings of [N] rows, of any width, and with an activation that
    applies a function [f] entry by entry, the product evaluates to [N] rows
    of [N] entries and the forward pass to [f] of its flattening, a vector
    of [N * N] entries. *)
Theorem C6_inner_product_decoder :
  (forall (S : Substrate binary32) (env : run_env binary32),
      test_decoder env
      = Ok [b32 1; b32 1; b32 0; b32 1; b32 1; b32 0; b32 0; b32 0; b32 0])
  /\ (forall (F : Type) (D : Dtype F) (S : Substrate F)
        (self : InnerProductDecoder) (inputs : tensor F (matrix F)),
        let dropped :=
          tf_nn_dropout inputs (tf_sub (tf_constant one) (ipd_dropout self))
            (ipd_name self) in
        InnerProductDecoder_call self inputs
        = ipd_act self (tf_reshape_flat (tf_matmul dropped (tf_transpose dropped))))
  /\ (forall (F : Type) (D : Dtype F) (S : Substrate F)
        (self : InnerProductDecoder) (inputs : tensor F (matrix F))
        (env : run_env F) (emb : matrix F) (rate : F) (f : F -> F) (N : nat),
        inputs env = Ok emb ->
        ipd_dropout self env = Ok rate ->
        length emb = N ->
        (forall (x : tensor F (list F)) (v : list F),
            x env = Ok v -> ipd_act self x env = Ok (map f v)) ->
        let dropped :=
          tf_nn_dropout inputs (tf_sub (tf_constant one) (ipd_dropout self))
            (ipd_name self) in
        exists product : matrix F,
          tf_matmul dropped (tf_transpose dropped) env = Ok product
          /\ has_shape N N product = true
          /\ InnerProductDecoder_call self inputs env
             = Ok (map f (reshape_flat product))
          /\ length (map f (reshape_flat product)) = N * N).
Proof.
  split; [|split].
  - intros S env.
    unfold test_decoder, InnerProductDecoder_call, InnerProductDecoder_init;
      cbn [ipd_act ipd_dropout ipd_name].
    unfold tf_reshape_flat, tf_matmul, tf_transpose, tf_nn_dropout.
    rewrite tf_keep_prob_zero_dropout.
    cbn [bind tf_constant].
    rewrite dropout_matrix_keep_one.
    vm_compute. reflexivity.
  - intros F D S self inputs dropped. reflexivity.
  - intros F D S self inputs env emb rate f N Hin Hrate Hlen Hact dropped.
    set (dm := dropout_matrix (fsub one rate) (env_run env) (ipd_name self) emb).
    assert (Hdm : length dm = N).
    { unfold dm, dropout_matrix.
      rewrite length_map, length_combine, length_seq, Nat.min_id. exact Hlen. }
    assert (Hd : dropped env = Ok dm).
    { unfold dropped, tf_nn_dropout, tf_sub, tf_constant.
      rewrite Hin, Hrate. reflexivity. }
    set (product := map (fun r1 => map (fun r2 => dot r1 r2) dm) dm).
    assert (Hp : tf_matmul dropped (tf_transpose dropped) env = Ok product).
    { unfold tf_matmul, tf_transpose. rewrite Hd. cbn [bind].
      cbn [operand_nrows operand_columns transposed_operand transposed_of].
      now rewrite Nat.eqb_refl. }
    assert (Hs : has_shape N N product = true).
    { unfold has_shape, product. rewrite length_map, Hdm, Nat.eqb_refl.
      cbn [andb]. apply forallb_forall. intros r Hr.
      apply in_map_iff in Hr as [r1 [<- _]].
      rewrite length_map, Hdm. apply Nat.eqb_refl. }
    exists product. split; [exact Hp|]. split; [exact Hs|]. split.
    + change (InnerProductDecoder_call self inputs env)
        with (ipd_act self
                (tf_reshape_flat (tf_matmul dropped (tf_transpose dropped))) env).
      apply Hact. unfold tf_reshape_flat. rewrite Hp. reflexivity.
    + rewrite length_map. unfold reshape_flat, product.
      rewrite length_concat_grid. now rewrite Hdm.
Qed.

(** C3 (what the code does at the failing input).  On [overflow_layer] every
    input is finite and the pre-activation product holds an infinity; the
    forward pass raises nothing and returns the infinity.  In general the
    layer's output is the activation of the pre-activation tensor: the
    [check_numerics] tensor is not part of it. *)
Theorem C3_check_numerics_not_fetched :
  (forall (S : Substrate binary32) (env : run_env binary32),
      GraphConvolutionSparse_preactivation overflow_layer overflow_inputs env
      = Ok [[S754_infinity false]; [b32 0]]
      /\ all_finite [[S754_infinity false]; [b32 0]] = false
      /\ tf_debugging_check_numerics
           (GraphConvolutionSparse_preactivation overflow_layer overflow_inputs)
           "Output of layer gcn_sparse_layer has numerical instability" env
         = Raise (InvalidArgumentError
                    "Output of layer gcn_sparse_layer has numerical instability")
      /\ GraphConvolutionSparse_call overflow_layer overflow_inputs env
         = Ok [[S754_infinity false]; [b32 0]])
  /\ (forall (F : Type) (D : Dtype F) (S : Substrate F)
        (self : GraphConvolutionSparse) (inputs : tensor F (SparseTensor F)),
        GraphConvolutionSparse_call self inputs
        = gcs_act self (GraphConvolutionSparse_preactivation self inputs)).
Proof.
  split; [|reflexivity].
  intros S env.
  assert (Hpre : GraphConvolutionSparse_preactivation overflow_layer overflow_inputs env
                 = Ok [[S754_infinity false]; [b32 0]]).
  { unfold GraphConvolutionSparse_preactivation, overflow_layer, overflow_inputs,
      GraphConvolutionSparse_set_weights, GraphConvolutionSparse_init;
      cbn [gcs_act gcs_adj gcs_vars_weights gcs_dropout gcs_features_nonzero gcs_name].
    unfold tf_sparse_tensor_dense_matmul, dropout_sparse.
    rewrite tf_keep_prob_zero_dropout.
    cbn [bind tf_constant values indices length Nat.eqb andb].
    rewrite filter_keep_one.
    vm_compute. reflexivity. }
  split; [exact Hpre|]. split; [reflexivity|]. split.
  - unfold tf_debugging_check_numerics. rewrite Hpre. reflexivity.
  - change (GraphConvolutionSparse_call overflow_layer overflow_inputs env)
      with (tf_nn_relu
              (GraphConvolutionSparse_preactivation overflow_layer overflow_inputs) env).
    unfold tf_nn_relu. rewrite Hpre. reflexivity.
Qed.

(** ** The evaluator *)



Section Evaluator.
Context {F : Type} `{S : Substrate F} `{!MathLib F}.

Lemma get_roc_score_state (model : GCNModel) (ao : matrix F)
    (edges_pos edges_neg : list (Z * Z)) (st : state F) :
  fst (get_roc_score model ao edges_pos edges_neg st)
  = {| st_sess := {| sess_vars := sess_vars (st_sess st);
                     sess_runs := Datatypes.S (sess_runs (st_sess st));
                     sess_train_steps := sess_train_steps (st_sess st) |};
       st_feed_dict := <[p_dropout placeholders := FScalar zero]> (st_feed_dict st);
       st_stdout := st_stdout st |}.
Proof.
  unfold get_roc_score, pbind, feed_dict_update, feed_dict, sess_run, lift.
  cbn [st_sess st_feed_dict st_stdout].
  destruct (model_embeddings model _); reflexivity.
Qed.

Lemma get_roc_score_result (model : GCNModel) (ao : matrix F)
    (edges_pos edges_neg : list (Z * Z)) (st : state F) :
  snd (get_roc_score model ao edges_pos edges_neg st)
  = (do emb <- model_embeddings model (evaluation_env st);
     do adj_rec <- np_dot emb (transpose emb);
     do '(preds, pos) <- score_edges adj_rec ao edges_pos [] [];
     do '(preds_neg, neg) <- score_edges adj_rec ao edges_neg [] [];
     let preds_all := preds ++ preds_neg in
     let labels_all := repeat one (length preds) ++ repeat zero (length preds) in
     do roc_score <- roc_auc_score labels_all preds_all;
     do ap_score <- average_precision_score labels_all preds_all;
     Ok (roc_score, ap_score)).
Proof.
  unfold get_roc_score, pbind, feed_dict_update, feed_dict, sess_run, lift,
    evaluation_env.
  cbn [st_sess st_feed_dict st_stdout sess_vars sess_runs].
  destruct (model_embeddings model _); reflexivity.
Qed.

Lemma getitem_same_shape (a b : matrix F) (e : Z * Z) :
  same_shape a b = true ->
  (exists x y, getitem a e = Ok x /\ getitem b e = Ok y)
  \/ (getitem a e = Raise (IndexError "index out of bounds")
      /\ getitem b e = Raise (IndexError "index out of bounds")).
Proof.
  unfold same_shape. intros Hs. apply andb_prop in Hs as [Hr Hc].
  apply Nat.eqb_eq in Hr, Hc. unfold getitem. rewrite Hr, Hc.
  destruct (np_index (nrows b) (fst e)); [|right; split; reflexivity].
  destruct (np_index (ncols b) (snd e)); [|right; split; reflexivity].
  left. eauto.
Qed.

(** Only the predictions of a loop are used afterwards, and they are the
    specification's. *)
Lemma score_edges_predictions {B} (adj_rec ao : matrix F) (edges : list (Z * Z))
    (preds pos : list F) (k : list F -> result B) :
  same_shape adj_rec ao = true ->
  (do '(p, _) <- score_edges adj_rec ao edges preds pos; k p)
  = (do ps <- spec_predictions adj_rec edges; k (preds ++ ps)).
Proof.
  intros Hs. revert preds pos k.
  induction edges as [|e rest IH]; intros preds pos k; cbn [score_edges spec_predictions bind].
  - now rewrite app_nil_r.
  - destruct (getitem_same_shape adj_rec ao e Hs) as [(x & y & Hx & Hy)|[Hx Hy]];
      rewrite Hx, Hy; cbn [bind]; [|reflexivity].
    rewrite IH. destruct (spec_predictions adj_rec rest) as [ps|err]; cbn [bind];
      [|reflexivity].
    now rewrite <- app_assoc.
Qed.

Lemma score_edges_adjacency {B} (adj_rec ao1 ao2 : matrix F) (edges : list (Z * Z))
    (preds pos1 pos2 : list F) (k : list F -> result B) :
  same_shape ao1 ao2 = true ->
  (do '(p, _) <- score_edges adj_rec ao1 edges preds pos1; k p)
  = (do '(p, _) <- score_edges adj_rec ao2 edges preds pos2; k p).
Proof.
  intros Hs. revert preds pos1 pos2.
  induction edges as [|e rest IH]; intros preds pos1 pos2; cbn [score_edges bind].
  - reflexivity.
  - destruct (getitem adj_rec e) as [p|err]; cbn [bind]; [|reflexivity].
    destruct (getitem_same_shape ao1 ao2 e Hs) as [(x & y & Hx & Hy)|[Hx Hy]];
      rewrite Hx, Hy; cbn [bind]; [|reflexivity].
    apply IH.
Qed.

Lemma spec_predictions_length (adj_rec : matrix F) (edges : list (Z * Z)) (ps : list F) :
  spec_predictions adj_rec edges = Ok ps -> length ps = length edges.
Proof.
  revert ps. induction edges as [|e rest IH]; intros ps; cbn [spec_predictions].
  - intros [= <-]. reflexivity.
  - destruct (getitem adj_rec e); cbn [bind]; [|discriminate].
    destruct (spec_predictions adj_rec rest) as [qs|]; cbn [bind]; [|discriminate].
    intros [= <-]. cbn [length]. f_equal. now apply IH.
Qed.


Lemma np_dot_transpose (emb : matrix F) :
  np_dot emb (transpose emb) = Ok (matmul emb (transpose emb)).
Proof.
  unfold np_dot, nrows, transpose. now rewrite length_map, length_seq, Nat.eqb_refl.
Qed.

Lemma score_edges_length (adj_rec ao : matrix F) (edges : list (Z * Z))
    (preds pos preds' pos' : list F) :
  score_edges adj_rec ao edges preds pos = Ok (preds', pos') ->
  length preds' = length preds + length edges.
Proof.
  revert preds pos. induction edges as [|e rest IH]; intros preds pos; cbn [score_edges].
  - intros [= <- <-]. cbn. lia.
  - destruct (getitem adj_rec e); cbn [bind]; [|discriminate].
    destruct (getitem ao e); cbn [bind]; [|discriminate].
    intros Hs. apply IH in Hs. rewrite Hs, length_app. cbn. lia.
Qed.

(** C4 (as amended).  For positive and negative edge lists of equal length,
    and a true adjacency of the shape of the reconstructed one, the scores of
    [get_roc_score] are those of the specification's score function, which
    labels every positive edge 1 and every negative edge 0 and never reads
    the adjacency.  For edge lists of any lengths, the call does not depend
    on the values stored in the adjacency: two adjacency matrices of the same
    shape give the same state and the same result. *)
Theorem C4_labels_ignore_adjacency (model : GCNModel) (ao : matrix F)
    (edges_pos edges_neg : list (Z * Z)) (st : state F) :
  (forall emb : matrix F,
      model_embeddings model (evaluation_env st) = Ok emb ->
      same_shape (matmul emb (transpose emb)) ao = true ->
      length edges_pos = length edges_neg ->
      snd (get_roc_score model ao edges_pos edges_neg st)
      = spec_score emb edges_pos edges_neg)
  /\ (forall ao' : matrix F,
        same_shape ao ao' = true ->
        get_roc_score model ao edges_pos edges_neg st
        = get_roc_score model ao' edges_pos edges_neg st).
Proof.
  split.
  - intros emb Hemb Hs Hlen.
    rewrite get_roc_score_result, Hemb. cbn [bind].
    unfold spec_score. rewrite np_dot_transpose. cbn [bind].
    rewrite (score_edges_predictions _ _ _ _ _ _ Hs).
    destruct (spec_predictions (matmul emb (transpose emb)) edges_pos) as [ps|err] eqn:Hps;
      cbn [bind]; [|reflexivity].
    rewrite (score_edges_predictions _ _ _ _ _ _ Hs).
    destruct (spec_predictions (matmul emb (transpose emb)) edges_neg) as [qs|err] eqn:Hqs;
      cbn [bind]; [|reflexivity].
    cbn [app].
    rewrite (spec_predictions_length _ _ _ Hps).
    rewrite repeat_as_map, Hlen, repeat_as_map.
    reflexivity.
  - intros ao' Hs.
    rewrite (surjective_pairing (get_roc_score model ao edges_pos edges_neg st)).
    rewrite (surjective_pairing (get_roc_score model ao' edges_pos edges_neg st)).
    rewrite !get_roc_score_state, !get_roc_score_result. f_equal.
    destruct (model_embeddings model (evaluation_env st)) as [emb|err]; cbn [bind];
      [|reflexivity].
    destruct (np_dot emb (transpose emb)) as [adj_rec|err]; cbn [bind]; [|reflexivity].
    rewrite (score_edges_adjacency adj_rec ao ao' edges_pos [] [] [] _ Hs).
    destruct (score_edges adj_rec ao' edges_pos [] []) as [[preds pos]|err]; cbn [bind];
      [|reflexivity].
    apply (score_edges_adjacency adj_rec ao ao' edges_neg [] [] [] _ Hs).
Qed.

(** C10.  When the lookups of both loops succeed, the label vector has
    [2 * len(edges_pos)] entries (that many ones, then that many zeros) and
    the prediction vector [len(edges_pos) + len(edges_neg)]; the length check
    of the scores passes when the two edge lists have the same length, and
    when they differ the call raises scikit-learn's error on inconsistent
    lengths.  Whatever the lookups do, a call on edge lists of different
    lengths never returns scores. *)
Theorem C10_equal_length_precondition (model : GCNModel) (ao : matrix F)
    (edges_pos edges_neg : list (Z * Z)) (st : state F) :
  (forall (emb : matrix F) (preds pos preds_neg neg : list F),
      model_embeddings model (evaluation_env st) = Ok emb ->
      score_edges (matmul emb (transpose emb)) ao edges_pos [] [] = Ok (preds, pos) ->
      score_edges (matmul emb (transpose emb)) ao edges_neg [] [] = Ok (preds_neg, neg) ->
      let labels_all := repeat one (length preds) ++ repeat zero (length preds) in
      let preds_all := preds ++ preds_neg in
      length labels_all = 2 * length edges_pos
      /\ length preds_all = length edges_pos + length edges_neg
      /\ (length edges_pos = length edges_neg ->
          check_consistent_length labels_all preds_all = Ok tt)
      /\ (length edges_pos <> length edges_neg ->
          snd (get_roc_score model ao edges_pos edges_neg st)
          = Raise (ValueError
                     "Found input variables with inconsistent numbers of samples")))
  /\ (length edges_pos <> length edges_neg ->
      is_ok (snd (get_roc_score model ao edges_pos edges_neg st)) = false).
Proof.
  assert (Hmain : forall (emb : matrix F) (preds pos preds_neg neg : list F),
      model_embeddings model (evaluation_env st) = Ok emb ->
      score_edges (matmul emb (transpose emb)) ao edges_pos [] [] = Ok (preds, pos) ->
      score_edges (matmul emb (transpose emb)) ao edges_neg [] [] = Ok (preds_neg, neg) ->
      length (repeat (@one F _) (length preds) ++ repeat (@zero F _) (length preds))
        = 2 * length edges_pos
      /\ length (preds ++ preds_neg) = length edges_pos + length edges_neg
      /\ (length edges_pos <> length edges_neg ->
          snd (get_roc_score model ao edges_pos edges_neg st)
          = Raise (ValueError
                     "Found input variables with inconsistent numbers of samples"))).
  { intros emb preds pos preds_neg neg Hemb Hp Hn.
    pose proof (score_edges_length _ _ _ _ _ _ _ Hp) as Lp.
    pose proof (score_edges_length _ _ _ _ _ _ _ Hn) as Ln.
    cbn [length] in Lp, Ln.
    assert (L1 : length (repeat (@one F _) (length preds)
                           ++ repeat (@zero F _) (length preds)) = 2 * length edges_pos)
      by (rewrite length_app, !repeat_length; lia).
    assert (L2 : length (preds ++ preds_neg) = length edges_pos + length edges_neg)
      by (rewrite length_app; lia).
    split; [exact L1|]. split; [exact L2|].
    intros Hne. rewrite get_roc_score_result, Hemb. cbn [bind].
    rewrite np_dot_transpose. cbn [bind]. rewrite Hp. cbn [bind]. rewrite Hn. cbn [bind].
    unfold roc_auc_score, check_consistent_length. rewrite L1, L2.
    destruct (Nat.eqb_spec (2 * length edges_pos) (length edges_pos + length edges_neg));
      [lia|reflexivity]. }
  split.
  - intros emb preds pos preds_neg neg Hemb Hp Hn labels_all preds_all.
    destruct (Hmain emb preds pos preds_neg neg Hemb Hp Hn) as (L1 & L2 & Hraise).
    split; [exact L1|]. split; [exact L2|]. split; [|exact Hraise].
    intros Heq. unfold check_consistent_length, labels_all, preds_all.
    rewrite L1, L2.
    destruct (Nat.eqb_spec (2 * length edges_pos) (length edges_pos + length edges_neg));
      [reflexivity|lia].
  - intros Hne.
    destruct (model_embeddings model (evaluation_env st)) as [emb|err] eqn:Hemb.
    2:{ rewrite get_roc_score_result, Hemb. reflexivity. }
    destruct (score_edges (matmul emb (transpose emb)) ao edges_pos [] [])
      as [[preds pos]|err] eqn:Hp.
    2:{ rewrite get_roc_score_result, Hemb. cbn [bind]. rewrite np_dot_transpose.
        cbn [bind]. rewrite Hp. reflexivity. }
    destruct (score_edges (matmul emb (transpose emb)) ao edges_neg [] [])
      as [[preds_neg neg]|err] eqn:Hn.
    2:{ rewrite get_roc_score_result, Hemb. cbn [bind]. rewrite np_dot_transpose.
        cbn [bind]. rewrite Hp. cbn [bind]. rewrite Hn. reflexivity. }
    destruct (Hmain emb preds pos preds_neg neg eq_refl Hp Hn) as (_ & _ & Hraise).
    rewrite (Hraise Hne). reflexivity.
Qed.
End Evaluator.

(** ** Runs that differ in their random draws *)

Section Stable.
Context {F : Type} `{S : Substrate F}.
Variables e1 e2 : run_env F.
Hypothesis Hfeed : env_feed e1 = env_feed e2.
Hypothesis Hvars : env_vars e1 = env_vars e2.

Lemma stable_sparse_placeholder name :
  tf_sparse_placeholder name e1 = tf_sparse_placeholder name e2.
Proof. unfold tf_sparse_placeholder. now rewrite Hfeed. Qed.

Lemma stable_Variable name : tf_Variable name e1 = tf_Variable name e2.
Proof. unfold tf_Variable. now rewrite Hvars. Qed.

Lemma stable_sparse_tensor_dense_matmul a b :
  a e1 = a e2 -> b e1 = b e2 ->
  tf_sparse_tensor_dense_matmul a b e1 = tf_sparse_tensor_dense_matmul a b e2.
Proof. unfold tf_sparse_tensor_dense_matmul. now intros -> ->. Qed.

Lemma stable_matmul {B : Type} `{RightOperand F B}
    (a : tensor F (matrix F)) (b : tensor F B) :
  a e1 = a e2 -> b e1 = b e2 -> tf_matmul a b e1 = tf_matmul a b e2.
Proof. unfold tf_matmul. now intros -> ->. Qed.

Lemma stable_relu a : a e1 = a e2 -> tf_nn_relu a e1 = tf_nn_relu a e2.
Proof. unfold tf_nn_relu. now intros ->. Qed.

Lemma stable_dropout_sparse a keep n op :
  a e1 = a e2 -> keep e1 = Ok one -> keep e2 = Ok one ->
  dropout_sparse a keep n op e1 = dropout_sparse a keep n op e2.
Proof.
  unfold dropout_sparse. intros -> -> ->.
  destruct (a e2) as [s|err]; cbn [bind]; [|reflexivity].
  now rewrite !filter_keep_one.
Qed.

Lemma stable_nn_dropout a keep op :
  a e1 = a e2 -> keep e1 = Ok one -> keep e2 = Ok one ->
  tf_nn_dropout a keep op e1 = tf_nn_dropout a keep op e2.
Proof.
  unfold tf_nn_dropout. intros -> -> ->.
  destruct (a e2) as [x|err]; cbn [bind]; [|reflexivity].
  now rewrite !dropout_matrix_keep_one.
Qed.

End Stable.

Section Determinism.
Context `{S : !Substrate binary32} `{M : !MathLib binary32}.

Lemma keep_prob_at_zero_dropout (env : run_env binary32) :
  env_feed env !! p_dropout placeholders = Some (FScalar zero) ->
  tf_sub (tf_constant one)
         (tf_placeholder_with_default zero (p_dropout placeholders)) env
  = Ok one.
Proof.
  intros Hd. unfold tf_sub, tf_constant, tf_placeholder_with_default.
  rewrite Hd. reflexivity.
Qed.

Lemma embeddings_stable (FLAGS : Flags binary32) (num_features features_nonzero : nat)
    (name : string) (e1 e2 : run_env binary32) :
  env_feed e1 = env_feed e2 ->
  env_vars e1 = env_vars e2 ->
  env_feed e1 !! p_dropout placeholders = Some (FScalar zero) ->
  model_embeddings (GCNModel_init FLAGS placeholders num_features features_nonzero name) e1
  = model_embeddings (GCNModel_init FLAGS placeholders num_features features_nonzero name) e2.
Proof.
  intros Hfeed Hvars Hd1.
  assert (Hd2 : env_feed e2 !! p_dropout placeholders = Some (FScalar zero))
    by (rewrite <- Hfeed; exact Hd1).
  pose proof (keep_prob_at_zero_dropout e1 Hd1) as Hk1.
  pose proof (keep_prob_at_zero_dropout e2 Hd2) as Hk2.
  unfold GCNModel_init; cbn [model_embeddings].
  unfold GraphConvolution_call, GraphConvolution_init, GraphConvolutionSparse_call,
    GraphConvolutionSparse_preactivation, GraphConvolutionSparse_init,
    weight_variable_glorot;
    cbn [gc_act gc_adj gc_vars_weights gc_dropout gc_name
         gcs_act gcs_adj gcs_vars_weights gcs_dropout gcs_features_nonzero gcs_name].
  apply stable_sparse_tensor_dense_matmul.
  - apply stable_sparse_placeholder; exact Hfeed.
  - apply stable_matmul; [|apply stable_Variable; exact Hvars].
    apply stable_nn_dropout; [|exact Hk1|exact Hk2].
    apply stable_relu. apply stable_sparse_tensor_dense_matmul.
    + apply stable_sparse_placeholder; exact Hfeed.
    + apply stable_sparse_tensor_dense_matmul; [|apply stable_Variable; exact Hvars].
      apply stable_dropout_sparse; [|exact Hk1|exact Hk2].
      apply stable_sparse_placeholder; exact Hfeed.
Qed.

(** C7 (as amended).  A call of [get_roc_score] leaves the session's
    variables, its count of training steps and the printed lines unchanged,
    and changes the feed dictionary in one entry only: it sets the dropout
    entry to 0.  Its scores depend on the variables and on the other entries
    of the feed dictionary alone, so a call in any state that agrees on
    these, in particular a repeated call, returns the same result. *)
Theorem C7_score_sets_dropout_only (FLAGS : Flags binary32)
    (num_features features_nonzero : nat) (name : string) (ao : matrix binary32)
    (edges_pos edges_neg : list (Z * Z)) (st : state binary32) :
  let model := GCNModel_init FLAGS placeholders num_features features_nonzero name in
  let st' := fst (get_roc_score model ao edges_pos edges_neg st) in
  sess_vars (st_sess st') = sess_vars (st_sess st)
  /\ sess_train_steps (st_sess st') = sess_train_steps (st_sess st)
  /\ st_stdout st' = st_stdout st
  /\ st_feed_dict st' = <[p_dropout placeholders := FScalar zero]> (st_feed_dict st)
  /\ (forall st2 : state binary32,
         sess_vars (st_sess st2) = sess_vars (st_sess st) ->
         (forall key : string,
             key <> p_dropout placeholders ->
             st_feed_dict st2 !! key = st_feed_dict st !! key) ->
         snd (get_roc_score model ao edges_pos edges_neg st2)
         = snd (get_roc_score model ao edges_pos edges_neg st))
  /\ snd (get_roc_score model ao edges_pos edges_neg st')
     = snd (get_roc_score model ao edges_pos edges_neg st).
Proof.
  intros model st'.
  assert (Hst : st' = _) by apply get_roc_score_state.
  assert (Hsame : forall st2 : state binary32,
             sess_vars (st_sess st2) = sess_vars (st_sess st) ->
             (forall key : string,
                 key <> p_dropout placeholders ->
                 st_feed_dict st2 !! key = st_feed_dict st !! key) ->
             snd (get_roc_score model ao edges_pos edges_neg st2)
             = snd (get_roc_score model ao edges_pos edges_neg st)).
  { intros st2 Hv Hf. rewrite !get_roc_score_result.
    assert (Hfd : <[p_dropout placeholders := FScalar (@zero binary32 _)]> (st_feed_dict st2)
                  = <[p_dropout placeholders := FScalar zero]> (st_feed_dict st)).
    { apply map_eq. intros key.
      destruct (decide (p_dropout placeholders = key)) as [<-|Hne].
      - now rewrite !lookup_insert_eq.
      - rewrite !lookup_insert_ne by exact Hne. apply Hf. congruence. }
    rewrite (embeddings_stable FLAGS num_features features_nonzero name
               (evaluation_env st2) (evaluation_env st)).
    - reflexivity.
    - exact Hfd.
    - exact Hv.
    - cbn [evaluation_env run_env_of env_feed]. apply lookup_insert_eq. }
  repeat split.
  - now rewrite Hst.
  - now rewrite Hst.
  - now rewrite Hst.
  - now rewrite Hst.
  - exact Hsame.
  - apply Hsame.
    + now rewrite Hst.
    + intros key Hne. rewrite Hst. cbn [st_feed_dict].
      apply lookup_insert_ne. congruence.
Qed.

End Determinism.

(** ** The script *)

Section ScriptFacts.
Context {F : Type} `{S : Substrate F} `{M : !MathLib F}.

Lemma range_nonpos (n : Z) : (n <= 0)%Z -> range n = [].
Proof.
  intros Hn. unfold range. replace (Z.to_nat n) with 0 by lia. reflexivity.
Qed.

Lemma for_each_invariant {A} (I : state F -> Prop) (l : list A)
    (body : A -> prog F unit) :
  (forall x st, I st -> I (fst (body x st))) ->
  forall st, I st -> I (fst (for_each l body st)).
Proof.
  intros Hbody. induction l as [|x l IH]; intros st Hst; cbn [for_each].
  - exact Hst.
  - unfold pbind. pose proof (Hbody x st Hst) as H1.
    destruct (body x st) as [st1 [u|e]]; cbn [fst] in *; [|exact H1].
    apply IH. exact H1.
Qed.

Lemma for_each_train_steps {A} (l : list A) (body : A -> prog F unit) :
  (forall x st,
      sess_train_steps (st_sess (fst (body x st))) <= Datatypes.S (sess_train_steps (st_sess st))
      /\ (is_ok (snd (body x st)) = true ->
          sess_train_steps (st_sess (fst (body x st)))
          = Datatypes.S (sess_train_steps (st_sess st)))) ->
  forall st,
    sess_train_steps (st_sess (fst (for_each l body st)))
      <= sess_train_steps (st_sess st) + length l
    /\ (is_ok (snd (for_each l body st)) = true ->
        sess_train_steps (st_sess (fst (for_each l body st)))
        = sess_train_steps (st_sess st) + length l).
Proof.
  intros Hbody. induction l as [|x l IH]; intros st; cbn [for_each length].
  - cbn. split; [lia|intros _; lia].
  - unfold pbind. destruct (Hbody x st) as [Hle Heq].
    destruct (body x st) as [st1 [u|e]]; cbn [fst snd is_ok] in *.
    + destruct (IH st1) as [IHle IHeq]. specialize (Heq eq_refl). split.
      * lia.
      * intros Hok. specialize (IHeq Hok). lia.
    + split; [lia|discriminate].
Qed.

Lemma for_each_no_configuration_error {A} (l : list A) (body : A -> prog F unit) :
  (forall x st, raises_configuration_error (snd (body x st)) = false) ->
  forall st, raises_configuration_error (snd (for_each l body st)) = false.
Proof.
  intros Hbody. induction l as [|x l IH]; intros st; cbn [for_each].
  - reflexivity.
  - unfold pbind. pose proof (Hbody x st) as H1.
    destruct (body x st) as [st1 [u|e]]; cbn [snd] in *; [apply IH|exact H1].
Qed.

(** *** What [setup] leaves behind *)

Lemma setup_result (FLAGS : Flags F) (data : Dataset F) :
  let tests := [Text "test_propagate_node_state Success!";
                Text "test_apply_convolution Success!";
                Text "test_decoder_Success!"] in
  let failed :=
    {| st_sess := {| sess_vars := ∅; sess_runs := 0; sess_train_steps := 0 |};
       st_feed_dict := ∅;
       st_stdout := tests ++ [Text "Start"] |} in
  setup FLAGS data initial_state
  = match adj_orig data with
    | Raise e => (failed, Raise e)
    | Ok ao =>
        match adj_norm data with
        | Raise e => (failed, Raise e)
        | Ok an =>
            match adj_label data with
            | Raise e => (failed, Raise e)
            | Ok al =>
                match python_truediv (of_int (num_nodes data ^ 2))
                        (fmul (fsub (of_int (num_nodes data ^ 2)) (num_edges data))
                           (of_int 2)) with
                | Raise e => (failed, Raise e)
                | Ok _ =>
                    ({| st_sess :=
                          {| sess_vars :=
                               global_variables_initializer FLAGS (num_features data)
                                 "yeast_gcn";
                             sess_runs := 1;
                             sess_train_steps := 0 |};
                        st_feed_dict :=
                          construct_feed_dict an al (features data) placeholders;
                        st_stdout :=
                          tests ++ [Text "Start"; Text "Finished creating optimizer";
                                    Text "Start session"] |}, Ok ao)
                end
            end
        end
    end.
Proof.
  intros tests failed. subst tests failed.
  unfold setup, TestLayer_calls, Optimizer_init, pbind, print, lift, sess_init,
    feed_dict_assign, ret, initial_state.
  cbn [st_sess st_feed_dict st_stdout app].
  destruct (adj_orig data); [|reflexivity].
  destruct (adj_norm data); [|reflexivity].
  destruct (adj_label data); [|reflexivity].
  destruct (python_truediv _ _); reflexivity.
Qed.

Lemma setup_train_steps (FLAGS : Flags F) (data : Dataset F) :
  sess_train_steps (st_sess (fst (setup FLAGS data initial_state))) = 0.
Proof.
  rewrite setup_result.
  destruct (adj_orig data); [|reflexivity].
  destruct (adj_norm data); [|reflexivity].
  destruct (adj_label data); [|reflexivity].
  destruct (python_truediv _ _); reflexivity.
Qed.

Lemma setup_no_configuration_error (FLAGS : Flags F) (data : Dataset F) :
  raises_configuration_error (snd (setup FLAGS data initial_state)) = false.
Proof.
  rewrite setup_result.
  unfold adj_orig, adj_norm, adj_label, mat_sub, mat_add, python_truediv.
  repeat match goal with
         | |- context [if ?b then _ else _] => destruct b; cbn [bind snd]
         end; reflexivity.
Qed.

Lemma setup_ok (FLAGS : Flags F) (data : Dataset F) (st0 : state F) (ao : matrix F) :
  setup FLAGS data initial_state = (st0, Ok ao) ->
  exists an al,
    adj_orig data = Ok ao /\ adj_norm data = Ok an /\ adj_label data = Ok al
    /\ sess_vars (st_sess st0)
       = global_variables_initializer FLAGS (num_features data) "yeast_gcn"
    /\ sess_train_steps (st_sess st0) = 0
    /\ st_feed_dict st0 = construct_feed_dict an al (features data) placeholders.
Proof.
  rewrite setup_result.
  destruct (adj_orig data) as [ao'|]; [|discriminate].
  destruct (adj_norm data) as [an|]; [|discriminate].
  destruct (adj_label data) as [al|]; [|discriminate].
  destruct (python_truediv _ _); [|discriminate].
  intros [= <- <-]. exists an, al. repeat split; reflexivity.
Qed.

(** *** What an epoch and the final evaluation change *)

Lemma epoch_training_step_result (FLAGS : Flags F) (data : Dataset F) (st : state F) :
  snd (epoch_training_step FLAGS data st)
  = (do c <- opt_cost (opt FLAGS data) (training_env FLAGS st); Ok (tt, c)).
Proof.
  unfold epoch_training_step, pbind, feed_dict_update, feed_dict, sess_run_train,
    training_env.
  cbn [st_sess st_feed_dict st_stdout].
  destruct (opt_cost (opt FLAGS data) _); reflexivity.
Qed.

Lemma train_epoch_feed_dict (FLAGS : Flags F) (data : Dataset F) (ao : matrix F)
    (epoch : Z) (st : state F) (key : string) :
  key <> p_dropout placeholders ->
  st_feed_dict (fst (train_epoch FLAGS data ao epoch st)) !! key
  = st_feed_dict st !! key.
Proof.
  intros Hne. unfold train_epoch, pbind, feed_dict_update, feed_dict, sess_run_train.
  cbn [st_sess st_feed_dict st_stdout].
  destruct (opt_cost (opt FLAGS data) _) as [c|e]; cbn [fst st_feed_dict].
  2:{ apply lookup_insert_ne. congruence. }
  match goal with
  | |- context [get_roc_score ?m ?a ?p ?n ?s] =>
      pose proof (get_roc_score_state m a p n s) as Hst;
      destruct (get_roc_score m a p n s) as [st3 [[roc ap]|e]]
  end; cbn [fst] in Hst; subst st3; unfold print; cbn [fst st_feed_dict];
    rewrite lookup_insert_ne by congruence; apply lookup_insert_ne; congruence.
Qed.

Lemma train_epoch_train_steps (FLAGS : Flags F) (data : Dataset F) (ao : matrix F)
    (epoch : Z) (st : state F) :
  sess_train_steps (st_sess (fst (train_epoch FLAGS data ao epoch st)))
    <= Datatypes.S (sess_train_steps (st_sess st))
  /\ (is_ok (snd (train_epoch FLAGS data ao epoch st)) = true ->
      sess_train_steps (st_sess (fst (train_epoch FLAGS data ao epoch st)))
      = Datatypes.S (sess_train_steps (st_sess st))).
Proof.
  unfold train_epoch, pbind, feed_dict_update, feed_dict, sess_run_train.
  cbn [st_sess st_feed_dict st_stdout].
  destruct (opt_cost (opt FLAGS data) _) as [c|e]; cbn [fst snd st_sess sess_train_steps is_ok].
  2:{ split; [lia|discriminate]. }
  match goal with
  | |- context [get_roc_score ?m ?a ?p ?n ?s] =>
      pose proof (get_roc_score_state m a p n s) as Hst;
      destruct (get_roc_score m a p n s) as [st3 [[roc ap]|e]]
  end; cbn [fst] in Hst; subst st3; unfold print;
    cbn [fst snd st_sess sess_train_steps is_ok]; split; solve [lia|reflexivity|discriminate|intros; reflexivity].
Qed.

Lemma finish_session (FLAGS : Flags F) (data : Dataset F) (ao : matrix F) (st : state F) :
  sess_vars (st_sess (fst (finish FLAGS data ao st))) = sess_vars (st_sess st)
  /\ sess_train_steps (st_sess (fst (finish FLAGS data ao st)))
     = sess_train_steps (st_sess st).
Proof.
  unfold finish, pbind, print, ret. cbn [fst st_sess st_feed_dict st_stdout].
  match goal with
  | |- context [get_roc_score ?m ?a ?p ?n ?s] =>
      pose proof (get_roc_score_state m a p n s) as Hst;
      destruct (get_roc_score m a p n s) as [st3 [[roc ap]|e]]
  end; cbn [fst] in Hst; subst st3;
    cbn [fst st_sess sess_vars sess_train_steps]; split; reflexivity.
Qed.

Lemma finish_result (FLAGS : Flags F) (data : Dataset F) (ao : matrix F) (st : state F) :
  snd (finish FLAGS data ao st)
  = snd (get_roc_score (model FLAGS data) ao (test_edges data) (test_edges_false data)
           (fst (print (Text "Optimization Finished!") st))).
Proof.
  unfold finish, pbind, print, ret. cbn [fst st_sess st_feed_dict st_stdout].
  destruct (get_roc_score _ _ _ _ _) as [st3 [[roc ap]|e]]; reflexivity.
Qed.

End ScriptFacts.

(** ** No statement raises a configuration error *)

Lemma no_configuration_error_bind {A B} (m : result A) (k : A -> result B) :
  raises_configuration_error m = false ->
  (forall a, raises_configuration_error (k a) = false) ->
  raises_configuration_error (bind m k) = false.
Proof. intros Hm Hk. destruct m as [a|e]; cbn [bind]; [apply Hk|exact Hm]. Qed.

Ltac no_configuration_error :=
  repeat first
    [ reflexivity
    | apply no_configuration_error_bind; [|intros]
    | match goal with
      | |- raises_configuration_error (if ?b then _ else _) = false => destruct b
      | |- raises_configuration_error (match ?x with _ => _ end) = false => destruct x
      end ].

Section NoConfigurationError.
Context {F : Type} `{S : Substrate F} `{M : !MathLib F}.

Lemma embeddings_no_configuration_error (FLAGS : Flags F) (data : Dataset F)
    (env : run_env F) :
  raises_configuration_error (model_embeddings (model FLAGS data) env) = false.
Proof.
  unfold model, GCNModel_init; cbn [model_embeddings].
  unfold GraphConvolution_call, GraphConvolution_init, GraphConvolutionSparse_call,
    GraphConvolutionSparse_preactivation, GraphConvolutionSparse_init,
    weight_variable_glorot;
    cbn [gc_act gc_adj gc_vars_weights gc_dropout gc_name
         gcs_act gcs_adj gcs_vars_weights gcs_dropout gcs_features_nonzero gcs_name].
  unfold tf_sparse_tensor_dense_matmul, tf_matmul, tf_nn_dropout, tf_nn_relu,
    dropout_sparse, tf_sub, tf_constant, tf_placeholder_with_default,
    tf_sparse_placeholder, tf_Variable.
  no_configuration_error.
Qed.

Lemma cost_no_configuration_error (FLAGS : Flags F) (data : Dataset F)
    (env : run_env F) :
  raises_configuration_error (opt_cost (opt FLAGS data) env) = false.
Proof.
  unfold opt, Optimizer_object; cbn [opt_cost].
  unfold tf_scale, tf_reduce_mean, tf_nn_weighted_cross_entropy_with_logits.
  apply no_configuration_error_bind; [|intros; reflexivity].
  apply no_configuration_error_bind; [|intros; reflexivity].
  apply no_configuration_error_bind.
  - unfold model, GCNModel_init; cbn [model_reconstructions].
    unfold InnerProductDecoder_call, InnerProductDecoder_init;
      cbn [ipd_act ipd_dropout ipd_name].
    unfold tf_reshape_flat, tf_matmul, tf_transpose.
    apply no_configuration_error_bind; [|intros; reflexivity].
    assert (Hemb : forall e,
               raises_configuration_error
                 (tf_nn_dropout
                    (model_embeddings (model FLAGS data))
                    (tf_sub (tf_constant one) (tf_constant zero)) "gcn_decoder" e) = false).
    { intros e. unfold tf_nn_dropout.
      apply no_configuration_error_bind; [apply embeddings_no_configuration_error|].
      intros. reflexivity. }
    apply no_configuration_error_bind; [apply Hemb|intros].
    apply no_configuration_error_bind; [|intros; no_configuration_error].
    apply no_configuration_error_bind; [apply Hemb|intros; reflexivity].
  - intros x. apply no_configuration_error_bind; [|intros; no_configuration_error].
    unfold tf_reshape_flat, tf_sparse_tensor_to_dense, tf_sparse_placeholder.
    no_configuration_error.
Qed.

Lemma score_edges_no_configuration_error (adj_rec ao : matrix F)
    (edges : list (Z * Z)) (preds pos : list F) :
  raises_configuration_error (score_edges adj_rec ao edges preds pos) = false.
Proof.
  revert preds pos. induction edges as [|e rest IH]; intros preds pos;
    cbn [score_edges]; [reflexivity|].
  apply no_configuration_error_bind; [unfold getitem; no_configuration_error|intros p].
  apply no_configuration_error_bind; [unfold getitem; no_configuration_error|intros a].
  apply IH.
Qed.

Lemma get_roc_score_no_configuration_error (FLAGS : Flags F) (data : Dataset F)
    (ao : matrix F) (edges_pos edges_neg : list (Z * Z)) (st : state F) :
  raises_configuration_error
    (snd (get_roc_score (model FLAGS data) ao edges_pos edges_neg st)) = false.
Proof.
  rewrite get_roc_score_result.
  apply no_configuration_error_bind; [apply embeddings_no_configuration_error|intros emb].
  apply no_configuration_error_bind; [unfold np_dot; no_configuration_error|intros adj_rec].
  apply no_configuration_error_bind; [apply score_edges_no_configuration_error|].
  intros [preds pos].
  apply no_configuration_error_bind; [apply score_edges_no_configuration_error|].
  intros [preds_neg neg]. cbv zeta.
  unfold roc_auc_score, average_precision_score, check_consistent_length.
  no_configuration_error.
Qed.

Lemma train_epoch_no_configuration_error (FLAGS : Flags F) (data : Dataset F)
    (ao : matrix F) (epoch : Z) (st : state F) :
  raises_configuration_error (snd (train_epoch FLAGS data ao epoch st)) = false.
Proof.
  unfold train_epoch, pbind, feed_dict_update, feed_dict, sess_run_train.
  cbn [st_sess st_feed_dict st_stdout].
  pose proof (cost_no_configuration_error FLAGS data) as Hc.
  match goal with
  | |- context [opt_cost ?o ?env] => specialize (Hc env); destruct (opt_cost o env) as [c|e]
  end; cbn [snd]; [|exact Hc].
  match goal with
  | |- context [get_roc_score ?m ?a ?p ?n ?s] =>
      pose proof (get_roc_score_no_configuration_error FLAGS data a p n s) as Hg;
      destruct (get_roc_score m a p n s) as [st3 [[roc ap]|e]]
  end; cbn [snd] in *; [reflexivity|exact Hg].
Qed.

Lemma finish_no_configuration_error (FLAGS : Flags F) (data : Dataset F)
    (ao : matrix F) (st : state F) :
  raises_configuration_error (snd (finish FLAGS data ao st)) = false.
Proof.
  unfold finish, pbind, print, ret. cbn [fst st_sess st_feed_dict st_stdout].
  match goal with
  | |- context [get_roc_score ?m ?a ?p ?n ?s] =>
      pose proof (get_roc_score_no_configuration_error FLAGS data a p n s) as Hg;
      destruct (get_roc_score m a p n s) as [st3 [[roc ap]|e]]
  end; cbn [snd] in *; [reflexivity|exact Hg].
Qed.

End NoConfigurationError.

(** ** The training loop *)

Section TrainingLoop.
Context {F : Type} `{S : Substrate F} `{M : !MathLib F}.

Lemma train_no_epochs (FLAGS : Flags F) (data : Dataset F) (ao : matrix F)
    (st : state F) :
  (epochs FLAGS <= 0)%Z -> train FLAGS data ao st = (st, Ok tt).
Proof. intros Hn. unfold train. rewrite (range_nonpos _ Hn). reflexivity. Qed.

Lemma main_no_epochs (FLAGS : Flags F) (data : Dataset F) :
  (epochs FLAGS <= 0)%Z ->
  sess_train_steps (st_sess (fst (main FLAGS data))) = 0
  /\ (forall st0 ao,
         setup FLAGS data initial_state = (st0, Ok ao) ->
         main FLAGS data = finish FLAGS data ao st0).
Proof.
  intros Hn. unfold main, script, pbind.
  pose proof (setup_train_steps FLAGS data) as H0.
  destruct (setup FLAGS data initial_state) as [st0 [ao|e]]; cbn [fst] in H0.
  - rewrite (train_no_epochs FLAGS data ao st0 Hn). split.
    + destruct (finish_session FLAGS data ao st0) as [_ Hs]. now rewrite Hs.
    + intros st0' ao' [= <- <-]. reflexivity.
  - split; [exact H0|]. intros st0' ao' [=].
Qed.

Lemma for_each_app {A} (l1 l2 : list A) (body : A -> prog F unit) (st : state F) :
  for_each (l1 ++ l2) body st
  = match for_each l1 body st with
    | (st', Ok _) => for_each l2 body st'
    | (st', Raise e) => (st', Raise e)
    end.
Proof.
  revert st. induction l1 as [|x l1 IH]; intros st; cbn [app for_each].
  - reflexivity.
  - unfold pbind. destruct (body x st) as [st1 [u|e]]; [apply IH|reflexivity].
Qed.

Lemma range_split (k j : nat) :
  range (Z.of_nat (k + j)) = range (Z.of_nat k) ++ map Z.of_nat (seq k j).
Proof.
  unfold range. rewrite !Nat2Z.id, seq_app, map_app. reflexivity.
Qed.

(** The script runs through [script_prefix k]: with [k + j] epochs, it is
    the prefix, then the epochs [k .. k + j - 1], then the final
    evaluation. *)
Lemma script_through_prefix (FLAGS : Flags F) (data : Dataset F) (k j : nat) :
  epochs FLAGS = Z.of_nat (k + j) ->
  main FLAGS data
  = (exec ao <- script_prefix FLAGS data k;
     exec _ <- for_each (map Z.of_nat (seq k j)) (train_epoch FLAGS data ao);
     finish FLAGS data ao) initial_state.
Proof.
  intros He. unfold main, script, script_prefix, train, pbind, ret.
  rewrite He, range_split.
  destruct (setup FLAGS data initial_state) as [st0 [ao|e]]; [|reflexivity].
  rewrite for_each_app.
  destruct (for_each (range (Z.of_nat k)) (train_epoch FLAGS data ao) st0)
    as [st1 [u|e]]; reflexivity.
Qed.

(** C2 (as amended).  In every epoch of the run the entry of the feed
    dictionary under the [adj_orig] placeholder is [adj_label], the training
    adjacency (after the removal of the validation and test edges) plus the
    identity; the label tensor of the optimizer evaluates to its flattened
    dense form, and the cost of the epoch's training run is computed against
    that vector. *)
Theorem C2_loss_labels_are_adj_label (FLAGS : Flags F) (data : Dataset F) (k : nat)
    (st : state F) (ao : matrix F) (al : SparseTensor F) :
  script_prefix FLAGS data k initial_state = (st, Ok ao) ->
  adj_label data = Ok al ->
  let labels := reshape_flat (sparse_to_dense al) in
  st_feed_dict st !! p_adj_orig placeholders = Some (FSparse al)
  /\ opt_labels_sub (opt FLAGS data) (training_env FLAGS st) = Ok labels
  /\ snd (epoch_training_step FLAGS data st)
     = (do logits <- model_reconstructions (model FLAGS data) (training_env FLAGS st);
        if Nat.eqb (length logits) (length labels)
        then Ok (tt,
                 fmul (opt_norm (opt FLAGS data))
                   (reduce_mean
                      (map (fun p =>
                              weighted_cross_entropy_with_logits
                                (opt_pos_weight (opt FLAGS data)) (fst p) (snd p))
                           (combine logits labels))))
        else Raise (InvalidArgumentError "Incompatible shapes")).
Proof.
  intros Hrun Hal labels.
  assert (Hfeed : st_feed_dict st !! p_adj_orig placeholders = Some (FSparse al)).
  { unfold script_prefix, pbind in Hrun.
    destruct (setup FLAGS data initial_state) as [st0 [ao0|e]] eqn:Hsetup; [|discriminate].
    destruct (setup_ok FLAGS data st0 ao0 Hsetup) as (an & al' & _ & _ & Hal' & _ & _ & Hfd).
    rewrite Hal in Hal'. injection Hal' as <-.
    pose proof (for_each_invariant
                  (fun s => st_feed_dict s !! p_adj_orig placeholders = Some (FSparse al))
                  (range (Z.of_nat k)) (train_epoch FLAGS data ao0)) as Hinv.
    destruct (for_each (range (Z.of_nat k)) (train_epoch FLAGS data ao0) st0)
      as [st1 [u|e]] eqn:Hloop; [|discriminate].
    unfold ret in Hrun. injection Hrun as <- <-.
    replace st1 with (fst (for_each (range (Z.of_nat k)) (train_epoch FLAGS data ao0) st0))
      by (rewrite Hloop; reflexivity).
    apply Hinv.
    - intros epoch s Hs. rewrite train_epoch_feed_dict; [exact Hs|discriminate].
    - rewrite Hfd. unfold construct_feed_dict. apply lookup_insert_eq. }
  assert (Hlabels : opt_labels_sub (opt FLAGS data) (training_env FLAGS st) = Ok labels).
  { unfold opt, Optimizer_object; cbn [opt_labels_sub].
    unfold tf_reshape_flat, tf_sparse_tensor_to_dense, tf_sparse_placeholder,
      training_env, run_env_of; cbn [env_feed].
    rewrite lookup_insert_ne by discriminate. rewrite Hfeed. reflexivity. }
  split; [exact Hfeed|]. split; [exact Hlabels|].
  rewrite epoch_training_step_result.
  change (opt_cost (opt FLAGS data)) with
    (tf_scale (opt_norm (opt FLAGS data))
       (tf_reduce_mean
          (tf_nn_weighted_cross_entropy_with_logits
             (model_reconstructions (model FLAGS data))
             (opt_labels_sub (opt FLAGS data))
             (opt_pos_weight (opt FLAGS data))))).
  unfold tf_scale, tf_reduce_mean, tf_nn_weighted_cross_entropy_with_logits.
  rewrite Hlabels.
  destruct (model_reconstructions (model FLAGS data) (training_env FLAGS st)) as [x|e];
    cbn [bind]; [|reflexivity].
  destruct (Nat.eqb (length x) (length labels)); reflexivity.
Qed.

(** C8.  With [epochs = 0] the body of the training loop is executed zero
    times: the loop leaves every state as it is, no training step is ever
    run and no variable updated, and the test scores the script returns are
    those [get_roc_score] computes in a state whose variables are the values
    of the initializer. *)
Theorem C8_zero_epochs (FLAGS : Flags F) (data : Dataset F) :
  epochs FLAGS = 0%Z ->
  (forall ao st, train FLAGS data ao st = (st, Ok tt))
  /\ sess_train_steps (st_sess (fst (main FLAGS data))) = 0
  /\ (forall st0 ao,
         setup FLAGS data initial_state = (st0, Ok ao) ->
         let initial := global_variables_initializer FLAGS (num_features data) "yeast_gcn" in
         let st1 := fst (print (Text "Optimization Finished!") st0) in
         sess_vars (st_sess st0) = initial
         /\ sess_vars (st_sess st1) = initial
         /\ main FLAGS data = finish FLAGS data ao st0
         /\ snd (main FLAGS data)
            = snd (get_roc_score (model FLAGS data) ao
                     (test_edges data) (test_edges_false data) st1)
         /\ sess_vars (st_sess (fst (main FLAGS data))) = initial).
Proof.
  intros H0. assert (Hn : (epochs FLAGS <= 0)%Z) by lia.
  destruct (main_no_epochs FLAGS data Hn) as [Hsteps Hmain].
  split; [intros ao st; apply train_no_epochs; exact Hn|].
  split; [exact Hsteps|].
  intros st0 ao Hsetup initial st1.
  destruct (setup_ok FLAGS data st0 ao Hsetup) as (an & al & _ & _ & _ & Hvars & _ & _).
  rewrite (Hmain st0 ao Hsetup).
  repeat split.
  - exact Hvars.
  - exact Hvars.
  - apply finish_result.
  - destruct (finish_session FLAGS data ao st0) as [Hv _]. rewrite Hv. exact Hvars.
Qed.

(** C9 (as amended).  No configuration is rejected: whatever the flags, the
    script never raises a [ConfigurationError].  With negative [epochs] the
    loop body runs zero times, no training step is run, and the script
    behaves as with [epochs = 0], going on to the final evaluation.  The
    number of training steps is at most [epochs], and exactly [epochs]
    (0 when negative) when the run completes, whatever the dropout rate. *)
Theorem C9_no_configuration_check (FLAGS : Flags F) (data : Dataset F) :
  raises_configuration_error (snd (main FLAGS data)) = false
  /\ ((epochs FLAGS < 0)%Z ->
      (forall ao st, train FLAGS data ao st = (st, Ok tt))
      /\ sess_train_steps (st_sess (fst (main FLAGS data))) = 0
      /\ main FLAGS data = main (with_epochs 0 FLAGS) data)
  /\ sess_train_steps (st_sess (fst (main FLAGS data))) <= Z.to_nat (epochs FLAGS)
  /\ (is_ok (snd (main FLAGS data)) = true ->
      sess_train_steps (st_sess (fst (main FLAGS data))) = Z.to_nat (epochs FLAGS)).
Proof.
  split; [|split; [|split]].
  - unfold main, script, pbind.
    pose proof (setup_no_configuration_error FLAGS data) as Hs.
    destruct (setup FLAGS data initial_state) as [st0 [ao|e]]; cbn [snd] in *; [|exact Hs].
    pose proof (for_each_no_configuration_error (range (epochs FLAGS))
                  (train_epoch FLAGS data ao)
                  (train_epoch_no_configuration_error FLAGS data ao) st0) as Ht.
    unfold train.
    destruct (for_each (range (epochs FLAGS)) (train_epoch FLAGS data ao) st0)
      as [st1 [u|e]]; cbn [snd] in *; [|exact Ht].
    apply finish_no_configuration_error.
  - intros Hneg. assert (Hn : (epochs FLAGS <= 0)%Z) by lia.
    destruct (main_no_epochs FLAGS data Hn) as [Hsteps _].
    split; [intros ao st; apply train_no_epochs; exact Hn|].
    split; [exact Hsteps|].
    unfold main, script, train. cbn [epochs with_epochs].
    rewrite (range_nonpos _ Hn). reflexivity.
  - unfold main, script, pbind.
    pose proof (setup_train_steps FLAGS data) as H0.
    destruct (setup FLAGS data initial_state) as [st0 [ao|e]]; cbn [fst] in *; [|lia].
    destruct (for_each_train_steps (range (epochs FLAGS)) (train_epoch FLAGS data ao)
                (train_epoch_train_steps FLAGS data ao) st0) as [Hle _].
    unfold train.
    destruct (for_each (range (epochs FLAGS)) (train_epoch FLAGS data ao) st0)
      as [st1 [u|e]]; cbn [fst] in *.
    + destruct (finish_session FLAGS data ao st1) as [_ Hf]. rewrite Hf.
      unfold range in Hle. rewrite length_map, length_seq in Hle. lia.
    + unfold range in Hle. rewrite length_map, length_seq in Hle. lia.
  - unfold main, script, pbind.
    pose proof (setup_train_steps FLAGS data) as H0.
    destruct (setup FLAGS data initial_state) as [st0 [ao|e]]; cbn [fst snd] in *;
      [|discriminate].
    destruct (for_each_train_steps (range (epochs FLAGS)) (train_epoch FLAGS data ao)
                (train_epoch_train_steps FLAGS data ao) st0) as [_ Heq].
    unfold train.
    destruct (for_each (range (epochs FLAGS)) (train_epoch FLAGS data ao) st0)
      as [st1 [u|e]]; cbn [fst snd is_ok] in *; [|discriminate].
    intros _. destruct (finish_session FLAGS data ao st1) as [_ Hf]. rewrite Hf.
    specialize (Heq eq_refl). unfold range in Heq.
    rewrite length_map, length_seq in Heq. lia.
Qed.

End TrainingLoop.

(** ** The small run *)

Section SmallRun.
#[local] Existing Instance example_mathlib.
#[local] Existing Instance example_substrate.

(** C2: in the first and in the second epoch the labels of the loss are the
    flattened training adjacency plus identity, not the flattened original
    adjacency: they differ on the diagonal and at the held-out edges. *)
Lemma C2_labels_not_original_adjacency :
  opt_labels_sub example_opt (training_env example_flags (example_state_after_epochs 0))
  = Ok [b32 1; b32 1; b32 0; b32 0;
        b32 1; b32 1; b32 0; b32 0;
        b32 0; b32 0; b32 1; b32 0;
        b32 0; b32 0; b32 0; b32 1]
  /\ opt_labels_sub example_opt (training_env example_flags (example_state_after_epochs 1))
     = Ok [b32 1; b32 1; b32 0; b32 0;
           b32 1; b32 1; b32 0; b32 0;
           b32 0; b32 0; b32 1; b32 0;
           b32 0; b32 0; b32 0; b32 1]
  /\ (do a <- adj_orig example_data; Ok (reshape_flat a))
     = Ok [b32 0; b32 1; b32 0; b32 0;
           b32 1; b32 0; b32 1; b32 0;
           b32 0; b32 1; b32 0; b32 1;
           b32 0; b32 0; b32 1; b32 0]
  /\ opt_labels_sub example_opt (training_env example_flags (example_state_after_epochs 1))
     <> (do a <- adj_orig example_data; Ok (reshape_flat a)).
Proof.
  split; [vm_compute; reflexivity|].
  split; [vm_compute; reflexivity|].
  split; [vm_compute; reflexivity|].
  vm_compute. discriminate.
Qed.

Lemma C2_loss_labels_witness :
  script_prefix example_flags example_data 1 initial_state
  = (example_state_after_epochs 1, Ok example_adj_orig)
  /\ adj_label example_data = Ok example_adj_label
  /\ opt_labels_sub example_opt (training_env example_flags (example_state_after_epochs 1))
     = Ok (reshape_flat (sparse_to_dense example_adj_label)).
Proof.
  assert (H1 : script_prefix example_flags example_data 1 initial_state
               = (example_state_after_epochs 1, Ok example_adj_orig))
    by (vm_compute; reflexivity).
  assert (H2 : adj_label example_data = Ok example_adj_label)
    by (vm_compute; reflexivity).
  split; [exact H1|]. split; [exact H2|].
  exact (proj1 (proj2 (C2_loss_labels_are_adj_label example_flags example_data 1
                         (example_state_after_epochs 1) example_adj_orig
                         example_adj_label H1 H2))).
Defined.

(** C4: on one positive and two negative edges the specification's score
    function labels the three predictions and returns scores; the code
    builds two labels for them and fails. *)
Lemma C4_unequal_lengths_not_labelled :
  model_embeddings example_model (evaluation_env (example_state_after_epochs 0))
  = Ok example_embeddings
  /\ spec_score example_embeddings [(1, 2)%Z] [(0, 2)%Z; (1, 3)%Z]
     = Ok (half, fdiv (b32 1) (b32 3))
  /\ snd (get_roc_score example_model example_adj_orig [(1, 2)%Z] [(0, 2)%Z; (1, 3)%Z]
            (example_state_after_epochs 0))
     = Raise (ValueError "Found input variables with inconsistent numbers of samples").
Proof.
  split; [vm_compute; reflexivity|].
  split; vm_compute; reflexivity.
Qed.

Lemma C4_labels_witness :
  model_embeddings example_model (evaluation_env (example_state_after_epochs 0))
  = Ok example_embeddings
  /\ same_shape (matmul example_embeddings (transpose example_embeddings))
       example_adj_orig = true
  /\ length (val_edges example_data) = length (val_edges_false example_data)
  /\ snd (get_roc_score example_model example_adj_orig
            (val_edges example_data) (val_edges_false example_data)
            (example_state_after_epochs 0))
     = spec_score example_embeddings (val_edges example_data) (val_edges_false example_data).
Proof.
  assert (H1 : model_embeddings example_model
                 (evaluation_env (example_state_after_epochs 0))
               = Ok example_embeddings) by (vm_compute; reflexivity).
  split; [exact H1|]. split; [reflexivity|]. split; [reflexivity|].
  exact (proj1 (C4_labels_ignore_adjacency example_model example_adj_orig
                  (val_edges example_data) (val_edges_false example_data)
                  (example_state_after_epochs 0))
           example_embeddings H1 eq_refl eq_refl).
Defined.

(** C7: in the state in which the first epoch calls it, [get_roc_score]
    finds the dropout entry of the feed dictionary at the configured rate
    and leaves it at 0. *)
Lemma C7_feed_dict_changed :
  st_feed_dict example_state_before_validation !! p_dropout placeholders
  = Some (FScalar (dropout example_flags))
  /\ st_feed_dict
       (fst (get_roc_score example_model example_adj_orig
               (val_edges example_data) (val_edges_false example_data)
               example_state_before_validation)) !! p_dropout placeholders
     = Some (FScalar zero)
  /\ st_feed_dict
       (fst (get_roc_score example_model example_adj_orig
               (val_edges example_data) (val_edges_false example_data)
               example_state_before_validation))
     <> st_feed_dict example_state_before_validation.
Proof.
  assert (H1 : st_feed_dict example_state_before_validation !! p_dropout placeholders
               = Some (FScalar (dropout example_flags))) by (vm_compute; reflexivity).
  assert (H2 : st_feed_dict
                 (fst (get_roc_score example_model example_adj_orig
                         (val_edges example_data) (val_edges_false example_data)
                         example_state_before_validation)) !! p_dropout placeholders
               = Some (FScalar zero)) by (vm_compute; reflexivity).
  split; [exact H1|]. split; [exact H2|].
  intros Heq. rewrite Heq, H1 in H2. clear Heq H1.
  injection H2 as H2. vm_compute in H2. discriminate H2.
Qed.

Lemma C7_score_witness :
  sess_vars (st_sess (fst (feed_dict_update (p_dropout placeholders) (FScalar half)
                             example_state_before_validation)))
  = sess_vars (st_sess example_state_before_validation)
  /\ snd (get_roc_score example_model example_adj_orig
            (val_edges example_data) (val_edges_false example_data)
            (fst (feed_dict_update (p_dropout placeholders) (FScalar half)
                    example_state_before_validation)))
     = snd (get_roc_score example_model example_adj_orig
              (val_edges example_data) (val_edges_false example_data)
              example_state_before_validation).
Proof.
  split; [reflexivity|].
  apply (proj1 (proj2 (proj2 (proj2 (proj2
           (C7_score_sets_dropout_only example_flags (num_features example_data)
              (features_nonzero example_data) "yeast_gcn" example_adj_orig
              (val_edges example_data) (val_edges_false example_data)
              example_state_before_validation)))))).
  - reflexivity.
  - intros key Hne. cbn [feed_dict_update fst st_feed_dict].
    apply lookup_insert_ne. congruence.
Defined.

Lemma C8_zero_epochs_witness :
  epochs (with_epochs 0 example_flags) = 0%Z
  /\ sess_train_steps (st_sess (fst (example_main (with_epochs 0 example_flags)))) = 0.
Proof.
  split; [reflexivity|].
  exact (proj1 (proj2 (C8_zero_epochs (with_epochs 0 example_flags) example_data eq_refl))).
Defined.

(** C9: with [epochs = -1] the script raises nothing and returns test
    scores; with [dropout = 1] and one epoch it runs the training step, and
    what ends the run is not a configuration error. *)
Lemma C9_invalid_flags_accepted :
  snd (example_main (with_epochs (-1) example_flags)) = Ok (b32 0, half)
  /\ sess_train_steps
       (st_sess (fst (example_main (with_dropout one (with_epochs 1 example_flags))))) = 1
  /\ raises_configuration_error
       (snd (example_main (with_dropout one (with_epochs 1 example_flags)))) = false.
Proof.
  split; [vm_compute; reflexivity|].
  split; vm_compute; reflexivity.
Qed.

Lemma C9_negative_epochs_witness :
  (epochs (with_epochs (-1) example_flags) < 0)%Z
  /\ example_main (with_epochs (-1) example_flags)
     = example_main (with_epochs 0 (with_epochs (-1) example_flags)).
Proof.
  split; [reflexivity|].
  apply (proj1 (proj2 (C9_no_configuration_check (with_epochs (-1) example_flags)
                         example_data))).
  reflexivity.
Defined.

Lemma C10_equal_length_witness :
  model_embeddings example_model (evaluation_env (example_state_after_epochs 0))
  = Ok example_embeddings
  /\ score_edges (matmul example_embeddings (transpose example_embeddings))
       example_adj_orig [(1, 2)%Z] [] [] = Ok ([half], [b32 1])
  /\ score_edges (matmul example_embeddings (transpose example_embeddings))
       example_adj_orig [(0, 2)%Z; (1, 3)%Z] [] [] = Ok ([half; half], [b32 0; b32 0])
  /\ length [(1, 2)%Z] <> length [(0, 2)%Z; (1, 3)%Z]
  /\ snd (get_roc_score example_model example_adj_orig [(1, 2)%Z] [(0, 2)%Z; (1, 3)%Z]
            (example_state_after_epochs 0))
     = Raise (ValueError "Found input variables with inconsistent numbers of samples").
Proof.
  assert (H1 : model_embeddings example_model
                 (evaluation_env (example_state_after_epochs 0))
               = Ok example_embeddings) by (vm_compute; reflexivity).
  assert (H2 : score_edges (matmul example_embeddings (transpose example_embeddings))
                 example_adj_orig [(1, 2)%Z] [] [] = Ok ([half], [b32 1]))
    by (vm_compute; reflexivity).
  assert (H3 : score_edges (matmul example_embeddings (transpose example_embeddings))
                 example_adj_orig [(0, 2)%Z; (1, 3)%Z] [] []
               = Ok ([half; half], [b32 0; b32 0]))
    by (vm_compute; reflexivity).
  assert (H4 : length [(1, 2)%Z] <> length [(0, 2)%Z; (1, 3)%Z]) by (cbn; lia).
  split; [exact H1|]. split; [exact H2|]. split; [exact H3|]. split; [exact H4|].
  exact (proj2 (proj2 (proj2
           (proj1 (C10_equal_length_precondition example_model example_adj_orig
                     [(1, 2)%Z] [(0, 2)%Z; (1, 3)%Z] (example_state_after_epochs 0))
              example_embeddings [half] [b32 1] [half; half] [b32 0; b32 0] H1 H2 H3)))
           H4).
Defined.

(** C6 on the embeddings of the decoder test. *)
Lemma C6_decoder_witness :
  length [[b32 0; b32 1]; [b32 0; b32 1]; [b32 0; b32 0]] = 3
  /\ exists product : matrix binary32,
       has_shape 3 3 product = true
       /\ test_decoder empty_env = Ok (map (fun x => x) (reshape_flat product))
       /\ length (map (fun x : binary32 => x) (reshape_flat product)) = 3 * 3.
Proof.
  split; [reflexivity|].
  destruct (proj2 (proj2 C6_inner_product_decoder) binary32 _ example_substrate
              (InnerProductDecoder_init "gcn_decoder" (tf_constant zero) (fun x => x))
              (tf_constant [[b32 0; b32 1]; [b32 0; b32 1]; [b32 0; b32 0]])
              empty_env
              [[b32 0; b32 1]; [b32 0; b32 1]; [b32 0; b32 0]]
              zero (fun x => x) 3
              eq_refl eq_refl eq_refl
              (fun x v Hx => eq_trans Hx (f_equal Ok (eq_sym (map_id v)))))
    as (product & _ & Hs & Hcall & Hlen).
  exists product. split; [exact Hs|]. split; [exact Hcall|exact Hlen].
Defined.

End SmallRun.

(** ** The reconstructed adjacency of the evaluator *)

Section Gram.
Context {F : Type} `{S : Substrate F} `{M : !MathLib F}.

Lemma getitem_cases (m : matrix F) (e : Z * Z) :
  (exists i j,
      np_index (nrows m) (fst e) = Some i /\ np_index (ncols m) (snd e) = Some j
      /\ getitem m e = Ok (nth j (nth i m []) zero))
  \/ ((np_index (nrows m) (fst e) = None \/ np_index (ncols m) (snd e) = None)
      /\ getitem m e = Raise (IndexError "index out of bounds")).
Proof.
  unfold getitem.
  destruct (np_index (nrows m) (fst e)) as [i|]; [|right; split; [left|]; reflexivity].
  destruct (np_index (ncols m) (snd e)) as [j|]; [|right; split; [right|]; reflexivity].
  left. exists i, j. repeat split; reflexivity.
Qed.

Lemma np_index_bound (n : nat) (i : Z) (a : nat) :
  np_index n i = Some a -> a < n.
Proof.
  unfold np_index.
  destruct ((0 <=? i)%Z && (i <? Z.of_nat n)%Z) eqn:H1.
  - intros [= <-]. apply andb_prop in H1 as [Ha Hb]. lia.
  - destruct ((- Z.of_nat n <=? i)%Z && (i <? 0)%Z) eqn:H2; [|discriminate].
    intros [= <-]. apply andb_prop in H2 as [Ha Hb]. lia.
Qed.

Lemma np_index_none (n : nat) (i : Z) :
  np_index n i = None <-> (i < - Z.of_nat n \/ Z.of_nat n <= i)%Z.
Proof.
  unfold np_index.
  destruct ((0 <=? i)%Z && (i <? Z.of_nat n)%Z) eqn:H1.
  - apply andb_prop in H1 as [Ha Hb]. split; [discriminate|lia].
  - destruct ((- Z.of_nat n <=? i)%Z && (i <? 0)%Z) eqn:H2.
    + apply andb_prop in H2 as [Ha Hb]. split; [discriminate|lia].
    + split; [intros _|reflexivity].
      apply andb_false_iff in H1, H2. lia.
Qed.

(** The shape of [np.dot(emb, emb.T)]. *)
Lemma gram_shape (n d : nat) (emb : matrix F) :
  has_shape n d emb = true -> 0 < d ->
  nrows (matmul emb (transpose emb)) = n /\ ncols (matmul emb (transpose emb)) = n.
Proof.
  intros Hs Hd. rewrite (matmul_transpose _ _ _ Hs Hd).
  pose proof (has_shape_length _ _ _ Hs) as Hl.
  unfold nrows, ncols. rewrite length_map. split; [exact Hl|].
  destruct emb as [|r emb]; [exact Hl|].
  cbn [map hd length] in *. rewrite length_map. exact Hl.
Qed.

Lemma gram_entry (n d : nat) (emb : matrix F) (i j : nat) :
  has_shape n d emb = true -> 0 < d -> i < n -> j < n ->
  nth j (nth i (matmul emb (transpose emb)) []) zero
  = dot (nth i emb []) (nth j emb []).
Proof.
  intros Hs Hd Hi Hj. rewrite (matmul_transpose _ _ _ Hs Hd).
  pose proof (has_shape_length _ _ _ Hs) as Hl.
  rewrite (nth_indep (map (fun r1 => map (fun r2 => dot r1 r2) emb) emb) []
             (map (fun r2 => dot [] r2) emb))
    by (rewrite length_map; lia).
  rewrite (map_nth (fun r1 => map (fun r2 => dot r1 r2) emb)).
  rewrite (nth_indep (map (fun r2 => dot (nth i emb []) r2) emb) zero
             (dot (nth i emb []) []))
    by (rewrite length_map; lia).
  now rewrite (map_nth (fun r2 => dot (nth i emb []) r2)).
Qed.

Lemma dot_comm (u v : list F) :
  (forall a b : F, fmul a b = fmul b a) -> dot u v = dot v u.
Proof.
  intros Hc. unfold dot. generalize (@zero F _) as acc. revert v.
  induction u as [|a u IH]; intros [|b v] acc; cbn [combine fold_left fst snd];
    try reflexivity.
  rewrite (Hc a b). apply IH.
Qed.

Lemma gram_getitem_flip (n d : nat) (emb : matrix F) (e : Z * Z) :
  (forall a b : F, fmul a b = fmul b a) ->
  has_shape n d emb = true -> 0 < d ->
  getitem (matmul emb (transpose emb)) (flip_edge e)
  = getitem (matmul emb (transpose emb)) e.
Proof.
  intros Hc Hs Hd. destruct (gram_shape n d emb Hs Hd) as [Hr Hcn].
  unfold getitem, flip_edge. cbn [fst snd]. rewrite Hr, Hcn.
  destruct (np_index n (fst e)) as [i|] eqn:Hi;
    destruct (np_index n (snd e)) as [j|] eqn:Hj; try reflexivity.
  apply np_index_bound in Hi, Hj.
  rewrite !(gram_entry n d) by assumption.
  f_equal. apply dot_comm. exact Hc.
Qed.

Lemma spec_predictions_flip (n d : nat) (emb : matrix F) (edges : list (Z * Z)) :
  (forall a b : F, fmul a b = fmul b a) ->
  has_shape n d emb = true -> 0 < d ->
  spec_predictions (matmul emb (transpose emb)) (map flip_edge edges)
  = spec_predictions (matmul emb (transpose emb)) edges.
Proof.
  intros Hc Hs Hd. induction edges as [|e rest IH]; cbn [map spec_predictions];
    [reflexivity|].
  now rewrite (gram_getitem_flip n d emb e Hc Hs Hd), IH.
Qed.

Lemma score_edges_raises_index_error (adj_rec ao : matrix F) (edges : list (Z * Z))
    (preds pos : list F) (e : Z * Z) :
  In e edges -> is_ok (getitem adj_rec e) = false ->
  score_edges adj_rec ao edges preds pos = Raise (IndexError "index out of bounds").
Proof.
  intros Hin Hbad. revert preds pos.
  induction edges as [|e' rest IH]; intros preds pos; [destruct Hin|].
  cbn [score_edges].
  destruct (getitem_cases adj_rec e') as [(i & j & _ & _ & Hok)|[_ Hr]];
    [|rewrite Hr; reflexivity].
  rewrite Hok. cbn [bind].
  destruct (getitem_cases ao e') as [(i' & j' & _ & _ & Hok')|[_ Hr']];
    [|rewrite Hr'; reflexivity].
  rewrite Hok'. cbn [bind].
  destruct Hin as [->|Hin]; [rewrite Hok in Hbad; discriminate|].
  apply IH. exact Hin.
Qed.

Lemma score_edges_only_index_error (adj_rec ao : matrix F) (edges : list (Z * Z))
    (preds pos : list F) (err : exn) :
  score_edges adj_rec ao edges preds pos = Raise err ->
  err = IndexError "index out of bounds".
Proof.
  revert preds pos. induction edges as [|e' rest IH]; intros preds pos;
    cbn [score_edges]; [discriminate|].
  destruct (getitem_cases adj_rec e') as [(i & j & _ & _ & Hok)|[_ Hr]];
    [|rewrite Hr; cbn [bind]; congruence].
  rewrite Hok. cbn [bind].
  destruct (getitem_cases ao e') as [(i' & j' & _ & _ & Hok')|[_ Hr']];
    [|rewrite Hr'; cbn [bind]; congruence].
  rewrite Hok'. cbn [bind]. apply IH.
Qed.

(** X4.  When the embeddings have [n] rows (and a positive width), an edge
    of either list with an index outside [-n, n) makes [get_roc_score] raise
    an [IndexError]: no score is computed for the other edges. *)
Theorem X4_edge_out_of_bounds (model : GCNModel) (ao : matrix F)
    (edges_pos edges_neg : list (Z * Z)) (st : state F)
    (emb : matrix F) (n d : nat) (e : Z * Z) :
  model_embeddings model (evaluation_env st) = Ok emb ->
  has_shape n d emb = true -> 0 < d ->
  In e (edges_pos ++ edges_neg) ->
  (fst e < - Z.of_nat n \/ Z.of_nat n <= fst e
   \/ snd e < - Z.of_nat n \/ Z.of_nat n <= snd e)%Z ->
  snd (get_roc_score model ao edges_pos edges_neg st)
  = Raise (IndexError "index out of bounds").
Proof.
  intros Hemb Hs Hd Hin Hout.
  destruct (gram_shape n d emb Hs Hd) as [Hr Hc].
  assert (Hbad : is_ok (getitem (matmul emb (transpose emb)) e) = false).
  { destruct (getitem_cases (matmul emb (transpose emb)) e)
      as [(i & j & Hi & Hj & _)|[_ Hraise]]; [|rewrite Hraise; reflexivity].
    rewrite Hr in Hi. rewrite Hc in Hj.
    assert (Hi' : np_index n (fst e) <> None) by congruence.
    assert (Hj' : np_index n (snd e) <> None) by congruence.
    rewrite np_index_none in Hi', Hj'. lia. }
  rewrite get_roc_score_result, Hemb. cbn [bind].
  rewrite np_dot_transpose. cbn [bind].
  apply in_app_or in Hin as [Hin|Hin].
  - now rewrite (score_edges_raises_index_error _ ao _ [] [] e Hin Hbad).
  - destruct (score_edges (matmul emb (transpose emb)) ao edges_pos [] [])
      as [[preds pos]|err] eqn:Hp; cbn [bind].
    + now rewrite (score_edges_raises_index_error _ ao _ [] [] e Hin Hbad).
    + now rewrite (score_edges_only_index_error _ _ _ _ _ _ Hp).
Qed.

End Gram.

Lemma binary32_mul_comm (a b : binary32) : fmul a b = fmul b a.
Proof.
  cbn [fmul binary32_dtype]. unfold SFmul.
  destruct a as [sa|sa| |sa ma ea], b as [sb|sb| |sb mb eb];
    rewrite ?(xorb_comm sa sb); try reflexivity.
  now rewrite (Pos.mul_comm ma mb), (Z.add_comm ea eb).
Qed.

(** X3.  The score of an edge does not depend on its orientation: with
    embeddings of [n] rows and positive width, and a true adjacency of the
    shape of the reconstructed one, [get_roc_score] on the flipped edges
    (j, i) ends in the same state with the same result as on the edges
    (i, j) (in binary32, whose product commutes). *)
Theorem X3_scores_ignore_edge_orientation `{S : !Substrate binary32}
    `{M : !MathLib binary32} (model : GCNModel) (ao : matrix binary32)
    (edges_pos edges_neg : list (Z * Z)) (st : state binary32)
    (emb : matrix binary32) (n d : nat) :
  model_embeddings model (evaluation_env st) = Ok emb ->
  has_shape n d emb = true -> 0 < d ->
  same_shape (matmul emb (transpose emb)) ao = true ->
  get_roc_score model ao (map flip_edge edges_pos) (map flip_edge edges_neg) st
  = get_roc_score model ao edges_pos edges_neg st.
Proof.
  intros Hemb Hs Hd Hshape.
  rewrite (surjective_pairing (get_roc_score model ao (map flip_edge edges_pos) _ st)).
  rewrite (surjective_pairing (get_roc_score model ao edges_pos edges_neg st)).
  rewrite !get_roc_score_state, !get_roc_score_result, Hemb. f_equal. cbn [bind].
  rewrite np_dot_transpose. cbn [bind].
  rewrite !(score_edges_predictions _ _ _ _ _ _ Hshape).
  rewrite (spec_predictions_flip n d emb edges_pos binary32_mul_comm Hs Hd).
  destruct (spec_predictions (matmul emb (transpose emb)) edges_pos) as [ps|err];
    cbn [bind]; [|reflexivity].
  rewrite !(score_edges_predictions _ _ _ _ _ _ Hshape).
  now rewrite (spec_predictions_flip n d emb edges_neg binary32_mul_comm Hs Hd).
Qed.

(** ** One epoch, step by step *)

Section EpochFacts.
Context {F : Type} `{S : Substrate F} `{M : !MathLib F}.

Lemma printed_epochs_app (a b : list (line F)) :
  printed_epochs (a ++ b) = printed_epochs a ++ printed_epochs b.
Proof. unfold printed_epochs. apply flat_map_app. Qed.

(** What an epoch does to the state, case by case. *)
Lemma train_epoch_run (FLAGS : Flags F) (data : Dataset F) (ao : matrix F)
    (epoch : Z) (st : state F) :
  let fed := <[p_dropout placeholders := FScalar (dropout FLAGS)]> (st_feed_dict st) in
  let s := st_sess st in
  match opt_cost (opt FLAGS data) (training_env FLAGS st) with
  | Raise e =>
      train_epoch FLAGS data ao epoch st
      = ({| st_sess := {| sess_vars := sess_vars s;
                          sess_runs := Datatypes.S (sess_runs s);
                          sess_train_steps := sess_train_steps s |};
            st_feed_dict := fed;
            st_stdout := st_stdout st |}, Raise e)
  | Ok c =>
      let trained :=
        {| st_sess := {| sess_vars := opt_op (opt FLAGS data) (training_env FLAGS st);
                         sess_runs := Datatypes.S (sess_runs s);
                         sess_train_steps := Datatypes.S (sess_train_steps s) |};
           st_feed_dict := fed;
           st_stdout := st_stdout st |} in
      let scored :=
        {| st_sess := {| sess_vars := opt_op (opt FLAGS data) (training_env FLAGS st);
                         sess_runs := Datatypes.S (Datatypes.S (sess_runs s));
                         sess_train_steps := Datatypes.S (sess_train_steps s) |};
           st_feed_dict := <[p_dropout placeholders := FScalar zero]> fed;
           st_stdout := st_stdout st |} in
      match snd (get_roc_score (model FLAGS data) ao
                   (val_edges data) (val_edges_false data) trained) with
      | Raise e => train_epoch FLAGS data ao epoch st = (scored, Raise e)
      | Ok (roc_curr, ap_curr) =>
          train_epoch FLAGS data ao epoch st
          = ({| st_sess := st_sess scored;
                st_feed_dict := st_feed_dict scored;
                st_stdout :=
                  st_stdout st ++ [EpochLine (epoch + 1) c roc_curr ap_curr] |},
             Ok tt)
      end
  end.
Proof.
  intros fed s. subst fed s.
  unfold train_epoch, pbind, feed_dict_update, feed_dict, sess_run_train.
  cbn [st_sess st_feed_dict st_stdout].
  change (run_env_of (st_sess st)
            (<[p_dropout placeholders := FScalar (dropout FLAGS)]> (st_feed_dict st)))
    with (training_env FLAGS st).
  destruct (opt_cost (opt FLAGS data) (training_env FLAGS st)) as [c|e]; [|reflexivity].
  cbv zeta.
  match goal with
  | |- context [get_roc_score ?m ?a ?p ?n ?t] =>
      pose proof (get_roc_score_state m a p n t) as Hst;
      destruct (get_roc_score m a p n t) as [st3 [[roc ap]|e]]
  end; cbn [fst snd] in *; subst st3; reflexivity.
Qed.

Lemma train_epoch_profile (FLAGS : Flags F) (data : Dataset F) (ao : matrix F)
    (epoch : Z) (st : state F) :
  exists tail : list (line F),
    st_stdout (fst (train_epoch FLAGS data ao epoch st)) = st_stdout st ++ tail
    /\ (is_ok (snd (train_epoch FLAGS data ao epoch st)) = true ->
        printed_epochs tail = [(epoch + 1)%Z] /\ length tail = 1
        /\ sess_runs (st_sess (fst (train_epoch FLAGS data ao epoch st)))
           = 2 + sess_runs (st_sess st))
    /\ (is_ok (snd (train_epoch FLAGS data ao epoch st)) = false -> tail = []).
Proof.
  pose proof (train_epoch_run FLAGS data ao epoch st) as Hrun. cbv zeta in Hrun.
  destruct (opt_cost (opt FLAGS data) (training_env FLAGS st)) as [c|e].
  - destruct (snd (get_roc_score _ _ _ _ _)) as [[roc ap]|e]; rewrite Hrun;
      cbn [fst snd st_stdout is_ok].
    + eexists. split; [reflexivity|]. split; [|discriminate].
      intros _. repeat split; reflexivity.
    + exists []. split; [now rewrite app_nil_r|]. split; [discriminate|reflexivity].
  - rewrite Hrun. cbn [fst snd st_stdout is_ok].
    exists []. split; [now rewrite app_nil_r|]. split; [discriminate|reflexivity].
Qed.

Lemma for_each_profile (FLAGS : Flags F) (data : Dataset F) (ao : matrix F)
    (l : list Z) (st : state F) :
  exists (tail : list (line F)) (k : nat),
    st_stdout (fst (for_each l (train_epoch FLAGS data ao) st)) = st_stdout st ++ tail
    /\ k <= length l
    /\ printed_epochs tail = map Z.succ (firstn k l)
    /\ (is_ok (snd (for_each l (train_epoch FLAGS data ao) st)) = true ->
        k = length l /\ length tail = length l
        /\ sess_runs (st_sess (fst (for_each l (train_epoch FLAGS data ao) st)))
           = 2 * length l + sess_runs (st_sess st)).
Proof.
  revert st. induction l as [|epoch l IH]; intros st; cbn [for_each].
  - exists [], 0. cbn. rewrite app_nil_r. repeat split; reflexivity.
  - unfold pbind.
    destruct (train_epoch_profile FLAGS data ao epoch st) as (t1 & Hout & Hok & Hfail).
    destruct (train_epoch FLAGS data ao epoch st) as [st1 [u|e]];
      cbn [fst snd is_ok] in *.
    + destruct (Hok eq_refl) as (Hp1 & Hl1 & Hr1).
      destruct (IH st1) as (t2 & k & Hout2 & Hk & Hp2 & Hok2).
      exists (t1 ++ t2), (Datatypes.S k).
      split; [rewrite Hout2, Hout; now rewrite app_assoc|].
      split; [cbn [length]; lia|].
      split.
      { rewrite printed_epochs_app, Hp1, Hp2. cbn [firstn map app].
        now rewrite Z.add_1_r. }
      intros Hall. destruct (Hok2 Hall) as (Hk' & Hl2 & Hr2).
      repeat split.
      * cbn [length]. lia.
      * rewrite length_app. cbn [length]. lia.
      * rewrite Hr2, Hr1. cbn [length]. lia.
    + exists [], 0. rewrite (Hfail eq_refl) in Hout.
      split; [exact Hout|]. split; [lia|]. split; [reflexivity|discriminate].
Qed.

End EpochFacts.

(** ** A whole run *)

Section RunFacts.
Context {F : Type} `{S : Substrate F} `{M : !MathLib F}.

Lemma firstn_range (n : Z) (k : nat) :
  k <= Z.to_nat n -> firstn k (range n) = range (Z.of_nat k).
Proof.
  intros Hk. unfold range. rewrite Nat2Z.id, firstn_map. f_equal.
  replace (Z.to_nat n) with (k + (Z.to_nat n - k)) by lia.
  rewrite seq_app, firstn_app, length_seq, Nat.sub_diag, firstn_O, app_nil_r.
  apply firstn_all2. rewrite length_seq. lia.
Qed.

Lemma length_range (n : Z) : length (range n) = Z.to_nat n.
Proof. unfold range. now rewrite length_map, length_seq. Qed.

(** What the statements after the loop do to the state. *)
Lemma finish_run (FLAGS : Flags F) (data : Dataset F) (ao : matrix F) (st : state F) :
  let printed :=
    {| st_sess := st_sess st;
       st_feed_dict := st_feed_dict st;
       st_stdout := st_stdout st ++ [Text "Optimization Finished!"] |} in
  let s := {| sess_vars := sess_vars (st_sess st);
              sess_runs := Datatypes.S (sess_runs (st_sess st));
              sess_train_steps := sess_train_steps (st_sess st) |} in
  let fd := <[p_dropout placeholders := FScalar zero]> (st_feed_dict st) in
  match snd (get_roc_score (model FLAGS data) ao
               (test_edges data) (test_edges_false data) printed) with
  | Ok (roc_score, ap_score) =>
      finish FLAGS data ao st
      = ({| st_sess := s;
            st_feed_dict := fd;
            st_stdout :=
              ((st_stdout st ++ [Text "Optimization Finished!"])
                 ++ [TestRocLine roc_score]) ++ [TestApLine ap_score] |},
         Ok (roc_score, ap_score))
  | Raise e =>
      finish FLAGS data ao st
      = ({| st_sess := s;
            st_feed_dict := fd;
            st_stdout := st_stdout st ++ [Text "Optimization Finished!"] |}, Raise e)
  end.
Proof.
  intros printed s fd. subst printed s fd.
  unfold finish, pbind, print, ret. cbn [fst st_sess st_feed_dict st_stdout].
  match goal with
  | |- context [get_roc_score ?m ?a ?p ?n ?t] =>
      pose proof (get_roc_score_state m a p n t) as Hst;
      destruct (get_roc_score m a p n t) as [st3 [[roc ap]|e]]
  end; cbn [fst snd] in *; subst st3; reflexivity.
Qed.

(** X6.  What the script's own print statements write.  Every run starts
    with the three lines of the layer tests and the line Start.  The epoch
    lines are numbered 1, 2, ..., k with no gap, for some [k] not above
    [epochs], also when the run ends in an exception.  A run that returns
    [(roc, ap)] has printed one line for each of the epochs 1 .. [epochs]
    and nine other lines, the last three being the end-of-optimization text
    and the two returned scores, and has made [2 + 2 * epochs] session
    runs. *)
Theorem X6_run_report (FLAGS : Flags F) (data : Dataset F) :
  firstn 4 (st_stdout (fst (main FLAGS data)))
  = [Text "test_propagate_node_state Success!";
     Text "test_apply_convolution Success!";
     Text "test_decoder_Success!";
     Text "Start"]
  /\ (exists k : nat,
        k <= Z.to_nat (epochs FLAGS)
        /\ printed_epochs (st_stdout (fst (main FLAGS data)))
           = map Z.succ (range (Z.of_nat k)))
  /\ (forall roc ap : F,
         snd (main FLAGS data) = Ok (roc, ap) ->
         printed_epochs (st_stdout (fst (main FLAGS data)))
         = map Z.succ (range (epochs FLAGS))
         /\ length (st_stdout (fst (main FLAGS data))) = 9 + Z.to_nat (epochs FLAGS)
         /\ sess_runs (st_sess (fst (main FLAGS data))) = 2 + 2 * Z.to_nat (epochs FLAGS)
         /\ exists pre : list (line F),
              st_stdout (fst (main FLAGS data))
              = pre ++ [Text "Optimization Finished!"; TestRocLine roc; TestApLine ap]).
Proof.
  unfold main, script, pbind, train.
  pose proof (setup_result FLAGS data) as Hs. cbv zeta in Hs. rewrite Hs. clear Hs.
  assert (Hfail : forall (e0 : exn) (st : state F),
             st_stdout st
             = [Text "test_propagate_node_state Success!";
                Text "test_apply_convolution Success!";
                Text "test_decoder_Success!"] ++ [Text "Start"] ->
             firstn 4 (st_stdout (fst (st, @Raise (F * F) e0)))
             = [Text "test_propagate_node_state Success!";
                Text "test_apply_convolution Success!";
                Text "test_decoder_Success!";
                Text "Start"]
             /\ (exists k : nat,
                   k <= Z.to_nat (epochs FLAGS)
                   /\ printed_epochs (st_stdout (fst (st, @Raise (F * F) e0)))
                      = map Z.succ (range (Z.of_nat k)))
             /\ (forall roc ap : F,
                    snd (st, @Raise (F * F) e0) = Ok (roc, ap) ->
                    printed_epochs (st_stdout (fst (st, @Raise (F * F) e0)))
                    = map Z.succ (range (epochs FLAGS))
                    /\ length (st_stdout (fst (st, @Raise (F * F) e0)))
                       = 9 + Z.to_nat (epochs FLAGS)
                    /\ sess_runs (st_sess (fst (st, @Raise (F * F) e0)))
                       = 2 + 2 * Z.to_nat (epochs FLAGS)
                    /\ exists pre : list (line F),
                         st_stdout (fst (st, @Raise (F * F) e0))
                         = pre ++ [Text "Optimization Finished!"; TestRocLine roc;
                                   TestApLine ap])).
  { intros e0 st Hst. cbn [fst snd]. rewrite Hst. split; [reflexivity|].
    split; [exists 0; split; [lia|reflexivity]|discriminate]. }
  destruct (adj_orig data) as [ao|e0]; [|apply Hfail; reflexivity].
  destruct (adj_norm data) as [an|e0]; [|apply Hfail; reflexivity].
  destruct (adj_label data) as [al|e0]; [|apply Hfail; reflexivity].
  destruct (python_truediv _ _) as [nrm|e0]; [|apply Hfail; reflexivity].
  clear Hfail. cbn [app].
  match goal with
  | |- context [for_each _ _ ?st0] =>
      destruct (for_each_profile FLAGS data ao (range (epochs FLAGS)) st0)
        as (tail & k & Hout & Hk & Hp & Hok);
      destruct (for_each (range (epochs FLAGS)) (train_epoch FLAGS data ao) st0)
        as [st1 [u|e]]
  end; cbn [fst snd is_ok st_stdout st_sess sess_runs] in *.
  - destruct (Hok eq_refl) as (Hk' & Hlen & Hruns). subst k.
    rewrite firstn_all in Hp. rewrite length_range in *.
    pose proof (finish_run FLAGS data ao st1) as Hfin. cbv zeta in Hfin.
    destruct (snd (get_roc_score _ _ _ _ _)) as [[roc ap]|e]; rewrite Hfin;
      cbn [fst snd st_stdout st_sess sess_runs]; rewrite Hout.
    + assert (Hpe : printed_epochs
                      (((([Text "test_propagate_node_state Success!";
                           Text "test_apply_convolution Success!";
                           Text "test_decoder_Success!";
                           Text "Start"; Text "Finished creating optimizer";
                           Text "Start session"] ++ tail)
                           ++ [Text "Optimization Finished!"])
                          ++ [TestRocLine roc]) ++ [TestApLine ap])
                    = map Z.succ (range (epochs FLAGS))).
      { rewrite !printed_epochs_app, Hp. cbn. now rewrite !app_nil_r. }
      split; [rewrite <- !app_assoc; reflexivity|].
      split.
      * exists (Z.to_nat (epochs FLAGS)). split; [lia|]. rewrite Hpe.
        unfold range. now rewrite Nat2Z.id.
      * intros roc' ap' [= <- <-]. split; [exact Hpe|]. split.
        { rewrite !length_app, Hlen. cbn [length]. lia. }
        split; [rewrite Hruns; lia|].
        exists ([Text "test_propagate_node_state Success!";
                 Text "test_apply_convolution Success!";
                 Text "test_decoder_Success!";
                 Text "Start"; Text "Finished creating optimizer";
                 Text "Start session"] ++ tail).
        now rewrite <- !app_assoc.
    + split; [rewrite <- !app_assoc; reflexivity|].
      split; [|discriminate].
      exists (Z.to_nat (epochs FLAGS)). split; [lia|].
      rewrite !printed_epochs_app, Hp. cbn. rewrite !app_nil_r.
      unfold range. now rewrite Nat2Z.id.
  - rewrite Hout. split; [reflexivity|].
    split; [|discriminate].
    exists k. rewrite length_range in Hk. split; [exact Hk|].
    rewrite printed_epochs_app, Hp. cbn [printed_epochs flat_map app].
    now rewrite (firstn_range _ _ Hk).
Qed.

(** X7.  Once the statements up to the construction of the feed dictionary
    have completed, the script never changes the three data entries of the
    dictionary: at the end of any run every entry other than dropout is the
    one [construct_feed_dict] put there.  After a run that returns scores
    the dictionary is the constructed one with the dropout entry 0. *)
Theorem X7_feed_dict_after_run (FLAGS : Flags F) (data : Dataset F)
    (st0 : state F) (ao : matrix F) :
  setup FLAGS data initial_state = (st0, Ok ao) ->
  (exists an al : SparseTensor F,
      adj_norm data = Ok an /\ adj_label data = Ok al
      /\ st_feed_dict st0 = construct_feed_dict an al (features data) placeholders)
  /\ (forall key : string,
         key <> p_dropout placeholders ->
         st_feed_dict (fst (main FLAGS data)) !! key = st_feed_dict st0 !! key)
  /\ (is_ok (snd (main FLAGS data)) = true ->
      st_feed_dict (fst (main FLAGS data))
      = <[p_dropout placeholders := FScalar zero]> (st_feed_dict st0)).
Proof.
  intros Hsetup.
  split.
  { destruct (setup_ok FLAGS data st0 ao Hsetup) as (an & al & _ & Han & Hal & _ & _ & Hfd).
    exists an, al. split; [exact Han|]. split; [exact Hal|exact Hfd]. }
  unfold main, script, pbind, train. rewrite Hsetup.
  pose proof (for_each_invariant
                (fun s => forall key : string,
                     key <> p_dropout placeholders ->
                     st_feed_dict s !! key = st_feed_dict st0 !! key)
                (range (epochs FLAGS)) (train_epoch FLAGS data ao)) as Hinv.
  specialize (fun Hb => Hinv Hb st0).
  assert (H1 : forall key : string,
             key <> p_dropout placeholders ->
             st_feed_dict
               (fst (for_each (range (epochs FLAGS)) (train_epoch FLAGS data ao) st0))
               !! key
             = st_feed_dict st0 !! key).
  { apply Hinv.
    - intros epoch s Hs key Hne. rewrite train_epoch_feed_dict by exact Hne.
      now apply Hs.
    - intros key _. reflexivity. }
  clear Hinv.
  destruct (for_each (range (epochs FLAGS)) (train_epoch FLAGS data ao) st0)
    as [st1 [u|e]]; cbn [fst snd is_ok st_feed_dict] in *.
  - assert (H2 : <[p_dropout placeholders := FScalar (@zero F _)]> (st_feed_dict st1)
                 = <[p_dropout placeholders := FScalar zero]> (st_feed_dict st0)).
    { apply map_eq. intros key.
      destruct (decide (p_dropout placeholders = key)) as [<-|Hne].
      - now rewrite !lookup_insert_eq.
      - rewrite !lookup_insert_ne by exact Hne. apply H1. congruence. }
    pose proof (finish_run FLAGS data ao st1) as Hfin. cbv zeta in Hfin.
    destruct (snd (get_roc_score _ _ _ _ _)) as [[roc ap]|e]; rewrite Hfin;
      cbn [fst snd st_feed_dict is_ok]; rewrite H2.
    + split; [|reflexivity]. intros key Hne. apply lookup_insert_ne. congruence.
    + split; [|discriminate]. intros key Hne. apply lookup_insert_ne. congruence.
  - split; [exact H1|discriminate].
Qed.

End RunFacts.

(** ** Shapes through the layers *)

Section LayerShapes.
Context {F : Type} `{S : Substrate F}.

Lemma has_shape_intro (n d : nat) (m : matrix F) :
  length m = n -> (forall r, In r m -> length r = d) -> has_shape n d m = true.
Proof.
  intros Hn Hd. unfold has_shape. apply andb_true_intro. split.
  - now apply Nat.eqb_eq.
  - apply forallb_forall. intros r Hr. apply Nat.eqb_eq. now apply Hd.
Qed.

Lemma length_transpose (m : matrix F) : length (transpose m) = ncols m.
Proof. unfold transpose. now rewrite length_map, length_seq. Qed.

Lemma has_shape_sparse_dense_matmul (s : SparseTensor F) (b : matrix F) :
  has_shape (fst (dense_shape s)) (ncols b) (sparse_dense_matmul s b) = true.
Proof.
  apply has_shape_intro.
  - unfold sparse_dense_matmul. now rewrite length_map, length_seq.
  - intros r Hr. unfold sparse_dense_matmul in Hr.
    apply in_map_iff in Hr as [i [<- _]]. now rewrite length_map, length_transpose.
Qed.

Lemma has_shape_matmul (a b : matrix F) :
  has_shape (length a) (ncols b) (matmul a b) = true.
Proof.
  apply has_shape_intro.
  - unfold matmul. now rewrite length_map.
  - intros r Hr. unfold matmul in Hr.
    apply in_map_iff in Hr as [i [<- _]]. now rewrite length_map, length_transpose.
Qed.

Lemma has_shape_map (f : F -> F) (n d : nat) (m : matrix F) :
  has_shape n d m = true -> has_shape n d (map (map f) m) = true.
Proof.
  intros Hs. apply has_shape_intro.
  - rewrite length_map. exact (has_shape_length _ _ _ Hs).
  - intros r Hr. apply in_map_iff in Hr as [r0 [<- Hr0]]. rewrite length_map.
    exact (has_shape_row _ _ _ _ Hs Hr0).
Qed.

Lemma has_shape_sparse_to_dense (s : SparseTensor F) :
  has_shape (fst (dense_shape s)) (snd (dense_shape s)) (sparse_to_dense s) = true.
Proof.
  apply has_shape_intro.
  - unfold sparse_to_dense. now rewrite length_map, length_seq.
  - intros r Hr. unfold sparse_to_dense in Hr.
    apply in_map_iff in Hr as [i [<- _]]. now rewrite length_map, length_seq.
Qed.

Lemma length_concat_shape (n d : nat) (m : matrix F) :
  has_shape n d m = true -> length (concat m) = n * d.
Proof.
  revert n. induction m as [|r m IH]; intros n Hs.
  - pose proof (has_shape_length _ _ _ Hs) as Hl. cbn in Hl. subst n. reflexivity.
  - pose proof (has_shape_length _ _ _ Hs) as Hl. cbn [length] in Hl. subst n.
    cbn [concat]. rewrite length_app.
    rewrite (has_shape_row _ _ _ r Hs) by now left.
    rewrite (IH (length m)); [lia|].
    apply has_shape_intro; [reflexivity|].
    intros r0 Hr0. apply (has_shape_row _ _ _ r0 Hs). now right.
Qed.

Lemma has_shape_zip_rows (f : F -> F -> F) (n d : nat) (a b : matrix F) :
  has_shape n d a = true -> has_shape n d b = true ->
  has_shape n d (zip_rows f a b) = true.
Proof.
  intros Ha Hb. apply has_shape_intro.
  - unfold zip_rows. rewrite length_map, length_combine.
    rewrite (has_shape_length _ _ _ Ha), (has_shape_length _ _ _ Hb). lia.
  - intros r Hr. unfold zip_rows in Hr. apply in_map_iff in Hr as [[ra rb] [<- Hp]].
    cbn [fst snd]. rewrite length_map, length_combine.
    rewrite (has_shape_row _ _ _ ra Ha) by exact (in_combine_l _ _ _ _ Hp).
    rewrite (has_shape_row _ _ _ rb Hb) by exact (in_combine_r _ _ _ _ Hp). lia.
Qed.

Lemma has_shape_sp_identity (n : nat) : has_shape n n (@sp_identity F _ n) = true.
Proof.
  apply has_shape_intro.
  - unfold sp_identity. now rewrite length_map, length_seq.
  - intros r Hr. unfold sp_identity in Hr. apply in_map_iff in Hr as [i [<- _]].
    now rewrite length_map, length_seq.
Qed.

Lemma has_shape_sym_normalize_matrix (n d : nat) (m : matrix F) :
  has_shape n d m = true -> has_shape n d (sym_normalize_matrix m) = true.
Proof.
  intros Hs. apply has_shape_intro.
  - unfold sym_normalize_matrix. rewrite length_map, length_combine, length_map.
    rewrite (has_shape_length _ _ _ Hs). lia.
  - intros r Hr. unfold sym_normalize_matrix in Hr.
    apply in_map_iff in Hr as [[c row] [<- Hp]]. cbn [fst snd].
    rewrite length_map, length_combine, length_seq, Nat.min_id.
    apply (has_shape_row _ _ _ row Hs). exact (in_combine_r _ _ _ _ Hp).
Qed.

Lemma has_shape_diagonal_matrix (n d : nat) (m : matrix F) :
  has_shape n d m = true -> has_shape n d (diagonal_matrix m) = true.
Proof.
  intros Hs. apply has_shape_intro.
  - unfold diagonal_matrix. rewrite length_map, length_combine, length_seq, Nat.min_id.
    exact (has_shape_length _ _ _ Hs).
  - intros r Hr. unfold diagonal_matrix in Hr.
    apply in_map_iff in Hr as [[i row] [<- Hp]]. cbn [fst snd].
    rewrite length_map, length_combine, length_seq, Nat.min_id.
    apply (has_shape_row _ _ _ row Hs). exact (in_combine_r _ _ _ _ Hp).
Qed.

Lemma has_shape_same_shape (n d : nat) (a b : matrix F) :
  has_shape n d a = true -> has_shape n d b = true -> 0 < n -> same_shape a b = true.
Proof.
  intros Ha Hb Hn. unfold same_shape, nrows.
  rewrite (has_shape_length _ _ _ Ha), (has_shape_length _ _ _ Hb).
  rewrite (has_shape_ncols _ _ _ Ha Hn), (has_shape_ncols _ _ _ Hb Hn).
  now rewrite !Nat.eqb_refl.
Qed.

Lemma sparse_to_tuple_lengths (m : matrix F) :
  length (indices (sparse_to_tuple m)) = length (values (sparse_to_tuple m)).
Proof. unfold sparse_to_tuple; cbn [indices values]. now rewrite !length_map. Qed.

Lemma sparse_to_tuple_shape (n d : nat) (m : matrix F) :
  has_shape n d m = true -> 0 < n -> dense_shape (sparse_to_tuple m) = (n, d).
Proof.
  intros Hs Hn. unfold sparse_to_tuple; cbn [dense_shape]. unfold nrows.
  now rewrite (has_shape_length _ _ _ Hs), (has_shape_ncols _ _ _ Hs Hn).
Qed.

Lemma sparse_to_tuple_in_bounds (n d : nat) (m : matrix F) :
  has_shape n d m = true -> 0 < n -> indices_in_bounds (sparse_to_tuple m) = true.
Proof.
  intros Hs Hn. unfold indices_in_bounds.
  rewrite (sparse_to_tuple_shape n d m Hs Hn). cbn [fst snd].
  apply forallb_forall. intros ij Hij.
  unfold sparse_to_tuple in Hij; cbn [indices] in Hij.
  apply in_map_iff in Hij as [[ij' v] [<- Hin]]. cbn [fst].
  unfold stored_entries in Hin. apply in_concat in Hin as [l [Hl Hin]].
  apply in_map_iff in Hl as [[i row] [<- Hp]]. cbn [fst snd] in Hin.
  apply in_map_iff in Hin as [[j x] [[= <- <-] Hq]]. cbn [fst snd].
  apply filter_In in Hq as [Hq _].
  pose proof (in_combine_l _ _ _ _ Hp) as Hi. apply in_seq in Hi.
  pose proof (in_combine_r _ _ _ _ Hp) as Hrow.
  pose proof (in_combine_l _ _ _ _ Hq) as Hj. apply in_seq in Hj.
  rewrite (has_shape_length _ _ _ Hs) in Hi.
  rewrite (has_shape_row _ _ _ _ Hs Hrow) in Hj.
  apply andb_true_intro. split; apply Nat.ltb_lt; lia.
Qed.

Lemma dropout_sparse_in_bounds (s : SparseTensor F) (keep : F) (run n : nat)
    (op : string) :
  indices_in_bounds s = true ->
  indices_in_bounds
    {| indices :=
         map (fun p : nat * ((nat * nat) * F) => fst (snd p))
           (List.filter (fun p => random_keep keep run op (fst p))
              (combine (seq 0 n) (combine (indices s) (values s))));
       values :=
         map (fun p : nat * ((nat * nat) * F) => fmul (snd (snd p)) (fdiv one keep))
           (List.filter (fun p => random_keep keep run op (fst p))
              (combine (seq 0 n) (combine (indices s) (values s))));
       dense_shape := dense_shape s |} = true.
Proof.
  unfold indices_in_bounds; cbn [indices dense_shape]. intros Hb.
  rewrite forallb_forall in *. intros ij Hij.
  apply in_map_iff in Hij as [[k [ij' v]] [<- Hin]]. cbn [fst snd].
  apply filter_In in Hin as [Hin _].
  apply in_combine_r in Hin. apply in_combine_l in Hin. now apply Hb.
Qed.

(** The sparse-input layer up to its activation. *)
Lemma sparse_layer_preactivation (self : GraphConvolutionSparse)
    (inputs : tensor F (SparseTensor F)) (env : run_env F)
    (s a : SparseTensor F) (w : matrix F) (rate : F) (n m f h : nat) :
  inputs env = Ok s ->
  gcs_dropout self env = Ok rate ->
  gcs_vars_weights self env = Ok w ->
  gcs_adj self env = Ok a ->
  length (values s) = gcs_features_nonzero self ->
  length (indices s) = gcs_features_nonzero self ->
  dense_shape s = (n, f) ->
  indices_in_bounds s = true ->
  dense_shape a = (m, n) ->
  indices_in_bounds a = true ->
  has_shape f h w = true ->
  0 < f -> 0 < n ->
  exists x : matrix F,
    GraphConvolutionSparse_preactivation self inputs env = Ok x
    /\ has_shape m h x = true.
Proof.
  intros Hin Hrate Hw Ha Hv Hi Hs Hbs Hsa Hba Hws Hf Hn.
  unfold GraphConvolutionSparse_preactivation, tf_sparse_tensor_dense_matmul,
    dropout_sparse, tf_sub, tf_constant.
  rewrite Ha, Hin, Hrate, Hw. cbn [bind].
  rewrite Hv, Hi, !Nat.eqb_refl. cbn [andb bind].
  rewrite (dropout_sparse_in_bounds s (fsub one rate) (env_run env)
             (gcs_features_nonzero self) (gcs_name self) Hbs).
  cbn [dense_shape]. rewrite Hs. cbn [snd]. unfold nrows at 1.
  rewrite (has_shape_length _ _ _ Hws), Nat.eqb_refl.
  match goal with
  | |- context [sparse_dense_matmul ?s' w] =>
      pose proof (has_shape_sparse_dense_matmul s' w) as Hinner;
      set (inner := sparse_dense_matmul s' w) in *
  end.
  cbn [dense_shape fst] in Hinner.
  rewrite (has_shape_ncols _ _ _ Hws Hf) in Hinner.
  rewrite Hsa. cbn [snd bind]. unfold nrows.
  rewrite (has_shape_length _ _ _ Hinner), Nat.eqb_refl, Hba.
  eexists. split; [reflexivity|].
  pose proof (has_shape_sparse_dense_matmul a inner) as Hout.
  rewrite Hsa in Hout. cbn [fst] in Hout.
  now rewrite (has_shape_ncols _ _ _ Hinner Hn) in Hout.
Qed.

(** The dense layer up to its activation. *)
Lemma dense_layer_preactivation (self : GraphConvolution)
    (inputs : tensor F (matrix F)) (env : run_env F)
    (x : matrix F) (a : SparseTensor F) (w : matrix F) (rate : F) (n m f h : nat) :
  inputs env = Ok x ->
  gc_dropout self env = Ok rate ->
  gc_vars_weights self env = Ok w ->
  gc_adj self env = Ok a ->
  has_shape n f x = true ->
  dense_shape a = (m, n) ->
  indices_in_bounds a = true ->
  has_shape f h w = true ->
  0 < f -> 0 < n ->
  exists y : matrix F,
    tf_sparse_tensor_dense_matmul (gc_adj self)
      (tf_matmul
         (tf_nn_dropout inputs (tf_sub (tf_constant one) (gc_dropout self)) (gc_name self))
         (gc_vars_weights self)) env
    = Ok y
    /\ has_shape m h y = true.
Proof.
  intros Hin Hrate Hw Ha Hx Hsa Hba Hws Hf Hn.
  set (dropped := dropout_matrix (fsub one rate) (env_run env) (gc_name self) x).
  assert (Hd : has_shape n f dropped = true)
    by (apply has_shape_dropout_matrix; exact Hx).
  pose proof (has_shape_matmul dropped w) as Hinner.
  rewrite (has_shape_length _ _ _ Hd), (has_shape_ncols _ _ _ Hws Hf) in Hinner.
  exists (sparse_dense_matmul a (matmul dropped w)). split.
  - unfold tf_sparse_tensor_dense_matmul, tf_matmul, tf_nn_dropout, tf_sub, tf_constant.
    rewrite Ha, Hin, Hrate, Hw. cbn [bind]. fold dropped.
    cbn [operand_nrows operand_columns matrix_operand].
    unfold nrows. rewrite (has_shape_ncols _ _ _ Hd Hn), (has_shape_length _ _ _ Hws).
    rewrite Nat.eqb_refl, Hsa. cbn [snd bind].
    change (map (fun row : list F => map (fun col : list F => dot row col) (transpose w))
              dropped) with (matmul dropped w).
    now rewrite (has_shape_length _ _ _ Hinner), Nat.eqb_refl, Hba.
  - pose proof (has_shape_sparse_dense_matmul a (matmul dropped w)) as Hout.
    rewrite Hsa in Hout. cbn [fst] in Hout.
    now rewrite (has_shape_ncols _ _ _ Hinner Hn) in Hout.
Qed.

End LayerShapes.

(** X8.  The dense layer's test evaluates to its expected rows
    [[0,1],[0,1],[0,0]] in every run.  In general, on an input of [n > 0]
    rows and [f > 0] columns, weights of [f] rows and [h] columns and an
    adjacency of dense shape [(m, n)] whose stored positions lie inside that
    shape, with an activation that applies a function entry by entry, the
    forward pass passes both dimension checks and the index check and
    evaluates to a matrix of [m] rows and [h] columns, whatever the values
    are. *)
Theorem X8_graph_convolution :
  (forall (S : Substrate binary32) (env : run_env binary32),
      test_apply_convolution env
      = Ok [[b32 0; b32 1]; [b32 0; b32 1]; [b32 0; b32 0]])
  /\ (forall (F : Type) (D : Dtype F) (S : Substrate F)
        (self : GraphConvolution) (inputs : tensor F (matrix F)) (env : run_env F)
        (x : matrix F) (a : SparseTensor F) (w : matrix F) (rate : F)
        (g : F -> F) (n m f h : nat),
        inputs env = Ok x ->
        gc_dropout self env = Ok rate ->
        gc_vars_weights self env = Ok w ->
        gc_adj self env = Ok a ->
        has_shape n f x = true ->
        dense_shape a = (m, n) ->
        indices_in_bounds a = true ->
        has_shape f h w = true ->
        0 < f -> 0 < n ->
        (forall (t : tensor F (matrix F)) (v : matrix F),
            t env = Ok v -> gc_act self t env = Ok (map (map g) v)) ->
        exists outputs : matrix F,
          GraphConvolution_call self inputs env = Ok outputs
          /\ has_shape m h outputs = true).
Proof.
  split.
  - intros S env.
    unfold test_apply_convolution, GraphConvolution_call, GraphConvolution_set_weights,
      GraphConvolution_init; cbn [gc_act gc_adj gc_vars_weights gc_dropout gc_name].
    unfold tf_nn_relu, tf_sparse_tensor_dense_matmul, tf_matmul, tf_nn_dropout.
    rewrite tf_keep_prob_zero_dropout.
    cbn [bind tf_constant].
    rewrite dropout_matrix_keep_one.
    vm_compute. reflexivity.
  - intros F D S self inputs env x a w rate g n m f h
      Hin Hrate Hw Ha Hx Hsa Hba Hws Hf Hn Hact.
    destruct (dense_layer_preactivation self inputs env x a w rate n m f h
                Hin Hrate Hw Ha Hx Hsa Hba Hws Hf Hn) as (y & Hval & Hshape).
    exists (map (map g) y). split.
    + unfold GraphConvolution_call. apply Hact. exact Hval.
    + apply has_shape_map. exact Hshape.
Qed.

(** X9.  The sparse-input layer, on an input with [features_nonzero] stored
    entries and dense shape [(n, f)], weights of [f] rows and [h] columns
    and an adjacency of dense shape [(m, n)], with [f > 0] and [n > 0], the
    stored positions of both sparse tensors inside their shapes, and an
    activation that applies a function entry by entry: the forward pass
    passes the mask check, both dimension checks and both index checks and
    evaluates to a matrix of [m] rows and [h] columns, whatever the values
    are and whatever the dropout mask retains. *)
Theorem X9_graph_convolution_sparse {F : Type} `{S : Substrate F}
    (self : GraphConvolutionSparse) (inputs : tensor F (SparseTensor F))
    (env : run_env F) (s a : SparseTensor F) (w : matrix F) (rate : F)
    (g : F -> F) (n m f h : nat) :
  inputs env = Ok s ->
  gcs_dropout self env = Ok rate ->
  gcs_vars_weights self env = Ok w ->
  gcs_adj self env = Ok a ->
  length (values s) = gcs_features_nonzero self ->
  length (indices s) = gcs_features_nonzero self ->
  dense_shape s = (n, f) ->
  indices_in_bounds s = true ->
  dense_shape a = (m, n) ->
  indices_in_bounds a = true ->
  has_shape f h w = true ->
  0 < f -> 0 < n ->
  (forall (t : tensor F (matrix F)) (v : matrix F),
      t env = Ok v -> gcs_act self t env = Ok (map (map g) v)) ->
  exists outputs : matrix F,
    GraphConvolutionSparse_call self inputs env = Ok outputs
    /\ has_shape m h outputs = true
    /\ length (reshape_flat outputs) = m * h.
Proof.
  intros Hin Hrate Hw Ha Hv Hi Hs Hbs Hsa Hba Hws Hf Hn Hact.
  destruct (sparse_layer_preactivation self inputs env s a w rate n m f h
              Hin Hrate Hw Ha Hv Hi Hs Hbs Hsa Hba Hws Hf Hn) as (x & Hx & Hshape).
  exists (map (map g) x). split.
  - change (GraphConvolutionSparse_call self inputs env)
      with (gcs_act self (GraphConvolutionSparse_preactivation self inputs) env).
    apply Hact. exact Hx.
  - split; [apply has_shape_map; exact Hshape|].
    apply length_concat_shape. apply has_shape_map. exact Hshape.
Qed.

Section ModelShapes.
Context {F : Type} `{S : Substrate F} `{M : !MathLib F}.

Lemma features_shape (data : Dataset F) (n : nat) :
  has_shape n n (adj data) = true -> 0 < n ->
  dense_shape (features data) = (n, n)
  /\ length (indices (features data)) = features_nonzero data
  /\ num_features data = n
  /\ indices_in_bounds (features data) = true.
Proof.
  intros Ha Hn. unfold num_features, features_nonzero, features, nrows.
  rewrite (has_shape_length _ _ _ Ha).
  rewrite (sparse_to_tuple_shape n n _ (has_shape_sp_identity n) Hn).
  split; [reflexivity|]. split; [apply sparse_to_tuple_lengths|].
  split; [reflexivity|].
  exact (sparse_to_tuple_in_bounds n n _ (has_shape_sp_identity n) Hn).
Qed.

Lemma adj_norm_shape (data : Dataset F) (n : nat) :
  has_shape n n (adj data) = true -> has_shape n n (adj_train data) = true -> 0 < n ->
  exists an,
    adj_norm data = Ok an /\ dense_shape an = (n, n) /\ indices_in_bounds an = true.
Proof.
  intros Ha Ht Hn. unfold adj_norm, mat_add, nrows.
  rewrite (has_shape_length _ _ _ Ha).
  rewrite (has_shape_same_shape n n _ _ Ht (has_shape_sp_identity n) Hn).
  cbn [bind]. eexists. split; [reflexivity|].
  assert (Hs : has_shape n n
                 (sym_normalize_matrix (zip_rows fadd (adj_train data) (sp_identity n)))
               = true).
  { apply has_shape_sym_normalize_matrix, has_shape_zip_rows;
      [exact Ht|apply has_shape_sp_identity]. }
  split; [exact (sparse_to_tuple_shape n n _ Hs Hn)|].
  exact (sparse_to_tuple_in_bounds n n _ Hs Hn).
Qed.

Lemma adj_label_shape (data : Dataset F) (n : nat) :
  has_shape n n (adj_train data) = true -> 0 < n ->
  exists al, adj_label data = Ok al /\ dense_shape al = (n, n).
Proof.
  intros Ht Hn. unfold adj_label, mat_add, nrows.
  rewrite (has_shape_length _ _ _ Ht).
  rewrite (has_shape_same_shape n n _ _ Ht (has_shape_sp_identity n) Hn).
  cbn [bind]. eexists. split; [reflexivity|].
  apply sparse_to_tuple_shape; [|exact Hn].
  apply has_shape_zip_rows; [exact Ht|apply has_shape_sp_identity].
Qed.

(** X10.  The graph the script builds is consistent in shape.  Once the
    statements up to the construction of the feed dictionary have completed
    (so the Optimizer was constructed), on a dataset whose adjacency and
    training adjacency are both [n] by [n] with [n > 0], and with positive
    layer widths: in every run on the script's feed dictionary, at any
    dropout rate, in which the two weight variables have their declared
    shapes, the embeddings evaluate to [n] rows of [hidden2] entries, the
    reconstructions and the labels to [n * n] entries each, and the cost to
    a value. *)
Theorem X10_model_graph_shapes (FLAGS : Flags F) (data : Dataset F) (n : nat)
    (st0 : state F) (ao : matrix F) :
  setup FLAGS data initial_state = (st0, Ok ao) ->
  has_shape n n (adj data) = true ->
  has_shape n n (adj_train data) = true ->
  0 < n -> 0 < hidden1 FLAGS -> 0 < hidden2 FLAGS ->
  forall (env : run_env F) (rate : F) (w1 w2 : matrix F),
    env_feed env = <[p_dropout placeholders := FScalar rate]> (st_feed_dict st0) ->
    env_vars env !! "yeast_gcn/gcn_sparse_layer_vars/weights" = Some w1 ->
    env_vars env !! "yeast_gcn/gcn_dense_layer_vars/weights" = Some w2 ->
    has_shape n (hidden1 FLAGS) w1 = true ->
    has_shape (hidden1 FLAGS) (hidden2 FLAGS) w2 = true ->
    exists (emb : matrix F) (recon labels : list F) (c : F),
      model_embeddings (model FLAGS data) env = Ok emb
      /\ has_shape n (hidden2 FLAGS) emb = true
      /\ model_reconstructions (model FLAGS data) env = Ok recon
      /\ length recon = n * n
      /\ opt_labels_sub (opt FLAGS data) env = Ok labels
      /\ length labels = n * n
      /\ opt_cost (opt FLAGS data) env = Ok c.
Proof.
  intros Hsetup Ha Ht Hn Hh1 Hh2 env rate w1 w2 Hfeed V1 V2 Hw1 Hw2.
  destruct (setup_ok FLAGS data st0 ao Hsetup)
    as (an & al & _ & Han & Hal & _ & _ & Hfd).
  destruct (adj_norm_shape data n Ha Ht Hn) as (an' & Han' & Hsan & Hban).
  rewrite Han in Han'. injection Han' as <-.
  destruct (adj_label_shape data n Ht Hn) as (al' & Hal' & Hsal).
  rewrite Hal in Hal'. injection Hal' as <-.
  destruct (features_shape data n Ha Hn) as (Hsf & Hfi & Hnf & Hbf).
  assert (Ffeat : env_feed env !! p_features placeholders
                  = Some (FSparse (features data))).
  { rewrite Hfeed, Hfd. unfold construct_feed_dict.
    rewrite !lookup_insert_ne by discriminate. apply lookup_insert_eq. }
  assert (Fadj : env_feed env !! p_adj placeholders = Some (FSparse an)).
  { rewrite Hfeed, Hfd. unfold construct_feed_dict.
    rewrite !lookup_insert_ne by discriminate. apply lookup_insert_eq. }
  assert (Forig : env_feed env !! p_adj_orig placeholders = Some (FSparse al)).
  { rewrite Hfeed, Hfd. unfold construct_feed_dict.
    rewrite lookup_insert_ne by discriminate. apply lookup_insert_eq. }
  assert (Fdrop : env_feed env !! p_dropout placeholders = Some (FScalar rate)).
  { rewrite Hfeed. apply lookup_insert_eq. }
  assert (Hrate : tf_placeholder_with_default zero (p_dropout placeholders) env = Ok rate)
    by (unfold tf_placeholder_with_default; now rewrite Fdrop).
  assert (Hadj : tf_sparse_placeholder (p_adj placeholders) env = Ok an)
    by (unfold tf_sparse_placeholder; now rewrite Fadj).
  assert (Hfeat : tf_sparse_placeholder (p_features placeholders) env = Ok (features data))
    by (unfold tf_sparse_placeholder; now rewrite Ffeat).
  (* the sparse layer *)
  set (layer1 := GraphConvolutionSparse_init "yeast_gcn/" (num_features data)
                   (hidden1 FLAGS) (tf_sparse_placeholder (p_adj placeholders))
                   (features_nonzero data) "gcn_sparse_layer"
                   (tf_placeholder_with_default zero (p_dropout placeholders))
                   tf_nn_relu).
  destruct (sparse_layer_preactivation layer1
              (tf_sparse_placeholder (p_features placeholders)) env
              (features data) an w1 rate n n n (hidden1 FLAGS))
    as (x1 & Hx1 & Hs1); try assumption.
  { unfold layer1. cbn [GraphConvolutionSparse_init gcs_vars_weights].
    unfold weight_variable_glorot, tf_Variable.
    match goal with
    | |- context [env_vars env !! ?k] =>
        let k' := eval vm_compute in k in change k with k'
    end.
    now rewrite V1. }
  { reflexivity. }
  assert (Hhid : model_hidden1 (model FLAGS data) env = Ok (map (map relu) x1)).
  { change (model_hidden1 (model FLAGS data) env)
      with (tf_nn_relu
              (GraphConvolutionSparse_preactivation layer1
                 (tf_sparse_placeholder (p_features placeholders))) env).
    unfold tf_nn_relu. now rewrite Hx1. }
  pose proof (has_shape_map relu _ _ _ Hs1) as Hs1'.
  (* the dense layer *)
  set (layer2 := GraphConvolution_init "yeast_gcn/" (hidden1 FLAGS) (hidden2 FLAGS)
                   (tf_sparse_placeholder (p_adj placeholders)) "gcn_dense_layer"
                   (tf_placeholder_with_default zero (p_dropout placeholders))
                   (fun x : tensor F (matrix F) => x)).
  destruct (dense_layer_preactivation layer2 (model_hidden1 (model FLAGS data)) env
              (map (map relu) x1) an w2 rate n n (hidden1 FLAGS) (hidden2 FLAGS))
    as (emb & Hemb & Hs2); try assumption.
  { unfold layer2. cbn [GraphConvolution_init gc_vars_weights].
    unfold weight_variable_glorot, tf_Variable.
    match goal with
    | |- context [env_vars env !! ?k] =>
        let k' := eval vm_compute in k in change k with k'
    end.
    now rewrite V2. }
  assert (Hemb' : model_embeddings (model FLAGS data) env = Ok emb) by exact Hemb.
  (* the decoder *)
  set (dropped := dropout_matrix (fsub one zero) (env_run env) "gcn_decoder" emb).
  assert (Hsd : has_shape n (hidden2 FLAGS) dropped = true)
    by (apply has_shape_dropout_matrix; exact Hs2).
  assert (Hrec : model_reconstructions (model FLAGS data) env
                 = Ok (concat (map (fun r1 => map (fun r2 => dot r1 r2) dropped) dropped))).
  { change (model_reconstructions (model FLAGS data) env)
      with (tf_reshape_flat
              (tf_matmul
                 (tf_nn_dropout (model_embeddings (model FLAGS data))
                    (tf_sub (tf_constant one) (tf_constant zero)) "gcn_decoder")
                 (tf_transpose
                    (tf_nn_dropout (model_embeddings (model FLAGS data))
                       (tf_sub (tf_constant one) (tf_constant zero)) "gcn_decoder")))
              env).
    unfold tf_reshape_flat, tf_matmul, tf_transpose, tf_nn_dropout, tf_sub, tf_constant.
    rewrite Hemb'. cbn [bind]. fold dropped.
    cbn [operand_nrows operand_columns transposed_operand transposed_of].
    now rewrite Nat.eqb_refl. }
  assert (Hlab : opt_labels_sub (opt FLAGS data) env = Ok (concat (sparse_to_dense al))).
  { change (opt_labels_sub (opt FLAGS data) env)
      with (tf_reshape_flat
              (tf_sparse_tensor_to_dense
                 (tf_sparse_placeholder (p_adj_orig placeholders))) env).
    unfold tf_reshape_flat, tf_sparse_tensor_to_dense, tf_sparse_placeholder.
    now rewrite Forig. }
  assert (Hlrec : length (concat (map (fun r1 => map (fun r2 => dot r1 r2) dropped)
                                     dropped)) = n * n).
  { rewrite length_concat_grid. now rewrite (has_shape_length _ _ _ Hsd). }
  assert (Hllab : length (concat (sparse_to_dense al)) = n * n).
  { apply length_concat_shape. pose proof (has_shape_sparse_to_dense al) as Hd.
    now rewrite Hsal in Hd. }
  eexists emb, _, _, _.
  split; [exact Hemb'|]. split; [exact Hs2|]. split; [exact Hrec|].
  split; [exact Hlrec|]. split; [exact Hlab|]. split; [exact Hllab|].
  change (opt_cost (opt FLAGS data) env)
    with (tf_scale (opt_norm (opt FLAGS data))
            (tf_reduce_mean
               (tf_nn_weighted_cross_entropy_with_logits
                  (model_reconstructions (model FLAGS data))
                  (opt_labels_sub (opt FLAGS data))
                  (opt_pos_weight (opt FLAGS data)))) env).
  unfold tf_scale, tf_reduce_mean, tf_nn_weighted_cross_entropy_with_logits.
  rewrite Hrec, Hlab. cbn [bind]. rewrite Hlrec, Hllab, Nat.eqb_refl.
  reflexivity.
Qed.

End ModelShapes.

(** ** Inverting a successful bind *)


Lemma bind_ok {A B} (m : result A) (k : A -> result B) (b : B) :
  bind m k = Ok b -> exists a, m = Ok a /\ k a = Ok b.
Proof. destruct m as [a|e]; cbn [bind]; [eauto|discriminate]. Qed.

(** ** The stored original adjacency *)

Section AdjOrig.
Context {F : Type} `{D : Dtype F}.







End AdjOrig.




(** X14.  The hidden layer's activations are never negative: in binary32
    no entry of a fetched [hidden1] compares below zero, whatever was fed
    and whatever the weights are. *)
Theorem X14_hidden_layer_not_negative `{S : !Substrate binary32} `{M : !MathLib binary32}
    (FLAGS : Flags binary32) (data : Dataset binary32) (env : run_env binary32)
    (h : matrix binary32) :
  model_hidden1 (model FLAGS data) env = Ok h ->
  Forall (Forall (fun v : binary32 => SFltb v zero = false)) h.
Proof.
  intros Hh.
  change (model_hidden1 (model FLAGS data) env)
    with (tf_nn_relu
            (GraphConvolutionSparse_preactivation
               (GraphConvolutionSparse_init "yeast_gcn/" (num_features data)
                  (hidden1 FLAGS) (tf_sparse_placeholder (p_adj placeholders))
                  (features_nonzero data) "gcn_sparse_layer"
                  (tf_placeholder_with_default zero (p_dropout placeholders))
                  tf_nn_relu)
               (tf_sparse_placeholder (p_features placeholders))) env) in Hh.
  unfold tf_nn_relu in Hh. apply bind_ok in Hh as (x & _ & Hx).
  injection Hx as <-.
  apply List.Forall_forall. intros r Hr. apply in_map_iff in Hr as [r0 [<- _]].
  apply List.Forall_forall. intros v Hv. apply in_map_iff in Hv as [v0 [<- _]].
  unfold relu. cbn [fmax binary32_dtype].
  match goal with
  | |- context [if ?c then _ else _] => destruct c eqn:Hlt
  end; [reflexivity|exact Hlt].
Qed.

(** ** The further properties on the small run *)

Section FurtherRuns.
#[local] Existing Instance example_mathlib.
#[local] Existing Instance example_substrate.

Lemma X3_flipped_edges_witness :
  model_embeddings example_model (evaluation_env (example_state_after_epochs 0))
  = Ok example_embeddings
  /\ has_shape 4 2 example_embeddings = true
  /\ same_shape (matmul example_embeddings (transpose example_embeddings))
       example_adj_orig = true
  /\ get_roc_score example_model example_adj_orig
       (map flip_edge (val_edges example_data))
       (map flip_edge (val_edges_false example_data)) (example_state_after_epochs 0)
     = get_roc_score example_model example_adj_orig
         (val_edges example_data) (val_edges_false example_data)
         (example_state_after_epochs 0).
Proof.
  assert (H1 : model_embeddings example_model
                 (evaluation_env (example_state_after_epochs 0))
               = Ok example_embeddings) by (vm_compute; reflexivity).
  split; [exact H1|]. split; [reflexivity|]. split; [reflexivity|].
  exact (X3_scores_ignore_edge_orientation example_model example_adj_orig
           (val_edges example_data) (val_edges_false example_data)
           (example_state_after_epochs 0) example_embeddings 4 2
           H1 eq_refl (Nat.lt_0_succ 1) eq_refl).
Defined.

Lemma X4_edge_out_of_bounds_witness :
  model_embeddings example_model (evaluation_env (example_state_after_epochs 0))
  = Ok example_embeddings
  /\ (Z.of_nat 4 <= snd (1, 7))%Z
  /\ snd (get_roc_score example_model example_adj_orig
            (val_edges example_data) [(1, 7)%Z] (example_state_after_epochs 0))
     = Raise (IndexError "index out of bounds").
Proof.
  assert (H1 : model_embeddings example_model
                 (evaluation_env (example_state_after_epochs 0))
               = Ok example_embeddings) by (vm_compute; reflexivity).
  assert (H2 : (Z.of_nat 4 <= snd (1, 7))%Z) by (cbn; lia).
  split; [exact H1|]. split; [exact H2|].
  apply (X4_edge_out_of_bounds example_model example_adj_orig
           (val_edges example_data) [(1, 7)%Z] (example_state_after_epochs 0)
           example_embeddings 4 2 (1, 7)%Z H1 eq_refl (Nat.lt_0_succ 1)).
  - right. left. reflexivity.
  - right. right. right. exact H2.
Defined.

Lemma X6_run_report_witness :
  snd (main example_flags example_data) = Ok (b32 0, half)
  /\ printed_epochs (st_stdout (fst (main example_flags example_data)))
     = map Z.succ (range (epochs example_flags))
  /\ length (st_stdout (fst (main example_flags example_data)))
     = 9 + Z.to_nat (epochs example_flags)
  /\ sess_runs (st_sess (fst (main example_flags example_data)))
     = 2 + 2 * Z.to_nat (epochs example_flags).
Proof.
  assert (H1 : snd (main example_flags example_data) = Ok (b32 0, half))
    by (vm_compute; reflexivity).
  split; [exact H1|].
  destruct (proj2 (proj2 (X6_run_report example_flags example_data)) (b32 0) half H1)
    as (Hp & Hl & Hr & _).
  split; [exact Hp|]. split; [exact Hl|exact Hr].
Defined.

Lemma X7_feed_dict_after_run_witness :
  setup example_flags example_data initial_state
  = (example_state_after_epochs 0, Ok example_adj_orig)
  /\ is_ok (snd (main example_flags example_data)) = true
  /\ st_feed_dict (fst (main example_flags example_data))
     = <[p_dropout placeholders := FScalar zero]>
         (st_feed_dict (example_state_after_epochs 0)).
Proof.
  assert (H1 : setup example_flags example_data initial_state
               = (example_state_after_epochs 0, Ok example_adj_orig))
    by (vm_compute; reflexivity).
  assert (H2 : is_ok (snd (main example_flags example_data)) = true)
    by (vm_compute; reflexivity).
  split; [exact H1|]. split; [exact H2|].
  exact (proj2 (proj2 (X7_feed_dict_after_run example_flags example_data
                         (example_state_after_epochs 0) example_adj_orig H1)) H2).
Defined.

Lemma X8_graph_convolution_witness :
  has_shape 3 2 example_node_state = true
  /\ has_shape 2 2 [[b32 0; b32 1]; [b32 1; b32 0]] = true
  /\ indices_in_bounds {| indices := [(0, 1); (1, 0)];
                          values := [b32 1; b32 1];
                          dense_shape := (3, 3) |} = true
  /\ exists outputs : matrix binary32,
       GraphConvolution_call example_convolution (tf_constant example_node_state)
         empty_env = Ok outputs
       /\ has_shape 3 2 outputs = true.
Proof.
  split; [reflexivity|]. split; [reflexivity|]. split; [reflexivity|].
  refine (proj2 X8_graph_convolution binary32 _ example_substrate
            example_convolution (tf_constant example_node_state) empty_env
            example_node_state
            {| indices := [(0, 1); (1, 0)];
               values := [b32 1; b32 1];
               dense_shape := (3, 3) |}
            [[b32 0; b32 1]; [b32 1; b32 0]] zero relu 3 3 2 2
            eq_refl eq_refl eq_refl eq_refl eq_refl eq_refl eq_refl eq_refl
            (Nat.lt_0_succ 1) (Nat.lt_0_succ 2) _).
  intros t v Ht. cbn [example_convolution GraphConvolution_set_weights
                        GraphConvolution_init gc_act].
  unfold tf_nn_relu. rewrite Ht. reflexivity.
Defined.

Lemma X9_graph_convolution_sparse_witness :
  has_shape 3 2 [[b32 1; b32 0]; [b32 0; b32 1]; [b32 0; b32 0]] = true
  /\ indices_in_bounds {| indices := [(0, 0); (1, 1); (2, 2)];
                          values := [b32 1; b32 1; b32 1];
                          dense_shape := (3, 3) |} = true
  /\ indices_in_bounds {| indices := [(0, 1); (1, 0)];
                          values := [b32 1; b32 1];
                          dense_shape := (3, 3) |} = true
  /\ exists outputs : matrix binary32,
       GraphConvolutionSparse_call example_sparse_convolution
         (tf_constant {| indices := [(0, 0); (1, 1); (2, 2)];
                         values := [b32 1; b32 1; b32 1];
                         dense_shape := (3, 3) |}) empty_env
       = Ok outputs
       /\ has_shape 3 2 outputs = true.
Proof.
  split; [reflexivity|]. split; [reflexivity|]. split; [reflexivity|].
  destruct (X9_graph_convolution_sparse example_sparse_convolution
              (tf_constant {| indices := [(0, 0); (1, 1); (2, 2)];
                              values := [b32 1; b32 1; b32 1];
                              dense_shape := (3, 3) |}) empty_env
              {| indices := [(0, 0); (1, 1); (2, 2)];
                 values := [b32 1; b32 1; b32 1];
                 dense_shape := (3, 3) |}
              {| indices := [(0, 1); (1, 0)];
                 values := [b32 1; b32 1];
                 dense_shape := (3, 3) |}
              [[b32 1; b32 0]; [b32 0; b32 1]; [b32 0; b32 0]] zero relu 3 3 3 2
              eq_refl eq_refl eq_refl eq_refl eq_refl eq_refl eq_refl eq_refl eq_refl
              eq_refl eq_refl (Nat.lt_0_succ 2) (Nat.lt_0_succ 2))
    as (outputs & Hcall & Hshape & _).
  - intros t v Ht. cbn [example_sparse_convolution GraphConvolutionSparse_set_weights
                          GraphConvolutionSparse_init gcs_act].
    unfold tf_nn_relu. rewrite Ht. reflexivity.
  - exists outputs. split; [exact Hcall|exact Hshape].
Defined.

Lemma X10_model_graph_witness :
  setup example_flags example_data initial_state
  = (example_state_after_epochs 0, Ok example_adj_orig)
  /\ has_shape 4 4 (adj example_data) = true
  /\ has_shape 4 4 (adj_train example_data) = true
  /\ 0 < hidden1 example_flags
  /\ 0 < hidden2 example_flags
  /\ exists c : binary32,
       opt_cost example_opt (training_env example_flags (example_state_after_epochs 0))
       = Ok c.
Proof.
  assert (H1 : setup example_flags example_data initial_state
               = (example_state_after_epochs 0, Ok example_adj_orig))
    by (vm_compute; reflexivity).
  split; [exact H1|].
  split; [reflexivity|]. split; [reflexivity|].
  split; [exact (Nat.lt_0_succ 1)|]. split; [exact (Nat.lt_0_succ 1)|].
  destruct (X10_model_graph_shapes example_flags example_data 4
              (example_state_after_epochs 0) example_adj_orig H1 eq_refl eq_refl
              (Nat.lt_0_succ 3) (Nat.lt_0_succ 1) (Nat.lt_0_succ 1)
              (training_env example_flags (example_state_after_epochs 0))
              (dropout example_flags)
              (glorot_uniform 4 2 "yeast_gcn/gcn_sparse_layer_vars/weights")
              (glorot_uniform 2 2 "yeast_gcn/gcn_dense_layer_vars/weights")
              eq_refl)
    as (emb & recon & labels & c & _ & _ & _ & _ & _ & _ & Hc);
    [vm_compute; reflexivity..|].
  exists c. exact Hc.
Defined.


Lemma X14_hidden_layer_witness :
  model_hidden1 example_model (evaluation_env (example_state_after_epochs 0))
  = Ok [[b32 0; b32 0]; [b32 0; b32 0]; [half; b32 0]; [b32 0; half]]
  /\ Forall (Forall (fun v : binary32 => SFltb v zero = false))
       [[b32 0; b32 0]; [b32 0; b32 0]; [half; b32 0]; [b32 0; half]].
Proof.
  assert (H1 : model_hidden1 example_model
                 (evaluation_env (example_state_after_epochs 0))
               = Ok [[b32 0; b32 0]; [b32 0; b32 0]; [half; b32 0]; [b32 0; half]])
    by (vm_compute; reflexivity).
  split; [exact H1|].
  exact (X14_hidden_layer_not_negative example_flags example_data
           (evaluation_env (example_state_after_epochs 0)) _ H1).
Defined.

End FurtherRuns.
